(** * IoT telemetry ingestor: ingestion, cache and alert pipeline

    A shallow embedding of the NestJS services

      - [RedisService]      (src/redis/redis.service.ts)
      - [AlertService]      (src/alert/alert.service.ts)
      - [TelemetryService]  (src/telemetry/telemetry.service.ts)
      - [TelemetryController] (src/telemetry/telemetry.controller.ts)

    Every [async] method becomes a computation in the monad [M]: it reads and
    updates an explicit [World] (the MongoDB collection, the Redis server and
    connection, the webhook endpoint, the clock) and either returns a value or
    throws an exception.  The three external services are modelled with their
    documented behaviour and a script of outcomes each, so that every failure
    the code guards against can be produced.

    JavaScript [number]s are modelled by the rationals they denote (request
    validation admits finite numbers only); comparisons are exact.  The
    arithmetic of the aggregation pipeline is the server's: [$avg] and
    [$round] are operators the development is given, not computed here.
    Calls to the logger are left out: they change neither a returned value
    nor a state modelled here.

    Where a method makes calls it does not await, the calls are taken step by
    step ([Async]): each runs up to its first [await] where it is made, and
    an event loop resumes the suspended ones, in an order the development is
    given. *)

From Stdlib Require Import ZArith QArith Qround Qabs Ascii String List Bool Lia
  Lqa.
From stdpp Require Import base option list gmap strings.

Local Open Scope string_scope.
Local Open Scope list_scope.
Local Open Scope Z_scope.

(* ===================================================================== *)
(** ** Data model *)
(* ===================================================================== *)

Definition number := Q.

(** [a > b] on numbers. *)
Definition Qgtb (a b : number) : bool := negb (Qle_bool a b).

(** telemetry/dto/telemetry.dto.ts *)
Record MetricsDto := mkMetrics {
  temperature : number;
  humidity : number
}.

Record TelemetryDto := mkTelemetryDto {
  deviceId : string;
  siteId : string;
  ts : string;
  metrics : MetricsDto
}.

(** The body of POST /telemetry: a bare array, a [{readings: [...]}] wrapper,
    or a single reading. *)
Inductive Payload :=
  | PArray (readings : list TelemetryDto)
  | PBulk (readings : list TelemetryDto)
  | PSingle (reading : TelemetryDto).

(** telemetry/dto/alert.dto.ts *)
Inductive AlertReason := HIGH_TEMPERATURE | HIGH_HUMIDITY.

Definition AlertReason_str (r : AlertReason) : string :=
  match r with
  | HIGH_TEMPERATURE => "HIGH_TEMPERATURE"
  | HIGH_HUMIDITY => "HIGH_HUMIDITY"
  end.

Record AlertDto := mkAlert {
  alert_deviceId : string;
  alert_siteId : string;
  alert_ts : string;
  alert_reason : AlertReason;
  alert_value : number
}.

(** telemetry/schemas/telemetry.schema.ts: a stored document.  [doc_ts] and
    [createdAt] are instants (milliseconds since the epoch). *)
Record TelemetryDocument := mkDoc {
  doc_id : nat;
  doc_deviceId : string;
  doc_siteId : string;
  doc_ts : Z;
  doc_metrics : MetricsDto;
  createdAt : Z
}.

(** What [insertMany] is given: the timestamp is [new Date(reading.ts)],
    [None] standing for an Invalid Date. *)
Record TelemetryInput := mkInput {
  in_deviceId : string;
  in_siteId : string;
  in_ts : option Z;
  in_metrics : MetricsDto
}.

(** telemetry/dto/query.dto.ts *)
Record SiteSummaryResponseDto := mkSummary {
  count : nat;
  avgTemperature : number;
  maxTemperature : number;
  avgHumidity : number;
  maxHumidity : number;
  uniqueDevices : nat
}.

(** Values produced by [JSON.parse]. *)
#[local] Set Warnings "-register-all".
Inductive Json :=
  | JNull
  | JBool (b : bool)
  | JNum (q : number)
  | JStr (s : string)
  | JArr (l : list Json)
  | JObj (fields : list (string * Json)).
#[local] Set Warnings "register-all".

(** JavaScript truthiness, as tested by [if (cached)]. *)
Definition truthy (v : Json) : bool :=
  match v with
  | JNull => false
  | JBool b => b
  | JNum q => negb (Qeq_bool q 0)
  | JStr s => negb (String.eqb s "")
  | JArr _ | JObj _ => true
  end.

(** The two shapes handed to [RedisService.cacheLatest] as [data]. *)
Inductive CachePayload :=
  | CacheData (dev site tstamp : string) (m : MetricsDto)
              (id : nat) (created : Z)
  | LeanDoc (d : TelemetryDocument).

(** What [TelemetryService.getLatest] resolves to ([Promise<any>]): the parsed
    cache entry, or the lean MongoDB document. *)
Inductive LatestReading :=
  | FromCache (v : Json)
  | FromMongo (d : TelemetryDocument).

(* ===================================================================== *)
(** ** Exceptions and the world *)
(* ===================================================================== *)

Inductive HttpOutcome :=
  | Responded (status : Z)
  | NetworkError
  | TimedOut.

Inductive Exn :=
  | MongoError                        (* the driver rejected the operation *)
  | ValidationError                   (* mongoose schema validation *)
  | NotFoundException (msg : string)
  | TypeError
  | SyntaxError                       (* JSON.parse *)
  | SerializeError                    (* JSON.stringify *)
  | ReplyError                        (* ioredis command rejected *)
  | AxiosError (o : HttpOutcome).

Inductive Res (A : Type) :=
  | Ok (a : A)
  | Throw (e : Exn).
Arguments Ok {A} a.
Arguments Throw {A} e.

(** Commands received by the Redis server, in order. *)
Inductive RedisCmd :=
  | SETEX (key : string) (ttl : Z) (val : string)
  | GET (key : string)
  | EXISTS (key : string).

(** ioredis client together with the server it talks to.  [kv] maps a key to
    its value and the instant at which it expires; [redis_faults] scripts the
    coming commands: [true] makes the command reject. *)
Record RedisClient := mkRedisClient {
  kv : gmap string (string * Z);
  redis_faults : list bool;
  commands : list RedisCmd
}.

(** The mutable fields of [RedisService]. *)
Record RedisService := mkRedis {
  client : RedisClient;
  isConnected : bool
}.

(** What the server does with an operation: it answers, or it rejects it.
    A rejected insert may have written documents by then: an ordered
    [insertMany] stops at the first failure and is not rolled back, so the
    first [written] documents of the batch stay in the collection. *)
Inductive MongoOutcome :=
  | Answers
  | Rejects (written : nat).

(** The telemetry collection behind the mongoose model.  [mongo_faults]
    scripts the coming operations, [mongo_calls] counts the operations that
    reached the server. *)
Record Mongo := mkMongo {
  collection : list TelemetryDocument;
  mongo_faults : list MongoOutcome;
  mongo_calls : nat
}.

(** The webhook endpoint: scripted outcomes of the coming requests and the
    requests made so far. *)
Record Http := mkHttp {
  outcomes : list HttpOutcome;
  requests : list (string * AlertDto)
}.

Record World := mkWorld {
  clock : Z;
  mongo : Mongo;
  redis : RedisService;
  http : Http
}.

Definition set_mongo (m : Mongo) (w : World) : World :=
  mkWorld (clock w) m (redis w) (http w).
Definition set_redis (r : RedisService) (w : World) : World :=
  mkWorld (clock w) (mongo w) r (http w).
Definition set_http (h : Http) (w : World) : World :=
  mkWorld (clock w) (mongo w) (redis w) h.
Definition set_client (c : RedisClient) (w : World) : World :=
  set_redis (mkRedis c (isConnected (redis w))) w.

(** Time passing between two requests. *)
Definition advance (dt : Z) (w : World) : World :=
  mkWorld (clock w + dt) (mongo w) (redis w) (http w).

(* ===================================================================== *)
(** ** The monad of async methods *)
(* ===================================================================== *)

Definition M (A : Type) : Type := World -> Res A * World.

Definition ret {A} (a : A) : M A := fun w => (Ok a, w).

Definition throw {A} (e : Exn) : M A := fun w => (Throw e, w).

Definition bind {A B} (m : M A) (k : A -> M B) : M B :=
  fun w =>
    match m w with
    | (Ok a, w') => k a w'
    | (Throw e, w') => (Throw e, w')
    end.

(** [try { m } catch (error) { h error }] *)
Definition try_catch {A} (m : M A) (h : Exn -> M A) : M A :=
  fun w =>
    match m w with
    | (Ok a, w') => (Ok a, w')
    | (Throw e, w') => h e w'
    end.

(** [promise.catch(handler)] on the promise of a call that is not awaited
    and that awaits a single operation: the operation is started where the
    call is made, and nothing is left to do when its outcome arrives.  The
    handler only logs. *)
Definition fire_and_forget (m : M unit) : M unit :=
  try_catch m (fun _ => ret tt).

Declare Scope async_scope.
Delimit Scope async_scope with async.
Notation "'await' x <- m ;; k" := (bind m (fun x => k))
  (at level 100, x name, m at next level, right associativity) : async_scope.
Notation "'await_' m ;; k" := (bind m (fun _ => k))
  (at level 100, m at next level, right associativity) : async_scope.
Local Open Scope async_scope.

(** [for (const x of l) { await body(x) }] *)
Fixpoint for_of {A} (l : list A) (body : A -> M unit) : M unit :=
  match l with
  | [] => ret tt
  | x :: l' => await_ body x ;; for_of l' body
  end.

Definition result {A} (m : M A) (w : World) : Res A := fst (m w).
Definition after {A} (m : M A) (w : World) : World := snd (m w).

(* ===================================================================== *)
(** ** Async functions and their suspension points *)
(* ===================================================================== *)

(** An async function seen step by step: it returns, it throws, or it is at
    [await op], with the code [k] to run once the outcome of [op] is
    known. *)
Inductive Async (A : Type) : Type :=
  | Return (a : A)
  | Raise (e : Exn)
  | Await {B : Type} (op : M B) (k : Res B -> Async A).
Arguments Return {A} a.
Arguments Raise {A} e.
Arguments Await {A B} op k.

(** [await op]: a rejected promise throws where it is awaited. *)
Definition suspend {B} (op : M B) : Async B :=
  Await op (fun r => match r with
                     | Ok b => Return b
                     | Throw e => Raise e
                     end).

Fixpoint and_then {A B} (m : Async A) (f : A -> Async B) : Async B :=
  match m with
  | Return a => f a
  | Raise e => Raise e
  | Await op k => Await op (fun r => and_then (k r) f)
  end.

Declare Scope steps_scope.
Delimit Scope steps_scope with steps.
Notation "'await' x <- m ;; k" := (and_then (suspend m) (fun x => k))
  (at level 100, x name, m at next level, right associativity) : steps_scope.
Notation "'await_' m ;; k" := (and_then (suspend m) (fun _ => k))
  (at level 100, m at next level, right associativity) : steps_scope.
Notation "'block' x <- m ;; k" := (and_then m (fun x => k))
  (at level 100, x name, m at next level, right associativity) : steps_scope.

(** [for (const x of l) { await body(x) }] *)
Fixpoint for_each {A} (l : list A) (body : A -> M unit) : Async unit :=
  match l with
  | [] => Return tt
  | x :: l' => (await_ body x ;; for_each l' body)%steps
  end.

(** The call run from its start to its end with nothing in between. *)
Fixpoint atomic {A} (m : Async A) : M A :=
  match m with
  | Return a => ret a
  | Raise e => throw e
  | Await op k => fun w => let '(r, w') := op w in atomic (k r) w'
  end.

(** A call is run up to its next [await]: the awaited operation is started
    at once, so that its effect takes place now, and the call is suspended
    with the code that will run on the outcome.  [None]: the call has
    settled.  This is what happens when the call is made, and again each
    time the event loop resumes it. *)
Definition resume (c : Async unit) (w : World)
  : option (Async unit) * World :=
  match c with
  | Return _ | Raise _ => (None, w)
  | Await op k => let '(r, w') := op w in (Some (k r), w')
  end.

(** Calls made one after the other, none of them awaited. *)
Fixpoint start_all (calls : list (Async unit)) (w : World)
  : list (Async unit) * World :=
  match calls with
  | [] => ([], w)
  | c :: calls' =>
      let '(suspended, w1) := resume c w in
      let '(pool, w2) := start_all calls' w1 in
      (option_list suspended ++ pool, w2)
  end.

(* ===================================================================== *)
(** ** ioredis client and Redis server *)
(* ===================================================================== *)

(** A key is visible until its expiry instant. *)
Definition redis_lookup (now : Z) (c : RedisClient) (key : string)
  : option string :=
  match kv c !! key with
  | Some (v, expires) => if now <? expires then Some v else None
  | None => None
  end.

(** One command: it is logged, the next scripted fault is consumed, and
    unless the command rejects, [run] computes the reply and the new
    keyspace. *)
Definition redis_command {A} (cmd : RedisCmd)
    (run : Z -> RedisClient -> Res A * gmap string (string * Z)) : M A :=
  fun w =>
    let c := client (redis w) in
    let log := commands c ++ [cmd] in
    let rest := tail (redis_faults c) in
    if hd false (redis_faults c)
    then (Throw ReplyError, set_client (mkRedisClient (kv c) rest log) w)
    else let '(r, kv') := run (clock w) c in
         (r, set_client (mkRedisClient kv' rest log) w).

(** SETEX key seconds value; Redis rejects a non-positive expire time.  An
    expire time too large for the server to hold is rejected as well: that
    rejection is among those [redis_faults] scripts. *)
Definition client_setex (key : string) (ttl : Z) (val : string) : M string :=
  redis_command (SETEX key ttl val) (fun now c =>
    if ttl <=? 0 then (Throw ReplyError, kv c)
    else (Ok "OK", <[key := (val, now + 1000 * ttl)]> (kv c))).

(** GET key; [None] is the nil reply. *)
Definition client_get (key : string) : M (option string) :=
  redis_command (GET key) (fun now c => (Ok (redis_lookup now c key), kv c)).

(** EXISTS key; replies 1 or 0. *)
Definition client_exists (key : string) : M Z :=
  redis_command (EXISTS key) (fun now c =>
    (Ok (match redis_lookup now c key with Some _ => 1 | None => 0 end),
     kv c)).

Definition this_isConnected : M bool :=
  fun w => (Ok (isConnected (redis w)), w).

(** The events ioredis emits: they only flip [isConnected]. *)
Definition on_connect (w : World) : World :=
  set_redis (mkRedis (client (redis w)) true) w.
Definition on_close (w : World) : World :=
  set_redis (mkRedis (client (redis w)) false) w.

(* ===================================================================== *)
(** ** What the services are given *)
(* ===================================================================== *)

Section Services.

#[local] Set Default Proof Using "Type".

(** The JavaScript built-ins the services call.  [JSON_stringify] and
    [JSON_parse] return [None] where JavaScript throws; [Date_parse s] is
    [new Date(s)], [None] being an Invalid Date. *)
Variable JSON_stringify : CachePayload -> option string.
Variable JSON_parse : string -> option Json.
Variable Date_parse : string -> option Z.

(** The arithmetic of the aggregation pipeline, which the MongoDB server
    carries out on IEEE 754 doubles: [Mongo_avg l] is what [$avg] gives for
    the values [l] of a group, in the order the group received them,
    [Mongo_round x place] is [{ $round: [x, place] }]. *)
Variable Mongo_avg : list number -> number.
Variable Mongo_round : number -> Z -> number.

(** The order in which the event loop resumes suspended calls: at its
    [n]-th turn it resumes the call at position [event_loop n] among those
    then suspended (counted round the pool). *)
Variable event_loop : nat -> nat.

(** The event loop, from its turn number [turn] on, for at most [turns]
    turns: one suspended call is resumed at each turn, until none is
    left. *)
Fixpoint run_event_loop (turns turn : nat) (pool : list (Async unit))
    (w : World) : list (Async unit) * World :=
  match turns with
  | O => (pool, w)
  | S turns' =>
      let i := (event_loop turn `mod` length pool)%nat in
      match pool !! i with
      | None => (pool, w)
      | Some c =>
          let '(c', w') := resume c w in
          run_event_loop turns' (S turn)
            (match c' with
             | Some c' => <[i := c']> pool
             | None => delete i pool
             end) w'
      end
  end.

(** [call_1(...).catch(handler); ...; call_n(...).catch(handler)] with
    handlers that only log: every call runs up to its first [await] where it
    is made; the caller goes on, and the event loop resumes the suspended
    calls in the order it chooses.  The world given back is the one in which
    they have settled, [turns] being enough turns for that. *)
Definition not_awaited (turns : nat) (calls : list (Async unit)) : M unit :=
  fun w =>
    let '(pool, w1) := start_all calls w in
    (Ok tt, snd (run_event_loop turns 0 pool w1)).

(* ===================================================================== *)
(** ** MongoDB collection behind the mongoose model *)
(* ===================================================================== *)

(** One operation that reaches the server: counted, and answered or
    rejected as the script says.  [run] computes the answer and the
    collection it leaves; [interrupted written] is the collection a rejected
    operation leaves. *)
Definition mongo_operation {A}
    (run : Z -> list TelemetryDocument -> A * list TelemetryDocument)
    (interrupted : nat -> Z -> list TelemetryDocument
                   -> list TelemetryDocument) : M A :=
  fun w =>
    let m := mongo w in
    let rest := tail (mongo_faults m) in
    let n := S (mongo_calls m) in
    match hd Answers (mongo_faults m) with
    | Rejects written =>
        (Throw MongoError,
         set_mongo (mkMongo (interrupted written (clock w) (collection m))
                            rest n) w)
    | Answers =>
        let '(a, coll) := run (clock w) (collection m) in
        (Ok a, set_mongo (mkMongo coll rest n) w)
    end.

(** A query leaves the collection as it is, answered or not. *)
Definition mongo_query {A} (run : list TelemetryDocument -> A) : M A :=
  mongo_operation (fun _ coll => (run coll, coll)) (fun _ _ coll => coll).

Definition store (now : Z) (first_id : nat) (i : nat) (x : TelemetryInput)
  : TelemetryDocument :=
  mkDoc (first_id + i) (in_deviceId x) (in_siteId x)
        (default 0 (in_ts x)) (in_metrics x) now.

(** [Model.insertMany(docs)] (ordered): every document is validated first,
    [ts] being a required Date, and a failed validation sends nothing to the
    server.  With no document to insert mongoose resolves to [[]] without
    calling the driver.  Otherwise one batched insert stores the documents in
    order; when it is rejected, the documents written before the failure
    stay. *)
Definition insertMany (docs : list TelemetryInput)
  : M (list TelemetryDocument) :=
  if forallb (fun x => bool_decide (is_Some (in_ts x))) docs
  then match docs with
       | [] => ret []
       | _ :: _ =>
           mongo_operation
             (fun now coll =>
                let stored := imap (store now (length coll)) docs in
                (stored, coll ++ stored))
             (fun written now coll =>
                coll ++ take written (imap (store now (length coll)) docs))
       end
  else throw ValidationError.

(** The greatest [ts] first; among equal ones, the one met first. *)
Definition sort_ts_desc_first (l : list TelemetryDocument)
  : option TelemetryDocument :=
  fold_left (fun best d =>
               match best with
               | None => Some d
               | Some b => if doc_ts b <? doc_ts d then Some d else Some b
               end) l None.

(** [Model.findOne({ deviceId }).sort({ ts: -1 }).lean().exec()] *)
Definition findOne_sort_ts_desc (dev : string)
  : M (option TelemetryDocument) :=
  mongo_query (fun coll =>
    sort_ts_desc_first (filter (fun d => doc_deviceId d = dev) coll)).

(** *** The aggregation pipeline of [getSiteSummary] *)

(** A Date as the driver writes it into the query: an Invalid Date goes out
    as the epoch, 1970-01-01T00:00:00Z. *)
Definition bson_date (d : option Z) : Z := default 0 d.

(** [$match: { siteId, ts: { $gte: fromDate, $lte: toDate } }] *)
Definition matches (site : string) (fromDate toDate : option Z)
    (d : TelemetryDocument) : bool :=
  bool_decide (doc_siteId d = site) &&
  ((bson_date fromDate <=? doc_ts d) && (doc_ts d <=? bson_date toDate)).

Definition match_stage (site : string) (fromDate toDate : option Z)
    (coll : list TelemetryDocument) : list TelemetryDocument :=
  List.filter (matches site fromDate toDate) coll.

(** The accumulators of [$group]; [$avg] is [Mongo_avg]. *)
Definition acc_max (x : number) (l : list number) : number :=
  fold_left (fun m y => if Qle_bool m y then y else m) l x.

Definition acc_addToSet (l : list string) : list string :=
  fold_left (fun s x => if bool_decide (x ∈ s) then s else s ++ [x]) l [].

(** The document leaving [$group]. *)
Record Grouped := mkGrouped {
  g_count : nat;
  g_avgTemperature : number;
  g_maxTemperature : number;
  g_avgHumidity : number;
  g_maxHumidity : number;
  g_uniqueDevices : list string
}.

(** [$group: { _id: null, ... }]: one group when any document comes in, no
    group otherwise. *)
Definition group_stage (docs : list TelemetryDocument) : list Grouped :=
  match docs with
  | [] => []
  | d :: rest =>
      let temps := map (fun x => temperature (doc_metrics x)) docs in
      let hums := map (fun x => humidity (doc_metrics x)) docs in
      [ mkGrouped (length docs)
          (Mongo_avg temps)
          (acc_max (temperature (doc_metrics d))
                   (map (fun x => temperature (doc_metrics x)) rest))
          (Mongo_avg hums)
          (acc_max (humidity (doc_metrics d))
                   (map (fun x => humidity (doc_metrics x)) rest))
          (acc_addToSet (map doc_deviceId docs)) ]
  end.

(** [$project] *)
Definition project_stage (g : Grouped) : SiteSummaryResponseDto :=
  mkSummary (g_count g)
    (Mongo_round (g_avgTemperature g) 2) (Mongo_round (g_maxTemperature g) 2)
    (Mongo_round (g_avgHumidity g) 2) (Mongo_round (g_maxHumidity g) 2)
    (length (g_uniqueDevices g)).

Definition aggregate (site : string) (fromDate toDate : option Z)
  : M (list SiteSummaryResponseDto) :=
  mongo_query (fun coll =>
    map project_stage (group_stage (match_stage site fromDate toDate coll))).

(* ===================================================================== *)
(** ** The webhook *)
(* ===================================================================== *)

(** [firstValueFrom(httpService.post(url, alert, ...))]: the request is sent;
    the promise rejects on a network error, on a timeout and on a status
    outside 2xx, and resolves to the status otherwise. *)
Definition httpService_post (url : string) (alert : AlertDto) : M Z :=
  fun w =>
    let h := http w in
    let o := hd (Responded 200) (outcomes h) in
    let w' := set_http (mkHttp (tail (outcomes h))
                               (requests h ++ [(url, alert)])) w in
    match o with
    | Responded status =>
        if (200 <=? status) && (status <? 300)
        then (Ok status, w') else (Throw (AxiosError o), w')
    | _ => (Throw (AxiosError o), w')
    end.

(* ===================================================================== *)
(** ** The services *)
(* ===================================================================== *)

(** *** redis/redis.service.ts *)

Definition DEFAULT_TTL : Z := 86400.

Definition cacheLatest (deviceId : string) (data : CachePayload) (ttl : Z)
  : M unit :=
  await connected <- this_isConnected ;;
  if negb connected then ret tt
  else
    try_catch
      (let key := "latest:" +:+ deviceId in
       await json <- match JSON_stringify data with
                     | Some s => ret s
                     | None => throw SerializeError
                     end ;;
       await_ client_setex key ttl json ;;
       ret tt)
      (fun error => ret tt).

(** [null] is [JNull]. *)
Definition RedisService_getLatest (deviceId : string) : M Json :=
  await connected <- this_isConnected ;;
  if negb connected then ret JNull
  else
    try_catch
      (let key := "latest:" +:+ deviceId in
       await data <- client_get key ;;
       match data with
       | None => ret JNull
       | Some s =>
           if String.eqb s "" then ret JNull
           else match JSON_parse s with
                | Some v => ret v
                | None => throw SyntaxError
                end
       end)
      (fun error => ret JNull).

Definition alert_key (deviceId : string) (reason : AlertReason) : string :=
  "alert:" +:+ deviceId +:+ ":" +:+ AlertReason_str reason.

Definition wasAlertRecentlySent (deviceId : string) (reason : AlertReason)
  : M bool :=
  await connected <- this_isConnected ;;
  if negb connected then ret false
  else
    try_catch
      (let key := alert_key deviceId reason in
       await exists_ <- client_exists key ;;
       ret (exists_ =? 1))
      (fun error => ret false).

Definition markAlertSent (deviceId : string) (reason : AlertReason)
    (windowSeconds : Z) : M unit :=
  await connected <- this_isConnected ;;
  if negb connected then ret tt
  else
    try_catch
      (let key := alert_key deviceId reason in
       await_ client_setex key windowSeconds "1" ;;
       ret tt)
      (fun error => ret tt).

(** *** alert/alert.service.ts *)

Record AlertService := mkAlertService {
  webhookUrl : string;
  dedupWindow : Z
}.

(** The constructor: [configService.get(...) || default]; an absent value
    and a falsy one both give the default. *)
Definition AlertService_new (cfg_webhookUrl : option string)
    (cfg_dedupWindow : option Z) : AlertService :=
  mkAlertService
    (default "" cfg_webhookUrl)
    (match cfg_dedupWindow with
     | Some n => if n =? 0 then 60 else n
     | None => 60
     end).

Definition TEMPERATURE_THRESHOLD : number := 50%Q.
Definition HUMIDITY_THRESHOLD : number := 90%Q.

Definition shouldSendAlert (deviceId : string) (reason : AlertReason)
  : M bool :=
  await wasRecentlySent <- wasAlertRecentlySent deviceId reason ;;
  ret (negb wasRecentlySent).

Definition sendAlert (this : AlertService) (alert : AlertDto) : M unit :=
  try_catch
    (await response <- httpService_post (webhookUrl this) alert ;;
     ret tt)
    (fun error => ret tt).

Definition checkAndAlert (this : AlertService)
    (deviceId siteId ts : string) (temperature humidity : number)
  : M unit :=
  let alerts : list AlertDto := [] in
  (* Check temperature threshold *)
  await alerts <-
    (if Qgtb temperature TEMPERATURE_THRESHOLD then
       await shouldSend <- shouldSendAlert deviceId HIGH_TEMPERATURE ;;
       if shouldSend then
         let alerts :=
           alerts ++ [mkAlert deviceId siteId ts HIGH_TEMPERATURE temperature]
         in
         await_ markAlertSent deviceId HIGH_TEMPERATURE (dedupWindow this) ;;
         ret alerts
       else ret alerts
     else ret alerts) ;;
  (* Check humidity threshold *)
  await alerts <-
    (if Qgtb humidity HUMIDITY_THRESHOLD then
       await shouldSend <- shouldSendAlert deviceId HIGH_HUMIDITY ;;
       if shouldSend then
         let alerts :=
           alerts ++ [mkAlert deviceId siteId ts HIGH_HUMIDITY humidity]
         in
         await_ markAlertSent deviceId HIGH_HUMIDITY (dedupWindow this) ;;
         ret alerts
       else ret alerts
     else ret alerts) ;;
  (* Send all alerts *)
  for_of alerts (sendAlert this).

(** The same method with its suspension points, for the calls that are not
    awaited; [checkAndAlert] is this call run with nothing in between. *)
Definition checkAndAlert_steps (this : AlertService)
    (deviceId siteId ts : string) (temperature humidity : number)
  : Async unit :=
  (let alerts : list AlertDto := [] in
   (* Check temperature threshold *)
   block alerts <-
     (if Qgtb temperature TEMPERATURE_THRESHOLD then
        await shouldSend <- shouldSendAlert deviceId HIGH_TEMPERATURE ;;
        if shouldSend then
          let alerts :=
            alerts ++ [mkAlert deviceId siteId ts HIGH_TEMPERATURE temperature]
          in
          await_ markAlertSent deviceId HIGH_TEMPERATURE (dedupWindow this) ;;
          Return alerts
        else Return alerts
      else Return alerts) ;;
   (* Check humidity threshold *)
   block alerts <-
     (if Qgtb humidity HUMIDITY_THRESHOLD then
        await shouldSend <- shouldSendAlert deviceId HIGH_HUMIDITY ;;
        if shouldSend then
          let alerts :=
            alerts ++ [mkAlert deviceId siteId ts HIGH_HUMIDITY humidity]
          in
          await_ markAlertSent deviceId HIGH_HUMIDITY (dedupWindow this) ;;
          Return alerts
        else Return alerts
      else Return alerts) ;;
   (* Send all alerts *)
   for_each alerts (sendAlert this))%steps.

(** *** telemetry/telemetry.service.ts *)

(** [doc] is [documents[i]], [None] when the index is out of range: reading
    [_id] of [undefined] throws. *)
Definition cacheLatestReading (reading : TelemetryDto)
    (doc : option TelemetryDocument) : M unit :=
  match doc with
  | None => throw TypeError
  | Some d =>
      let cacheData :=
        CacheData (deviceId reading) (siteId reading) (ts reading)
                  (metrics reading) (doc_id d) (createdAt d) in
      cacheLatest (deviceId reading) cacheData DEFAULT_TTL
  end.

(** The same method with its suspension point. *)
Definition cacheLatestReading_steps (reading : TelemetryDto)
    (doc : option TelemetryDocument) : Async unit :=
  match doc with
  | None => Raise TypeError
  | Some d =>
      let cacheData :=
        CacheData (deviceId reading) (siteId reading) (ts reading)
                  (metrics reading) (doc_id d) (createdAt d) in
      (await_ cacheLatest (deviceId reading) cacheData DEFAULT_TTL ;;
       Return tt)%steps
  end.

(** The two calls the loop makes for the reading at index [i]. *)
Definition background_calls (alertService : AlertService)
    (documents : list TelemetryDocument) (i : nat) (reading : TelemetryDto)
  : list (Async unit) :=
  let doc := documents !! i in
  [ (* Cache latest reading per device (fire and forget) *)
    cacheLatestReading_steps reading doc;
    (* Check for alerts (fire and forget) *)
    checkAndAlert_steps alertService
      (deviceId reading) (siteId reading) (ts reading)
      (temperature (metrics reading)) (humidity (metrics reading)) ].

(** A call of [cacheLatestReading] is resumed once and a call of
    [checkAndAlert] at most six times before they have settled. *)
Definition TURNS_PER_READING : nat := 7.

Definition ingestTelemetry (alertService : AlertService)
    (readings : list TelemetryDto) : M (list TelemetryDocument) :=
  await documents <-
    insertMany
      (map (fun reading =>
              mkInput (deviceId reading) (siteId reading)
                      (Date_parse (ts reading)) (metrics reading))
           readings) ;;
  (* Process each reading for caching and alerts (async, non-blocking) *)
  await_ not_awaited (TURNS_PER_READING * length readings)
           (concat (imap (background_calls alertService documents)
                         readings)) ;;
  ret documents.

Definition getLatest (deviceId : string) : M LatestReading :=
  (* Try Redis cache first *)
  await cached <- RedisService_getLatest deviceId ;;
  if truthy cached then ret (FromCache cached)
  else
    (* Fallback to MongoDB *)
    await latest <- findOne_sort_ts_desc deviceId ;;
    match latest with
    | None =>
        throw (NotFoundException
                 ("No telemetry data found for device: " +:+ deviceId))
    | Some latest =>
        await_ fire_and_forget (cacheLatest deviceId (LeanDoc latest)
                                            DEFAULT_TTL) ;;
        ret (FromMongo latest)
    end.

Definition EMPTY_SUMMARY : SiteSummaryResponseDto :=
  mkSummary 0 0%Q 0%Q 0%Q 0%Q 0.

Definition getSiteSummary (siteId from to : string)
  : M SiteSummaryResponseDto :=
  let fromDate := Date_parse from in
  let toDate := Date_parse to in
  await result <- aggregate siteId fromDate toDate ;;
  match result with
  | [] => ret EMPTY_SUMMARY
  | first :: _ => ret first
  end.

(** *** telemetry/telemetry.controller.ts *)

Record IngestResponse := mkIngestResponse {
  resp_success : bool;
  resp_count : nat
}.

Definition normalize (payload : Payload) : list TelemetryDto :=
  match payload with
  | PArray readings => readings
  | PBulk readings => readings
  | PSingle reading => [reading]
  end.

Definition TelemetryController_ingestTelemetry (alertService : AlertService)
    (payload : Payload) : M IngestResponse :=
  let readings := normalize payload in
  await result <- ingestTelemetry alertService readings ;;
  ret (mkIngestResponse true (length result)).

(** *** redis/redis.service.ts, continued *)

(** PING carries no key and is not recorded in [commands]; like every
    command it consumes the next scripted fault. *)
Definition client_ping : M string :=
  fun w =>
    let c := client (redis w) in
    let w' := set_client (mkRedisClient (kv c) (tail (redis_faults c))
                                        (commands c)) w in
    if hd false (redis_faults c)
    then (Throw ReplyError, w') else (Ok "PONG", w').

Definition isHealthy : M bool :=
  await connected <- this_isConnected ;;
  if negb connected then ret false
  else
    try_catch
      (await_ client_ping ;;
       ret true)
      (fun error => ret false).

(** *** health/health.controller.ts *)

Record HealthResponse := mkHealthResponse {
  health_status : string;
  health_timestamp : Z;
  mongodb_status : string;
  mongodb_readyState : Z;
  redis_status : string
}.

(** [readyState] is [this.mongoConnection.readyState]; the timestamp is the
    instant [new Date()] gives. *)
Definition checkHealth (readyState : Z) : M HealthResponse :=
  let mongoHealthy := readyState =? 1 in
  await redisHealthy <- isHealthy ;;
  let overallHealthy := mongoHealthy && redisHealthy in
  fun w =>
    ret (mkHealthResponse
           (if overallHealthy then "healthy" else "unhealthy")
           (clock w)
           (if mongoHealthy then "up" else "down")
           readyState
           (if redisHealthy then "up" else "down")) w.

(** *** auth/auth.guard.ts *)

(** [s.split(' ')] *)
Fixpoint split_space (s : string) : list string :=
  match s with
  | EmptyString => [""]
  | String c rest =>
      if Ascii.eqb c " "
      then "" :: split_space rest
      else match split_space rest with
           | first :: others => String c first :: others
           | [] => [String c ""]
           end
  end.

(** [s.charCodeAt(i)] as an operand of a bitwise operator: the code unit,
    and 0 where the index is out of range (the result is NaN there, which
    bitwise operators read as 0). *)
Definition charCodeAt (s : string) (i : nat) : Z :=
  match String.get i s with
  | Some c => Z.of_nat (nat_of_ascii c)
  | None => 0
  end.

Definition constantTimeCompare (a b : string) : bool :=
  if negb (String.length a =? String.length b)%nat then false
  else
    let result :=
      fold_left (fun result i =>
                   Z.lor result (Z.lxor (charCodeAt a i) (charCodeAt b i)))
                (seq 0 (String.length a)) 0 in
    result =? 0.

(** [ingestToken] is a string or [undefined]. *)
Record AuthGuard := mkAuthGuard {
  ingestToken : option string
}.

(** What [canActivate] does: it returns a boolean or throws. *)
Inductive Activation :=
  | Returns (b : bool)
  | UnauthorizedException (message : string).

(** [!s] for a string or [undefined]. *)
Definition absent_or_empty (s : option string) : bool :=
  match s with
  | None => true
  | Some s => String.eqb s ""
  end.

(** [authorization] is [request.headers.authorization]. *)
Definition canActivate (this : AuthGuard) (authorization : option string)
  : Activation :=
  if absent_or_empty (ingestToken this) then Returns true
  else
    let authHeader := authorization in
    if absent_or_empty authHeader
    then UnauthorizedException "Missing Authorization header"
    else
      let parts := split_space (default "" authHeader) in
      let scheme := parts !! 0%nat in
      let token := parts !! 1%nat in
      if negb (bool_decide (scheme = Some "Bearer"))
      then UnauthorizedException
             "Invalid authentication scheme. Use Bearer token."
      else if absent_or_empty token
      then UnauthorizedException "Missing authentication token"
      else if negb (constantTimeCompare (default "" token)
                                        (default "" (ingestToken this)))
      then UnauthorizedException "Invalid authentication token"
      else Returns true.

(* ===================================================================== *)
(** ** Vocabulary of the statements *)
(* ===================================================================== *)

(** The next Redis command rejects. *)
Definition faulty (w : World) : bool :=
  hd false (redis_faults (client (redis w))).

(** The world after the client issued [cmd], the keyspace becoming [kv']. *)
Definition issue (cmd : RedisCmd) (kv' : gmap string (string * Z))
    (w : World) : World :=
  set_client (mkRedisClient kv' (tail (redis_faults (client (redis w))))
                            (commands (client (redis w)) ++ [cmd])) w.

(** [key] is present and not expired. *)
Definition marker_live (key : string) (w : World) : bool :=
  match redis_lookup (clock w) (client (redis w)) key with
  | Some _ => true
  | None => false
  end.

Definition keyspace (w : World) : gmap string (string * Z) :=
  kv (client (redis w)).

(** Commands and webhook requests made between [w] and [w']. *)
Definition new_commands (w w' : World) : list RedisCmd :=
  drop (length (commands (client (redis w)))) (commands (client (redis w'))).

Definition new_requests (w w' : World) : list (string * AlertDto) :=
  drop (length (requests (http w))) (requests (http w')).

(** The keyspace a SETEX leaves behind. *)
Definition setex_keyspace (key : string) (ttl : Z) (val : string)
    (w : World) : gmap string (string * Z) :=
  if faulty w || (ttl <=? 0) then keyspace w
  else <[key := (val, clock w + 1000 * ttl)]> (keyspace w).

(** What a GET of [latest:<deviceId>] is turned into. *)
Definition decode (data : option string) : Json :=
  match data with
  | None => JNull
  | Some s =>
      if String.eqb s "" then JNull
      else match JSON_parse s with Some v => v | None => JNull end
  end.

Definition is_failure (o : HttpOutcome) : bool :=
  match o with
  | Responded status => negb ((200 <=? status) && (status <? 300))
  | NetworkError | TimedOut => true
  end.

(** The world after one request to the webhook, whatever its outcome. *)
Definition requested (url : string) (alerts : list AlertDto) (w : World)
  : World :=
  set_http (mkHttp (drop (length alerts) (outcomes (http w)))
                   (requests (http w) ++ map (pair url) alerts)) w.

(** One of the two threshold blocks of [checkAndAlert]: the alerts it pushes
    and the world it leaves. *)
Definition gate (this : AlertService) (exceeds : bool) (alert : AlertDto)
    (w : World) : list AlertDto * World :=
  let key := alert_key (alert_deviceId alert) (alert_reason alert) in
  if exceeds then
    if isConnected (redis w) then
      let w1 := issue (EXISTS key) (keyspace w) w in
      if faulty w || negb (marker_live key w)
      then ([alert],
            issue (SETEX key (dedupWindow this) "1")
                  (setex_keyspace key (dedupWindow this) "1" w1) w1)
      else ([], w1)
    else ([alert], w)
  else ([], w).

(** The adapter is disconnected, or the command it is about to issue
    rejects. *)
Definition cache_down (w : World) : Prop :=
  isConnected (redis w) = false \/ faulty w = true.

(** The alerts sent by one call of [checkAndAlert]. *)
Definition sent (this : AlertService) (d s t : string) (temp hum : number)
    (w : World) : list AlertDto :=
  map snd (new_requests w (after (checkAndAlert this d s t temp hum) w)).

(** The Redis commands a threshold block issues. *)
Definition gate_commands (this : AlertService) (key : string)
    (exceeds connected open : bool) : list RedisCmd :=
  if exceeds && connected
  then EXISTS key ::
       (if open then [SETEX key (dedupWindow this) "1"] else [])
  else [].

Definition cmd_key (cmd : RedisCmd) : string :=
  match cmd with
  | SETEX key _ _ | GET key | EXISTS key => key
  end.

(** The metric of a reason is strictly above the threshold of that reason. *)
Definition exceeds_threshold (r : AlertReason) (temp hum : number) : Prop :=
  match r with
  | HIGH_TEMPERATURE => (50 < temp)%Q
  | HIGH_HUMIDITY => (90 < hum)%Q
  end.

Definition exceedsb (r : AlertReason) (temp hum : number) : bool :=
  match r with
  | HIGH_TEMPERATURE => Qgtb temp TEMPERATURE_THRESHOLD
  | HIGH_HUMIDITY => Qgtb hum HUMIDITY_THRESHOLD
  end.

(** The next MongoDB operation is answered. *)
Definition store_answers (w : World) : Prop :=
  hd Answers (mongo_faults (mongo w)) = Answers.

(** What the cache adapter answers for a device. *)
Definition cache_value (dev : string) (w : World) : Json :=
  if isConnected (redis w) && negb (faulty w)
  then decode (redis_lookup (clock w) (client (redis w)) ("latest:" +:+ dev))
  else JNull.

(** The world in which nothing is stored under [key]. *)
Definition forget (key : string) (w : World) : World :=
  set_client (mkRedisClient (delete key (keyspace w))
                            (redis_faults (client (redis w)))
                            (commands (client (redis w)))) w.

(** [s] contains a space. *)
Definition contains_space (s : string) : bool :=
  existsb (Ascii.eqb " ") (list_ascii_of_string s).

(** [op] leaves the store and the clock as they are and makes at most [j]
    webhook requests. *)
Definition makes_requests {B} (op : M B) (j : nat) : Prop :=
  forall w,
    mongo (snd (op w)) = mongo w /\ clock (snd (op w)) = clock w /\
    exists extra,
      requests (http (snd (op w))) = requests (http w) ++ extra /\
      (length extra <= j)%nat.

(** The suspended call [c] settles within [n] turns of the event loop,
    leaves the store and the clock as they are, and makes at most [q]
    webhook requests, whatever the outcomes of its operations. *)
Fixpoint bounded (n q : nat) (c : Async unit) : Prop :=
  match n with
  | O => False
  | S n' =>
      match c with
      | Return _ | Raise _ => True
      | Await op k =>
          exists j q', (j + q' <= q)%nat /\ makes_requests op j /\
                       forall r, bounded n' q' (k r)
      end
  end.



(** The same for a pool of suspended calls, turns and requests added up. *)
Fixpoint pool_bounded (n q : nat) (pool : list (Async unit)) : Prop :=
  match pool with
  | [] => True
  | c :: pool' =>
      exists n1 q1 n2 q2,
        (n1 + n2 <= n)%nat /\ (q1 + q2 <= q)%nat /\
        bounded n1 q1 c /\ pool_bounded n2 q2 pool'
  end.

(* ===================================================================== *)
(** ** Scenarios *)
(* ===================================================================== *)

(** A runtime for the scenarios: the timestamps used below, a serializer
    that writes a braced record, a parser that accepts braced text only. *)
Definition scenario_date (s : string) : option Z :=
  if String.eqb s "2025-10-01T00:00:00.000Z" then Some 1759276800000
  else if String.eqb s "2025-10-01T10:00:00.000Z" then Some 1759312800000
  else if String.eqb s "2025-10-01T10:00:30.000Z" then Some 1759312830000
  else if String.eqb s "2025-10-02T00:00:00.000Z" then Some 1759363200000
  else None.

Definition scenario_stringify (data : CachePayload) : option string :=
  Some match data with
       | CacheData dev _ _ _ _ _ => "{deviceId:" +:+ dev +:+ "}"
       | LeanDoc d => "{deviceId:" +:+ doc_deviceId d +:+ "}"
       end.

Definition scenario_parse (s : string) : option Json :=
  if String.prefix "{" s then Some (JObj [("text", JStr s)]) else None.

(** The integer nearest to [q], halves going to the even neighbour. *)
Definition round_half_even (q : Q) : Z :=
  let fl := Qfloor q in
  match (q - inject_Z fl ?= 1 # 2)%Q with
  | Lt => fl
  | Gt => fl + 1
  | Eq => if Z.even fl then fl else fl + 1
  end.

(** The IEEE 754 double nearest to [q], ties going to the even significand
    (53 bits, exponents down to the subnormal range; [q] is taken below the
    overflow threshold). *)
Definition binary64 (q : Q) : Q :=
  if Qeq_bool q 0 then 0%Q
  else
    let a := Qabs q in
    let l := Z.log2 (Qnum a) - Z.log2 (Z.pos (Qden a)) in
    let l := if Qle_bool (2 ^ l) a then l else l - 1 in
    let e := Z.max (l - 52) (-1074) in
    let m := round_half_even (a / 2 ^ e) in
    Qred ((if Qle_bool 0 q then 1 else -1) * inject_Z m * 2 ^ e)%Q.

(** [$avg] and [$round] in double arithmetic: the values are added in order
    and the sum is divided by their number, every operation giving the
    nearest double; [$round] takes the multiple of [10 ^ -place] nearest to
    its argument, halves going to the even one, and gives the nearest
    double. *)
Definition double_avg (l : list number) : number :=
  binary64 (fold_left (fun sum x => binary64 (sum + x)) l 0
            / inject_Z (Z.of_nat (length l)))%Q.

Definition double_round (x : number) (place : Z) : number :=
  binary64 (inject_Z (round_half_even (x * 10 ^ place)) / 10 ^ place)%Q.

(** An event loop that always resumes the call suspended first, and one
    that takes the suspended calls in turn. *)
Definition oldest_first : nat -> nat := fun _ => 0%nat.

Definition alerting : AlertService :=
  AlertService_new (Some "https://webhook.site/test-uuid") (Some 60).

(** A world at 2025-10-01T10:00:00Z: the stored documents, whether the cache
    adapter is connected, what Redis holds, how the webhook will answer. *)
Definition world (docs : list TelemetryDocument) (connected : bool)
    (entries : list (string * (string * Z))) (answers : list HttpOutcome)
  : World :=
  mkWorld 1759312800000
    (mkMongo docs [] 0)
    (mkRedis (mkRedisClient (list_to_map entries) [] []) connected)
    (mkHttp answers []).

Definition reading (dev : string) (temp hum : number) : TelemetryDto :=
  mkTelemetryDto dev "site-A" "2025-10-01T10:00:00.000Z"
                 (mkMetrics temp hum).

Definition stored (id : nat) (dev : string) (at_ : Z) (temp hum : number)
  : TelemetryDocument :=
  mkDoc id dev "site-A" at_ (mkMetrics temp hum) 1759312800000.

(** Redis holds a marker and a cached reading, but the adapter is
    disconnected. *)
Definition unreachable_cache : World :=
  world [] false
    [("alert:device-001:HIGH_TEMPERATURE", ("1", 1759312860000));
     ("latest:device-001", ("{deviceId:device-001}", 1759399200000))] [].

(** The store holds a reading of another site and a reading of site-A taken
    a day too late. *)
Definition other_readings : World :=
  world [mkDoc 0 "device-009" "site-B" 1759312800000 (mkMetrics 20%Q 50%Q)
               1759312800000;
         stored 1 "device-001" 1759399200000 20%Q 50%Q] true [] [].

(** Two devices of site-A, one reading each: the first taken exactly at the
    start of the interval, the second exactly at its end. *)
Definition two_readings : World :=
  world [stored 0 "device-001" 1759276800000 25%Q 60%Q;
         stored 1 "device-002" 1759363200000 30%Q 70%Q] true [] [].


(** Nothing is cached; the store holds two readings of device-001, taken
    30 seconds apart, and one of another device. *)
Definition cold_cache : World :=
  world [stored 0 "device-001" 1759312830000 26%Q 61%Q;
         stored 1 "device-001" 1759312800000 25%Q 60%Q;
         stored 2 "device-002" 1759363200000 30%Q 70%Q] true [] [].

(** Something that is not JSON sits under latest:device-001. *)
Definition corrupt_cache : World :=
  world [stored 0 "device-001" 1759312800000 25%Q 60%Q] true
        [("latest:device-001", ("deviceId=device-001", 1759399200000))] [].

(** MongoDB rejects the next operation, an insert having written one
    document by then; the cache and the webhook are up. *)
Definition rejecting_store : World :=
  mkWorld 1759312800000
    (mkMongo [] [Rejects 1] 0)
    (mkRedis (mkRedisClient ∅ [] []) true)
    (mkHttp [] []).

(** The two readings of [two_readings], followed by a reading of site-B and
    a reading of site-A taken a day after the interval. *)
Definition later_readings : list TelemetryDocument :=
  [mkDoc 2 "device-009" "site-B" 1759312800000 (mkMetrics 99%Q 99%Q)
         1759312800000;
   stored 3 "device-003" 1759449600000 99%Q 99%Q].

Definition two_readings_and_more : World :=
  world ([stored 0 "device-001" 1759276800000 25%Q 60%Q;
          stored 1 "device-002" 1759363200000 30%Q 70%Q] ++ later_readings)
        true [] [].

(** Nothing is cached for device-001, whose temperature alert was sent a
    moment ago. *)
Definition marked_cold_cache : World :=
  world [stored 0 "device-001" 1759312830000 26%Q 61%Q] true
        [("alert:device-001:HIGH_TEMPERATURE", ("1", 1759312860000))] [].

(* ===================================================================== *)
(** ** How the cache adapter runs *)
(* ===================================================================== *)

Lemma Qgtb_lt (a b : number) : Qgtb a b = true <-> (b < a)%Q.
Proof.
  unfold Qgtb. rewrite negb_true_iff, <- not_true_iff_false, Qle_bool_iff.
  split; [apply Qnot_le_lt | apply Qlt_not_le].
Qed.

Lemma Qgtb_le (a b : number) : Qgtb a b = false <-> (a <= b)%Q.
Proof.
  unfold Qgtb. rewrite negb_false_iff. apply Qle_bool_iff.
Qed.

Lemma wasAlertRecentlySent_run (d : string) (r : AlertReason) (w : World) :
  wasAlertRecentlySent d r w =
  if isConnected (redis w)
  then (Ok (negb (faulty w) && marker_live (alert_key d r) w),
        issue (EXISTS (alert_key d r)) (keyspace w) w)
  else (Ok false, w).
Proof.
  unfold wasAlertRecentlySent, bind, this_isConnected, try_catch,
    client_exists, redis_command, faulty, marker_live, issue, keyspace, ret.
  destruct (isConnected (redis w)); simpl; [|reflexivity].
  destruct (hd false _); simpl; [reflexivity|].
  destruct (redis_lookup _ _ _); reflexivity.
Qed.

Lemma shouldSendAlert_run (d : string) (r : AlertReason) (w : World) :
  shouldSendAlert d r w =
  if isConnected (redis w)
  then (Ok (faulty w || negb (marker_live (alert_key d r) w)),
        issue (EXISTS (alert_key d r)) (keyspace w) w)
  else (Ok true, w).
Proof.
  unfold shouldSendAlert, bind. rewrite wasAlertRecentlySent_run.
  destruct (isConnected (redis w)); [|reflexivity].
  unfold ret. by rewrite negb_andb, negb_involutive.
Qed.

Lemma markAlertSent_run (d : string) (r : AlertReason) (n : Z) (w : World) :
  markAlertSent d r n w =
  (Ok tt,
   if isConnected (redis w)
   then issue (SETEX (alert_key d r) n "1")
              (setex_keyspace (alert_key d r) n "1" w) w
   else w).
Proof.
  unfold markAlertSent, bind, this_isConnected, try_catch, client_setex,
    redis_command, faulty, issue, setex_keyspace, keyspace, faulty, ret.
  destruct (isConnected (redis w)); simpl; [|reflexivity].
  destruct (hd false _); simpl; [reflexivity|].
  destruct (n <=? 0); reflexivity.
Qed.

Lemma cacheLatest_run (d : string) (data : CachePayload) (ttl : Z)
    (w : World) :
  cacheLatest d data ttl w =
  (Ok tt,
   if isConnected (redis w)
   then match JSON_stringify data with
        | Some json => issue (SETEX ("latest:" +:+ d) ttl json)
                             (setex_keyspace ("latest:" +:+ d) ttl json w) w
        | None => w
        end
   else w).
Proof.
  unfold cacheLatest, bind, this_isConnected, try_catch, client_setex,
    redis_command, faulty, issue, setex_keyspace, keyspace, faulty, ret,
    throw.
  destruct (isConnected (redis w)); simpl; [|reflexivity].
  destruct (JSON_stringify data); simpl; [|reflexivity].
  destruct (hd false _); simpl; [reflexivity|].
  destruct (ttl <=? 0); reflexivity.
Qed.

Lemma RedisService_getLatest_run (d : string) (w : World) :
  RedisService_getLatest d w =
  if isConnected (redis w)
  then (Ok (if faulty w then JNull
            else decode (redis_lookup (clock w) (client (redis w))
                                      ("latest:" +:+ d))),
        issue (GET ("latest:" +:+ d)) (keyspace w) w)
  else (Ok JNull, w).
Proof.
  unfold RedisService_getLatest, bind, this_isConnected, try_catch,
    client_get, redis_command, faulty, issue, keyspace, decode, ret, throw.
  destruct (isConnected (redis w)); simpl; [|reflexivity].
  destruct (hd false _); simpl; [reflexivity|].
  destruct (redis_lookup _ _ _) as [s|]; [|reflexivity].
  destruct (String.eqb s ""); [reflexivity|].
  destruct (JSON_parse s); reflexivity.
Qed.

(* ===================================================================== *)
(** ** How the alert dispatcher runs *)
(* ===================================================================== *)

Lemma httpService_post_failure (url : string) (a : AlertDto) (w : World) :
  is_failure (hd (Responded 200) (outcomes (http w))) = true ->
  result (httpService_post url a) w =
  Throw (AxiosError (hd (Responded 200) (outcomes (http w)))).
Proof.
  unfold result, httpService_post, is_failure.
  destruct (hd _ _) as [status| |]; simpl; try reflexivity.
  intros ->%negb_true_iff. reflexivity.
Qed.

Lemma sendAlert_run (this : AlertService) (a : AlertDto) (w : World) :
  sendAlert this a w = (Ok tt, requested (webhookUrl this) [a] w).
Proof.
  unfold sendAlert, try_catch, bind, httpService_post, requested, ret.
  simpl.
  replace (drop 1 (outcomes (http w))) with (tail (outcomes (http w)))
    by (by destruct (outcomes (http w))).
  destruct (hd _ _) as [status| |]; simpl; try reflexivity.
  destruct (_ && _); reflexivity.
Qed.

Lemma requested_nil (url : string) (w : World) : requested url [] w = w.
Proof.
  unfold requested. simpl. rewrite drop_0, app_nil_r.
  by destruct w as [? ? ? []].
Qed.

Lemma requested_cons (url : string) (a : AlertDto) (l : list AlertDto)
    (w : World) :
  requested url l (requested url [a] w) = requested url (a :: l) w.
Proof.
  unfold requested, set_http. simpl.
  rewrite <- app_assoc. simpl.
  by destruct (outcomes (http w)); [rewrite !drop_nil|].
Qed.

Lemma send_all_run (this : AlertService) (alerts : list AlertDto)
    (w : World) :
  for_of alerts (sendAlert this) w =
  (Ok tt, requested (webhookUrl this) alerts w).
Proof.
  revert w. induction alerts as [|a l IH]; intros w; simpl.
  - by rewrite requested_nil.
  - unfold bind. rewrite sendAlert_run, IH. by rewrite requested_cons.
Qed.

Lemma checkAndAlert_run (this : AlertService) (d s t : string)
    (temp hum : number) (w : World) :
  checkAndAlert this d s t temp hum w =
  let g1 := gate this (Qgtb temp TEMPERATURE_THRESHOLD)
                 (mkAlert d s t HIGH_TEMPERATURE temp) w in
  let g2 := gate this (Qgtb hum HUMIDITY_THRESHOLD)
                 (mkAlert d s t HIGH_HUMIDITY hum) (snd g1) in
  (Ok tt, requested (webhookUrl this) (fst g1 ++ fst g2) (snd g2)).
Proof.
  unfold checkAndAlert, gate. cbn [alert_deviceId alert_reason].
  unfold bind at 1.
  assert (Hblock : forall (r : AlertReason) (x : number) (c : bool)
                     (pre : list AlertDto) (w0 : World),
    (if c
     then bind (shouldSendAlert d r) (fun shouldSend =>
            if shouldSend
            then bind (markAlertSent d r (dedupWindow this))
                      (fun _ => ret (pre ++ [mkAlert d s t r x]))
            else ret pre)
     else ret pre) w0 =
    (Ok (pre ++ fst (gate this c (mkAlert d s t r x) w0)),
     snd (gate this c (mkAlert d s t r x) w0))).
  { intros r x c pre w0. unfold gate. cbn [alert_deviceId alert_reason].
    destruct c; [|by unfold ret; rewrite app_nil_r].
    unfold bind. rewrite shouldSendAlert_run.
    destruct (isConnected (redis w0)) eqn:Hc.
    - destruct (faulty w0 || negb (marker_live _ w0)).
      + rewrite markAlertSent_run. cbn. by rewrite Hc.
      + unfold ret. cbn. by rewrite app_nil_r.
    - rewrite markAlertSent_run, Hc. reflexivity. }
  rewrite (Hblock HIGH_TEMPERATURE temp _ [] w). cbn [app].
  unfold bind at 1.
  rewrite (Hblock HIGH_HUMIDITY hum _ _ _).
  apply send_all_run.
Qed.

(* ===================================================================== *)
(** ** The cache adapter absorbs its failures *)
(* ===================================================================== *)

Lemma issue_keyspace (cmd : RedisCmd) (kv' : gmap string (string * Z))
    (w : World) :
  keyspace (issue cmd kv' w) = kv'.
Proof. reflexivity. Qed.

Lemma setex_keyspace_faulty (key : string) (ttl : Z) (val : string)
    (w : World) :
  faulty w = true -> setex_keyspace key ttl val w = keyspace w.
Proof. unfold setex_keyspace. by intros ->. Qed.

(** A serializer that throws is absorbed in the same way. *)
Lemma cacheLatest_unserializable (d : string) (data : CachePayload)
    (ttl : Z) (w : World) :
  JSON_stringify data = None ->
  cacheLatest d data ttl w = (Ok tt, w).
Proof.
  intros H. rewrite cacheLatest_run, H. by destruct (isConnected (redis w)).
Qed.

(** C6.  No cache operation raises, whatever the state of the connection,
    of the server and of the serializer.  When the adapter is disconnected or
    the Redis command rejects, the dedup check answers [false], the read of
    the latest reading answers [null] exactly as for an absent key, and the
    two writes leave the keyspace as it was; so do a write whose value cannot
    be serialized and a marker write whose expire time Redis refuses. *)
Theorem cache_failures_absorbed (d : string) (r : AlertReason)
    (data : CachePayload) (ttl n : Z) (w : World) :
  ((exists b, result (wasAlertRecentlySent d r) w = Ok b) /\
   (exists v, result (RedisService_getLatest d) w = Ok v) /\
   result (cacheLatest d data ttl) w = Ok tt /\
   result (markAlertSent d r n) w = Ok tt) /\
  (cache_down w ->
   result (wasAlertRecentlySent d r) w = Ok false /\
   result (RedisService_getLatest d) w = Ok JNull /\
   keyspace (after (cacheLatest d data ttl) w) = keyspace w /\
   keyspace (after (markAlertSent d r n) w) = keyspace w) /\
  (JSON_stringify data = None ->
   keyspace (after (cacheLatest d data ttl) w) = keyspace w) /\
  (n <= 0 -> keyspace (after (markAlertSent d r n) w) = keyspace w).
Proof.
  split; [|split; [|split]].
  - unfold result.
    rewrite wasAlertRecentlySent_run, RedisService_getLatest_run,
      cacheLatest_run, markAlertSent_run.
    destruct (isConnected (redis w)); simpl; eauto 6.
  - unfold result, after.
    rewrite wasAlertRecentlySent_run, RedisService_getLatest_run,
      cacheLatest_run, markAlertSent_run.
    intros [Hdown|Hdown].
    + rewrite Hdown. simpl. auto.
    + rewrite Hdown. destruct (isConnected (redis w)); simpl; auto.
      destruct (JSON_stringify data);
        rewrite ?issue_keyspace, ?setex_keyspace_faulty by done; auto.
  - intros Hnone. unfold after. by rewrite cacheLatest_unserializable.
  - intros Hn. unfold after. rewrite markAlertSent_run. cbn [snd].
    destruct (isConnected (redis w)); [|done].
    rewrite issue_keyspace. unfold setex_keyspace.
    destruct (Z.leb_spec n 0); [by rewrite orb_true_r | lia].
Qed.

(* ===================================================================== *)
(** ** Thresholds, dedup markers and delivery *)
(* ===================================================================== *)

Lemma append_cancel_l (p a b : string) : p +:+ a = p +:+ b -> a = b.
Proof.
  induction p as [|c p IH]; simpl; [done|].
  intros [= H]. by apply IH.
Qed.

Lemma alert_key_reason (d : string) (r r' : AlertReason) :
  alert_key d r = alert_key d r' -> r = r'.
Proof.
  unfold alert_key. intros H.
  apply (append_cancel_l "alert:"), append_cancel_l in H.
  by destruct r, r'.
Qed.

Lemma alert_key_distinct (d : string) :
  alert_key d HIGH_TEMPERATURE <> alert_key d HIGH_HUMIDITY.
Proof. by intros ?%alert_key_reason. Qed.

Lemma marker_live_frame (key : string) (w w' : World) :
  clock w' = clock w ->
  keyspace w' !! key = keyspace w !! key ->
  marker_live key w' = marker_live key w.
Proof.
  unfold marker_live, redis_lookup, keyspace. by intros -> ->.
Qed.

Lemma setex_keyspace_other (key k : string) (ttl : Z) (val : string)
    (w : World) :
  k <> key -> setex_keyspace key ttl val w !! k = keyspace w !! k.
Proof.
  intros Hne. unfold setex_keyspace.
  destruct (_ || _); [done|]. by rewrite lookup_insert_ne.
Qed.

(** What a threshold block leaves untouched. *)
Lemma gate_frame (this : AlertService) (c : bool) (a : AlertDto)
    (w : World) :
  let w' := snd (gate this c a w) in
  clock w' = clock w /\ mongo w' = mongo w /\ http w' = http w /\
  isConnected (redis w') = isConnected (redis w) /\
  (redis_faults (client (redis w)) = [] ->
   redis_faults (client (redis w')) = []) /\
  (forall k, k <> alert_key (alert_deviceId a) (alert_reason a) ->
             keyspace w' !! k = keyspace w !! k).
Proof.
  unfold gate.
  destruct c; [|by cbn].
  destruct (isConnected (redis w)) eqn:Hc; [|by cbn; rewrite Hc].
  destruct (faulty w || negb (marker_live _ w)); cbn -[setex_keyspace].
  - repeat split; try done.
    + by intros ->.
    + intros k Hk. by rewrite setex_keyspace_other.
  - repeat split; try done. by intros ->.
Qed.

(** The alerts a threshold block pushes. *)
Lemma gate_alerts (this : AlertService) (c : bool) (a : AlertDto)
    (w : World) :
  fst (gate this c a w) =
  if c && (negb (isConnected (redis w)) || faulty w ||
           negb (marker_live (alert_key (alert_deviceId a) (alert_reason a))
                             w))
  then [a] else [].
Proof.
  unfold gate. destruct c; [|done].
  destruct (isConnected (redis w)); [|done]. cbn.
  by destruct (faulty w || negb (marker_live _ w)).
Qed.

(** The requests [checkAndAlert] makes are its alerts, in order, to the
    configured URL. *)
Lemma checkAndAlert_requests (this : AlertService) (d s t : string)
    (temp hum : number) (w : World) :
  let g1 := gate this (Qgtb temp TEMPERATURE_THRESHOLD)
                 (mkAlert d s t HIGH_TEMPERATURE temp) w in
  let g2 := gate this (Qgtb hum HUMIDITY_THRESHOLD)
                 (mkAlert d s t HIGH_HUMIDITY hum) (snd g1) in
  new_requests w (after (checkAndAlert this d s t temp hum) w) =
  map (pair (webhookUrl this)) (fst g1 ++ fst g2).
Proof.
  cbv zeta. unfold after, new_requests.
  rewrite checkAndAlert_run. cbn.
  destruct (gate_frame this (Qgtb hum HUMIDITY_THRESHOLD)
              (mkAlert d s t HIGH_HUMIDITY hum)
              (snd (gate this (Qgtb temp TEMPERATURE_THRESHOLD)
                      (mkAlert d s t HIGH_TEMPERATURE temp) w)))
    as (_ & _ & -> & _).
  destruct (gate_frame this (Qgtb temp TEMPERATURE_THRESHOLD)
              (mkAlert d s t HIGH_TEMPERATURE temp) w)
    as (_ & _ & -> & _).
  apply drop_app_length.
Qed.

Lemma sent_gates (this : AlertService) (d s t : string) (temp hum : number)
    (w : World) :
  sent this d s t temp hum w =
  (if Qgtb temp TEMPERATURE_THRESHOLD &&
      (negb (isConnected (redis w)) || faulty w ||
       negb (marker_live (alert_key d HIGH_TEMPERATURE) w))
   then [mkAlert d s t HIGH_TEMPERATURE temp] else []) ++
  fst (gate this (Qgtb hum HUMIDITY_THRESHOLD)
         (mkAlert d s t HIGH_HUMIDITY hum)
         (snd (gate this (Qgtb temp TEMPERATURE_THRESHOLD)
                 (mkAlert d s t HIGH_TEMPERATURE temp) w))).
Proof.
  unfold sent. rewrite checkAndAlert_requests.
  rewrite map_map. cbn [snd]. rewrite map_id.
  by rewrite (gate_alerts this _ _ w).
Qed.

(** The humidity block sees the marker of its own key as the call found
    it. *)
Lemma humidity_marker_unchanged (this : AlertService) (d s t : string)
    (temp : number) (c : bool) (w : World) :
  marker_live (alert_key d HIGH_HUMIDITY)
    (snd (gate this c (mkAlert d s t HIGH_TEMPERATURE temp) w)) =
  marker_live (alert_key d HIGH_HUMIDITY) w.
Proof.
  destruct (gate_frame this c (mkAlert d s t HIGH_TEMPERATURE temp) w)
    as (Hclock & _ & _ & _ & _ & Hother).
  apply marker_live_frame; [done|].
  apply Hother. cbn. intros H. by apply (alert_key_distinct d).
Qed.

(** The alerts of one call: each reason contributes its alert when its
    metric exceeds the threshold and its own gate is open. *)
Lemma sent_cases (this : AlertService) (d s t : string) (temp hum : number)
    (w : World) :
  exists open_T open_H : bool,
    (marker_live (alert_key d HIGH_TEMPERATURE) w = false -> open_T = true) /\
    (marker_live (alert_key d HIGH_HUMIDITY) w = false -> open_H = true) /\
    (isConnected (redis w) = true -> redis_faults (client (redis w)) = [] ->
     open_T = negb (marker_live (alert_key d HIGH_TEMPERATURE) w) /\
     open_H = negb (marker_live (alert_key d HIGH_HUMIDITY) w)) /\
    sent this d s t temp hum w =
    (if Qgtb temp TEMPERATURE_THRESHOLD && open_T
     then [mkAlert d s t HIGH_TEMPERATURE temp] else []) ++
    (if Qgtb hum HUMIDITY_THRESHOLD && open_H
     then [mkAlert d s t HIGH_HUMIDITY hum] else []).
Proof.
  rewrite sent_gates, gate_alerts. cbn [alert_deviceId alert_reason].
  rewrite humidity_marker_unchanged.
  set (w1 := snd (gate this _ _ w)).
  destruct (gate_frame this (Qgtb temp TEMPERATURE_THRESHOLD)
              (mkAlert d s t HIGH_TEMPERATURE temp) w)
    as (_ & _ & _ & Hconn & Hfaults & _).
  fold w1 in Hconn, Hfaults. rewrite Hconn.
  eexists _, _. split; [|split; [|split; [|reflexivity]]].
  - intros ->. by rewrite orb_true_r.
  - intros ->. by rewrite orb_true_r.
  - intros Hc Hf. unfold faulty. rewrite (Hfaults Hf), Hf, Hc. by cbn.
Qed.

(** C2.  An alert for high temperature goes out only if the temperature is
    strictly above 50, and one for high humidity only if the humidity is
    strictly above 90; when no dedup marker stands for the reason, the alert
    goes out exactly when the metric is strictly above its threshold.  At
    exactly 50, and at exactly 90, no alert is sent for that reason. *)
Theorem thresholds_strict (this : AlertService) (d s t : string)
    (temp hum : number) (w : World) :
  let alerts := sent this d s t temp hum w in
  (forall a, a ∈ alerts -> alert_reason a = HIGH_TEMPERATURE ->
             (50 < temp)%Q) /\
  (forall a, a ∈ alerts -> alert_reason a = HIGH_HUMIDITY ->
             (90 < hum)%Q) /\
  (marker_live (alert_key d HIGH_TEMPERATURE) w = false ->
   (mkAlert d s t HIGH_TEMPERATURE temp ∈ alerts <-> (50 < temp)%Q)) /\
  (marker_live (alert_key d HIGH_HUMIDITY) w = false ->
   (mkAlert d s t HIGH_HUMIDITY hum ∈ alerts <-> (90 < hum)%Q)) /\
  ((temp == 50)%Q ->
   forall a, a ∈ alerts -> alert_reason a <> HIGH_TEMPERATURE) /\
  ((hum == 90)%Q ->
   forall a, a ∈ alerts -> alert_reason a <> HIGH_HUMIDITY).
Proof.
  cbv zeta.
  destruct (sent_cases this d s t temp hum w)
    as (oT & oH & HoT & HoH & _ & ->).
  pose proof (Qgtb_lt temp TEMPERATURE_THRESHOLD) as HT.
  pose proof (Qgtb_lt hum HUMIDITY_THRESHOLD) as HH.
  unfold TEMPERATURE_THRESHOLD, HUMIDITY_THRESHOLD in *.
  assert (Honly_T : forall a,
    a ∈ (if Qgtb temp 50%Q && oT
         then [mkAlert d s t HIGH_TEMPERATURE temp] else []) ++
        (if Qgtb hum 90%Q && oH
         then [mkAlert d s t HIGH_HUMIDITY hum] else []) ->
    alert_reason a = HIGH_TEMPERATURE -> (50 < temp)%Q).
  { intros a Ha Hr. apply HT.
    destruct (Qgtb temp 50%Q); [done|].
    destruct (Qgtb hum 90%Q && oH); cbn in Ha;
      [apply list_elem_of_singleton in Ha; by subst a
      |by apply elem_of_nil in Ha]. }
  assert (Honly_H : forall a,
    a ∈ (if Qgtb temp 50%Q && oT
         then [mkAlert d s t HIGH_TEMPERATURE temp] else []) ++
        (if Qgtb hum 90%Q && oH
         then [mkAlert d s t HIGH_HUMIDITY hum] else []) ->
    alert_reason a = HIGH_HUMIDITY -> (90 < hum)%Q).
  { intros a Ha Hr. apply HH.
    destruct (Qgtb hum 90%Q); [done|].
    rewrite app_nil_r in Ha.
    destruct (Qgtb temp 50%Q && oT);
      [apply list_elem_of_singleton in Ha; by subst a
      |by apply elem_of_nil in Ha]. }
  repeat split.
  - exact Honly_T.
  - exact Honly_H.
  - intros Ha. by apply (Honly_T _ Ha).
  - intros Hlt. rewrite (HoT H). apply HT in Hlt. rewrite Hlt. cbn.
    apply elem_of_cons. by left.
  - intros Ha. by apply (Honly_H _ Ha).
  - intros Hlt. rewrite (HoH H). apply HH in Hlt. rewrite Hlt. cbn.
    apply elem_of_app. right. apply elem_of_cons. by left.
  - intros Heq a Ha Hr. apply (Honly_T _ Ha) in Hr.
    rewrite Heq in Hr. by apply Qlt_irrefl in Hr.
  - intros Heq a Ha Hr. apply (Honly_H _ Ha) in Hr.
    rewrite Heq in Hr. by apply Qlt_irrefl in Hr.
Qed.

Lemma gate_commands_run (this : AlertService) (c : bool) (a : AlertDto)
    (w : World) :
  let key := alert_key (alert_deviceId a) (alert_reason a) in
  commands (client (redis (snd (gate this c a w)))) =
  commands (client (redis w)) ++
  gate_commands this key c (isConnected (redis w))
                (faulty w || negb (marker_live key w)).
Proof.
  unfold gate, gate_commands.
  destruct c; cbn; [|by rewrite app_nil_r].
  destruct (isConnected (redis w)); cbn; [|by rewrite app_nil_r].
  destruct (faulty w || negb (marker_live _ w)); cbn; [|done].
  by rewrite <- app_assoc.
Qed.

(** In a connected adapter whose commands succeed, a threshold block with
    a valid window either is skipped, or finds the marker and stops, or
    writes the marker. *)
Lemma gate_healthy (this : AlertService) (c : bool) (a : AlertDto)
    (w : World) :
  let key := alert_key (alert_deviceId a) (alert_reason a) in
  isConnected (redis w) = true ->
  redis_faults (client (redis w)) = [] ->
  0 < dedupWindow this ->
  keyspace (snd (gate this c a w)) =
  if c && negb (marker_live key w)
  then <[key := ("1", clock w + 1000 * dedupWindow this)]> (keyspace w)
  else keyspace w.
Proof.
  intros key Hc Hf Hwin. unfold gate. fold key. rewrite Hc.
  unfold faulty. rewrite Hf. cbn [hd orb].
  destruct c; [|done]. cbn [andb].
  destruct (marker_live key w); [done|]. cbn -[setex_keyspace].
  unfold setex_keyspace, faulty. cbn. rewrite Hf. cbn.
  by destruct (Z.leb_spec (dedupWindow this) 0); [lia|].
Qed.

Lemma checkAndAlert_redis (this : AlertService) (d s t : string)
    (temp hum : number) (w : World) :
  redis (after (checkAndAlert this d s t temp hum) w) =
  redis (snd (gate this (Qgtb hum HUMIDITY_THRESHOLD)
                (mkAlert d s t HIGH_HUMIDITY hum)
                (snd (gate this (Qgtb temp TEMPERATURE_THRESHOLD)
                        (mkAlert d s t HIGH_TEMPERATURE temp) w)))).
Proof. unfold after. by rewrite checkAndAlert_run. Qed.

Lemma checkAndAlert_clock (this : AlertService) (d s t : string)
    (temp hum : number) (w : World) :
  clock (after (checkAndAlert this d s t temp hum) w) = clock w.
Proof.
  unfold after. rewrite checkAndAlert_run. cbn.
  destruct (gate_frame this (Qgtb hum HUMIDITY_THRESHOLD)
              (mkAlert d s t HIGH_HUMIDITY hum)
              (snd (gate this (Qgtb temp TEMPERATURE_THRESHOLD)
                      (mkAlert d s t HIGH_TEMPERATURE temp) w)))
    as (-> & _).
  by destruct (gate_frame this (Qgtb temp TEMPERATURE_THRESHOLD)
                 (mkAlert d s t HIGH_TEMPERATURE temp) w) as (-> & _).
Qed.

(** All Redis commands of one call, when the adapter is connected. *)
Lemma checkAndAlert_commands (this : AlertService) (d s t : string)
    (temp hum : number) (w : World) :
  exists open_T open_H : bool,
    (marker_live (alert_key d HIGH_TEMPERATURE) w = false -> open_T = true) /\
    (marker_live (alert_key d HIGH_HUMIDITY) w = false -> open_H = true) /\
    (redis_faults (client (redis w)) = [] ->
     open_T = negb (marker_live (alert_key d HIGH_TEMPERATURE) w) /\
     open_H = negb (marker_live (alert_key d HIGH_HUMIDITY) w)) /\
    new_commands w (after (checkAndAlert this d s t temp hum) w) =
    gate_commands this (alert_key d HIGH_TEMPERATURE)
      (Qgtb temp TEMPERATURE_THRESHOLD) (isConnected (redis w)) open_T ++
    gate_commands this (alert_key d HIGH_HUMIDITY)
      (Qgtb hum HUMIDITY_THRESHOLD) (isConnected (redis w)) open_H.
Proof.
  unfold new_commands. rewrite checkAndAlert_redis.
  rewrite !gate_commands_run. cbn [alert_deviceId alert_reason].
  rewrite humidity_marker_unchanged.
  set (w1 := snd (gate this _ (mkAlert d s t HIGH_TEMPERATURE temp) w)).
  destruct (gate_frame this (Qgtb temp TEMPERATURE_THRESHOLD)
              (mkAlert d s t HIGH_TEMPERATURE temp) w)
    as (_ & _ & _ & Hconn & Hfaults & _).
  fold w1 in Hconn, Hfaults. rewrite Hconn.
  rewrite <- app_assoc, drop_app_length.
  eexists _, _. split; [|split; [|split; [|reflexivity]]].
  - intros ->. by rewrite orb_true_r.
  - intros ->. by rewrite orb_true_r.
  - intros Hf. unfold faulty. rewrite (Hfaults Hf), Hf. by cbn.
Qed.

(** The keyspace after one call, when the adapter is connected, its
    commands succeed and the window is valid. *)
Lemma checkAndAlert_keyspace (this : AlertService) (d s t : string)
    (temp hum : number) (w : World) :
  isConnected (redis w) = true ->
  redis_faults (client (redis w)) = [] ->
  0 < dedupWindow this ->
  let mark (r : AlertReason) (c : bool) (m : gmap string (string * Z)) :=
    if c && negb (marker_live (alert_key d r) w)
    then <[alert_key d r := ("1", clock w + 1000 * dedupWindow this)]> m
    else m in
  keyspace (after (checkAndAlert this d s t temp hum) w) =
  mark HIGH_HUMIDITY (Qgtb hum HUMIDITY_THRESHOLD)
    (mark HIGH_TEMPERATURE (Qgtb temp TEMPERATURE_THRESHOLD) (keyspace w)).
Proof.
  intros Hc Hf Hwin. cbv zeta.
  unfold keyspace at 1. rewrite checkAndAlert_redis.
  destruct (gate_frame this (Qgtb temp TEMPERATURE_THRESHOLD)
              (mkAlert d s t HIGH_TEMPERATURE temp) w)
    as (Hclock & _ & _ & Hconn & Hfaults & _).
  pose proof (gate_healthy this (Qgtb hum HUMIDITY_THRESHOLD)
                (mkAlert d s t HIGH_HUMIDITY hum)
                (snd (gate this (Qgtb temp TEMPERATURE_THRESHOLD)
                        (mkAlert d s t HIGH_TEMPERATURE temp) w))) as H2.
  cbv zeta in H2. cbn [alert_deviceId alert_reason] in H2.
  unfold keyspace at 1 in H2. rewrite H2; [|congruence|auto|done].
  rewrite humidity_marker_unchanged, Hclock.
  by rewrite (gate_healthy this _ _ w Hc Hf Hwin).
Qed.

Lemma setex_in_gate_commands (this : AlertService) (key k : string)
    (c conn o : bool) :
  SETEX k (dedupWindow this) "1" ∈ gate_commands this key c conn o <->
  c = true /\ conn = true /\ o = true /\ k = key.
Proof.
  unfold gate_commands.
  destruct c, conn, o; cbn; rewrite ?elem_of_cons, ?elem_of_nil;
    split; try (intros (?&?&?&?); discriminate);
    try (intros [[=]|[[= ->]|[]]]; done); try (intros [[=]|[]]); try done.
  intros (_&_&_&->). right. by left.
Qed.

Lemma exists_in_gate_commands (this : AlertService) (key k : string)
    (c conn o : bool) :
  EXISTS k ∈ gate_commands this key c conn o <->
  c = true /\ conn = true /\ k = key.
Proof.
  unfold gate_commands.
  destruct c, conn, o; cbn; rewrite ?elem_of_cons, ?elem_of_nil;
    split; try (intros (?&?&?); discriminate);
    try (intros [[= ->]|[[=]|[]]]; done); try (intros [[= ->]|[]]; done);
    try done.
  - intros (_&_&->). by left.
  - intros (_&_&->). by left.
Qed.

(** C4.  A reading with temperature 65 and humidity 95, for a device with no
    live dedup marker for either reason, makes [checkAndAlert] send exactly
    two alerts: HIGH_TEMPERATURE with value 65, then HIGH_HUMIDITY with value
    95.  The two reasons use the distinct keys alert:<deviceId>:<reason>:
    a connected adapter checks and marks each alert under its own key, and
    when its commands succeed both markers are in place afterwards. *)
Theorem dual_alert (this : AlertService) (d s t : string) (w : World) :
  marker_live (alert_key d HIGH_TEMPERATURE) w = false ->
  marker_live (alert_key d HIGH_HUMIDITY) w = false ->
  let w' := after (checkAndAlert this d s t 65%Q 95%Q) w in
  let kT := "alert:" +:+ d +:+ ":HIGH_TEMPERATURE" in
  let kH := "alert:" +:+ d +:+ ":HIGH_HUMIDITY" in
  sent this d s t 65%Q 95%Q w =
    [mkAlert d s t HIGH_TEMPERATURE 65%Q; mkAlert d s t HIGH_HUMIDITY 95%Q] /\
  kT <> kH /\
  (isConnected (redis w) = true ->
   new_commands w w' =
     [EXISTS kT; SETEX kT (dedupWindow this) "1";
      EXISTS kH; SETEX kH (dedupWindow this) "1"]) /\
  (isConnected (redis w) = true ->
   redis_faults (client (redis w)) = [] ->
   0 < dedupWindow this ->
   keyspace w' !! kT = Some ("1", clock w + 1000 * dedupWindow this) /\
   keyspace w' !! kH = Some ("1", clock w + 1000 * dedupWindow this)).
Proof.
  intros HT HH. cbv zeta.
  change ("alert:" +:+ d +:+ ":HIGH_TEMPERATURE")
    with (alert_key d HIGH_TEMPERATURE).
  change ("alert:" +:+ d +:+ ":HIGH_HUMIDITY")
    with (alert_key d HIGH_HUMIDITY).
  split; [|split; [|split]].
  - destruct (sent_cases this d s t 65%Q 95%Q w)
      as (oT & oH & HoT & HoH & _ & ->).
    by rewrite (HoT HT), (HoH HH).
  - apply alert_key_distinct.
  - intros Hc.
    destruct (checkAndAlert_commands this d s t 65%Q 95%Q w)
      as (oT & oH & HoT & HoH & _ & ->).
    by rewrite (HoT HT), (HoH HH), Hc.
  - intros Hc Hf Hwin.
    rewrite (checkAndAlert_keyspace this d s t 65%Q 95%Q w Hc Hf Hwin).
    rewrite HT, HH.
    change (Qgtb 95%Q HUMIDITY_THRESHOLD) with true.
    change (Qgtb 65%Q TEMPERATURE_THRESHOLD) with true. cbn [andb negb].
    rewrite lookup_insert_ne by (intros H; by apply (alert_key_distinct d)).
    by rewrite !lookup_insert_eq.
Qed.

Lemma gate_commands_key (this : AlertService) (key : string)
    (c conn o : bool) (cmd : RedisCmd) :
  cmd ∈ gate_commands this key c conn o -> c = true /\ cmd_key cmd = key.
Proof.
  clear JSON_stringify JSON_parse Date_parse Mongo_avg Mongo_round event_loop.
  unfold gate_commands.
  destruct c, conn, o; cbn; rewrite ?elem_of_cons, ?elem_of_nil;
    intuition (subst; done).
Qed.

Lemma exceedsb_spec (r : AlertReason) (temp hum : number) :
  exceedsb r temp hum = true <-> exceeds_threshold r temp hum.
Proof. destruct r; apply Qgtb_lt. Qed.

(** A reason whose metric does not exceed its threshold leaves no trace:
    no command on its key, its key as it was, no alert of that reason. *)
Lemma below_threshold_skipped (this : AlertService) (d s t : string)
    (temp hum : number) (r : AlertReason) (w : World) :
  let w' := after (checkAndAlert this d s t temp hum) w in
  exceedsb r temp hum = false ->
  (forall cmd, cmd ∈ new_commands w w' -> cmd_key cmd <> alert_key d r) /\
  keyspace w' !! alert_key d r = keyspace w !! alert_key d r /\
  (forall a, a ∈ sent this d s t temp hum w -> alert_reason a <> r).
Proof.
  intros w' Hb. subst w'.
  pose proof (alert_key_distinct d) as Hkeys.
  destruct (checkAndAlert_commands this d s t temp hum w)
    as (cT & cH & _ & _ & _ & ->).
  destruct (sent_cases this d s t temp hum w)
    as (oT & oH & _ & _ & _ & ->).
  unfold keyspace at 1. rewrite checkAndAlert_redis.
  fold (keyspace (snd (gate this (Qgtb hum HUMIDITY_THRESHOLD)
                         (mkAlert d s t HIGH_HUMIDITY hum)
                         (snd (gate this (Qgtb temp TEMPERATURE_THRESHOLD)
                            (mkAlert d s t HIGH_TEMPERATURE temp) w))))).
  destruct (gate_frame this (Qgtb temp TEMPERATURE_THRESHOLD)
              (mkAlert d s t HIGH_TEMPERATURE temp) w)
    as (_ & _ & _ & _ & _ & Hk1).
  destruct (gate_frame this (Qgtb hum HUMIDITY_THRESHOLD)
              (mkAlert d s t HIGH_HUMIDITY hum)
              (snd (gate this (Qgtb temp TEMPERATURE_THRESHOLD)
                      (mkAlert d s t HIGH_TEMPERATURE temp) w)))
    as (_ & _ & _ & _ & _ & Hk2).
  cbn [alert_deviceId alert_reason] in Hk1, Hk2.
  destruct r; cbn [exceedsb] in Hb; rewrite Hb in *.
  - split; [|split].
    + intros cmd [Hin|Hin]%elem_of_app;
        apply gate_commands_key in Hin as [? Hin]; [done|].
      rewrite Hin. congruence.
    + by rewrite Hk2.
    + cbn. intros a Ha.
      destruct (_ && oH); [|by apply elem_of_nil in Ha].
      apply list_elem_of_singleton in Ha. by subst a.
  - split; [|split].
    + intros cmd [Hin|Hin]%elem_of_app;
        apply gate_commands_key in Hin as [? Hin]; [|done].
      rewrite Hin. congruence.
    + cbn [gate snd]. rewrite Hk1; [done|congruence].
    + rewrite app_nil_r. intros a Ha.
      destruct (_ && oT); [|by apply elem_of_nil in Ha].
      apply list_elem_of_singleton in Ha. by subst a.
Qed.

(** With a connected adapter whose commands succeed and a valid window, the
    marker of a reason is written exactly when the metric exceeds and no live
    marker is found; otherwise its entry stays as it was. *)
Lemma healthy_marker_rule (this : AlertService) (d s t : string)
    (temp hum : number) (r : AlertReason) (w : World) :
  let w' := after (checkAndAlert this d s t temp hum) w in
  let key := alert_key d r in
  let written := SETEX key (dedupWindow this) "1" ∈ new_commands w w' in
  isConnected (redis w) = true ->
  redis_faults (client (redis w)) = [] ->
  0 < dedupWindow this ->
  (written <-> exceedsb r temp hum = true /\ marker_live key w = false) /\
  (written ->
   keyspace w' !! key = Some ("1", clock w + 1000 * dedupWindow this)) /\
  (~ written -> keyspace w' !! key = keyspace w !! key) /\
  (marker_live key w = true ->
   forall a, a ∈ sent this d s t temp hum w -> alert_reason a <> r).
Proof.
  clear JSON_stringify JSON_parse Date_parse Mongo_avg Mongo_round event_loop.
  intros w' key written Hc Hf Hwin. subst w' key written.
  pose proof (alert_key_distinct d) as Hkeys.
  rewrite (checkAndAlert_keyspace this d s t temp hum w Hc Hf Hwin).
  destruct (checkAndAlert_commands this d s t temp hum w)
    as (cT & cH & _ & _ & Hcmd & ->).
  destruct (Hcmd Hf) as [-> ->]. clear Hcmd.
  destruct (sent_cases this d s t temp hum w)
    as (oT & oH & _ & _ & Hsent & ->).
  destruct (Hsent Hc Hf) as [-> ->]. clear Hsent.
  rewrite Hc, elem_of_app, !setex_in_gate_commands.
  destruct r; cbn [exceedsb];
    destruct (Qgtb temp TEMPERATURE_THRESHOLD),
             (Qgtb hum HUMIDITY_THRESHOLD),
             (marker_live (alert_key d HIGH_TEMPERATURE) w),
             (marker_live (alert_key d HIGH_HUMIDITY) w);
    cbn [andb negb app];
    (split; [|split; [|split]]);
    repeat (rewrite lookup_insert_eq ||
            rewrite lookup_insert_ne by congruence);
    try (intuition congruence);
    try (intros _ a Ha;
         repeat (apply elem_of_cons in Ha as [->|Ha]; [done|]);
         by apply elem_of_nil in Ha).
Qed.

(** C3, amended.  A reason whose metric does not exceed its threshold is
    skipped entirely, in every state of the cache: no command on its dedup
    key (no check, no write), its entry as it was, no alert of that reason.
    When the adapter is connected, its commands succeed and the dedup window
    is positive: the marker of (deviceId, reason) is written if and only if
    the metric exceeds its threshold and no live marker exists for the pair;
    it is written with the configured window as its expiry; and an alert
    suppressed by a live marker is not delivered and leaves the entry, hence
    its expiry, as it was. *)
Theorem dedup_marker_rule (this : AlertService) (d s t : string)
    (temp hum : number) (r : AlertReason) (w : World) :
  let w' := after (checkAndAlert this d s t temp hum) w in
  let key := alert_key d r in
  let written := SETEX key (dedupWindow this) "1" ∈ new_commands w w' in
  (~ exceeds_threshold r temp hum ->
   (forall cmd, cmd ∈ new_commands w w' -> cmd_key cmd <> key) /\
   keyspace w' !! key = keyspace w !! key /\
   (forall a, a ∈ sent this d s t temp hum w -> alert_reason a <> r)) /\
  (isConnected (redis w) = true ->
   redis_faults (client (redis w)) = [] ->
   0 < dedupWindow this ->
   (written <-> exceeds_threshold r temp hum /\ marker_live key w = false) /\
   (written ->
    keyspace w' !! key = Some ("1", clock w + 1000 * dedupWindow this)) /\
   (marker_live key w = true ->
    ~ written /\
    keyspace w' !! key = keyspace w !! key /\
    (forall a, a ∈ sent this d s t temp hum w -> alert_reason a <> r))).
Proof.
  cbv zeta. split.
  - intros Hnot. apply below_threshold_skipped.
    apply not_true_is_false. by rewrite exceedsb_spec.
  - intros Hc Hf Hwin.
    destruct (healthy_marker_rule this d s t temp hum r w Hc Hf Hwin)
      as (Hiff & Hset & Hkeep & Hquiet).
    rewrite <- exceedsb_spec.
    split; [exact Hiff|]. split; [exact Hset|].
    intros Hlive.
    assert (Hnw : ~ SETEX (alert_key d r) (dedupWindow this) "1"
                    ∈ new_commands w
                        (after (checkAndAlert this d s t temp hum) w)).
    { rewrite Hiff. intros [_ H]. congruence. }
    auto.
Qed.

Lemma checkAndAlert_connection (this : AlertService) (d s t : string)
    (temp hum : number) (w : World) :
  let w' := after (checkAndAlert this d s t temp hum) w in
  isConnected (redis w') = isConnected (redis w) /\
  (redis_faults (client (redis w)) = [] ->
   redis_faults (client (redis w')) = []).
Proof.
  cbv zeta. rewrite checkAndAlert_redis.
  destruct (gate_frame this (Qgtb temp TEMPERATURE_THRESHOLD)
              (mkAlert d s t HIGH_TEMPERATURE temp) w)
    as (_ & _ & _ & Hc1 & Hf1 & _).
  destruct (gate_frame this (Qgtb hum HUMIDITY_THRESHOLD)
              (mkAlert d s t HIGH_HUMIDITY hum)
              (snd (gate this (Qgtb temp TEMPERATURE_THRESHOLD)
                      (mkAlert d s t HIGH_TEMPERATURE temp) w)))
    as (_ & _ & _ & Hc2 & Hf2 & _).
  split; [congruence | auto].
Qed.

(** C5.  A delivery that fails (network error, timeout, status outside 2xx)
    makes the HTTP call reject, yet [sendAlert] resolves and leaves the cache
    adapter as it was; [checkAndAlert] resolves whatever the outcomes of its
    deliveries.  So, with a connected adapter whose commands succeed and a
    positive window, the marker written for an alert stays live for the
    whole dedup window whether or not the delivery succeeded, and no reading
    of that device within the window has an alert of that reason sent. *)
Theorem delivery_failure_contained (this : AlertService) (d s t : string)
    (temp hum : number) (w : World) :
  (forall a : AlertDto,
     is_failure (hd (Responded 200) (outcomes (http w))) = true ->
     result (httpService_post (webhookUrl this) a) w =
       Throw (AxiosError (hd (Responded 200) (outcomes (http w)))) /\
     result (sendAlert this a) w = Ok tt /\
     redis (after (sendAlert this a) w) = redis w) /\
  result (checkAndAlert this d s t temp hum) w = Ok tt /\
  (isConnected (redis w) = true ->
   redis_faults (client (redis w)) = [] ->
   0 < dedupWindow this ->
   forall r : AlertReason,
     exceeds_threshold r temp hum ->
     marker_live (alert_key d r) w = false ->
     forall dt : Z, 0 <= dt < 1000 * dedupWindow this ->
       let later := advance dt (after (checkAndAlert this d s t temp hum) w) in
       marker_live (alert_key d r) later = true /\
       forall (s2 t2 : string) (temp2 hum2 : number) (a : AlertDto),
         a ∈ sent this d s2 t2 temp2 hum2 later -> alert_reason a <> r).
Proof.
  split; [|split].
  - intros a Hfail. split; [by apply httpService_post_failure|].
    unfold result, after. by rewrite sendAlert_run.
  - unfold result. by rewrite checkAndAlert_run.
  - intros Hc Hf Hwin r Hex Hfree dt Hdt later.
    destruct (healthy_marker_rule this d s t temp hum r w Hc Hf Hwin)
      as (Hiff & Hset & _ & _).
    apply exceedsb_spec in Hex.
    pose proof (Hset (proj2 Hiff (conj Hex Hfree))) as Hkv.
    destruct (checkAndAlert_connection this d s t temp hum w) as [Hc' Hf'].
    assert (Hlive : marker_live (alert_key d r) later = true).
    { unfold marker_live, redis_lookup, later. cbn [advance clock redis].
      unfold keyspace in Hkv. rewrite Hkv, checkAndAlert_clock.
      by destruct (Z.ltb_spec (clock w + dt)
                     (clock w + 1000 * dedupWindow this)); [|lia]. }
    split; [exact Hlive|].
    intros s2 t2 temp2 hum2.
    assert (Hc2 : isConnected (redis later) = true) by (cbn; congruence).
    assert (Hf2 : redis_faults (client (redis later)) = []) by (cbn; auto).
    destruct (healthy_marker_rule this d s2 t2 temp2 hum2 r later
                Hc2 Hf2 Hwin) as (_ & _ & _ & Hquiet).
    by apply Hquiet.
Qed.

(* ===================================================================== *)
(** ** Ingestion *)
(* ===================================================================== *)

(** The caller of [ingestTelemetry] gets what [insertMany] gave, whatever
    the calls it leaves behind do. *)
Lemma ingestTelemetry_result (alertService : AlertService)
    (readings : list TelemetryDto) (w : World) :
  result (ingestTelemetry alertService readings) w =
  result (insertMany
            (map (fun reading =>
                    mkInput (deviceId reading) (siteId reading)
                            (Date_parse (ts reading)) (metrics reading))
                 readings)) w.
Proof.
  unfold result, ingestTelemetry. unfold bind at 1.
  destruct (insertMany _ w) as [[documents|e] w1]; [|done].
  unfold bind, not_awaited. by destruct (start_all _ w1).
Qed.

Lemma insertMany_frame (docs : list TelemetryInput) (w1 w2 : World) :
  clock w1 = clock w2 -> mongo w1 = mongo w2 ->
  result (insertMany docs) w1 = result (insertMany docs) w2.
Proof.
  intros Hclock Hmongo. unfold result, insertMany, mongo_operation, throw.
  destruct (forallb _ docs); [|done]. destruct docs as [|x docs]; [done|].
  rewrite Hclock, Hmongo. by destruct (hd Answers _).
Qed.

Lemma insertMany_length (docs : list TelemetryInput)
    (stored : list TelemetryDocument) (w : World) :
  result (insertMany docs) w = Ok stored -> length stored = length docs.
Proof.
  unfold result, insertMany, mongo_operation, throw.
  destruct (forallb _ docs); [|done].
  destruct docs as [|x docs]; [by intros [= <-]|].
  destruct (hd Answers _); [|done]. cbn [fst]. intros [= <-].
  exact (length_imap _ (x :: docs)).
Qed.

(** C1.  The response of the ingestion endpoint is decided by the batched
    insert alone.  When [insertMany] succeeds the response reports as many
    readings as the batch holds; the call fails exactly when [insertMany]
    fails, with the same error; and the result is the same for every state
    of the cache adapter and of the webhook, so no failure of a cache write
    or of an alert evaluation changes it. *)
Theorem ingest_outcome (alertService : AlertService) (payload : Payload)
    (w : World) :
  let readings := normalize payload in
  let inputs :=
    map (fun reading =>
           mkInput (deviceId reading) (siteId reading)
                   (Date_parse (ts reading)) (metrics reading)) readings in
  let ingest := TelemetryController_ingestTelemetry alertService payload in
  (forall stored, result (insertMany inputs) w = Ok stored ->
     result (ingestTelemetry alertService readings) w = Ok stored /\
     result ingest w = Ok (mkIngestResponse true (length readings))) /\
  (forall e, result ingest w = Throw e <->
             result (insertMany inputs) w = Throw e) /\
  (forall (r : RedisService) (h : Http),
     result ingest (set_redis r (set_http h w)) = result ingest w).
Proof.
  intros readings inputs ingest.
  assert (Hctl : forall w0,
    result ingest w0 =
    match result (insertMany inputs) w0 with
    | Ok stored => Ok (mkIngestResponse true (length stored))
    | Throw e => Throw e
    end).
  { intros w0. unfold inputs.
    rewrite <- (ingestTelemetry_result alertService readings w0).
    unfold ingest, TelemetryController_ingestTelemetry, result, bind.
    fold readings.
    by destruct (ingestTelemetry alertService readings w0) as [[?|?] ?]. }
  split; [|split].
  - intros stored Hins. split.
    + by rewrite ingestTelemetry_result.
    + rewrite Hctl, Hins.
      rewrite (insertMany_length _ _ _ Hins). unfold inputs.
      by rewrite length_map.
  - intros e. rewrite Hctl.
    destruct (result (insertMany inputs) w);
      split; try discriminate; by intros [= ->].
  - intros r h. rewrite !Hctl.
    by rewrite (insertMany_frame inputs (set_redis r (set_http h w)) w).
Qed.

(* ===================================================================== *)
(** ** Site summary *)
(* ===================================================================== *)

Lemma getSiteSummary_result (site from to : string) (w : World) :
  store_answers w ->
  result (getSiteSummary site from to) w =
  Ok (match group_stage (match_stage site (Date_parse from) (Date_parse to)
                                     (collection (mongo w))) with
      | [] => EMPTY_SUMMARY
      | g :: _ => project_stage g
      end).
Proof.
  unfold store_answers, result, getSiteSummary, bind, aggregate,
    mongo_query, mongo_operation.
  intros ->. cbn.
  by destruct (group_stage _).
Qed.


Lemma match_stage_none (site : string) (fromDate toDate : option Z)
    (coll : list TelemetryDocument) :
  (forall d, d ∈ coll -> matches site fromDate toDate d = false) ->
  match_stage site fromDate toDate coll = [].
Proof.
  unfold match_stage. induction coll as [|d coll IH]; intros H; [done|].
  cbn. rewrite (H d) by (by left). apply IH.
  intros d' Hd'. apply H. by right.
Qed.

(** C7.  When the store answers and holds no reading of the site with a
    timestamp in the closed interval [from, to], the summary is the record
    of zeros; the call does not fail. *)
Theorem summary_of_nothing (site from to : string) (fromDate toDate : Z)
    (w : World) :
  store_answers w ->
  Date_parse from = Some fromDate ->
  Date_parse to = Some toDate ->
  (forall d, d ∈ collection (mongo w) ->
             ~ (doc_siteId d = site /\ fromDate <= doc_ts d <= toDate)) ->
  result (getSiteSummary site from to) w =
  Ok (mkSummary 0 0%Q 0%Q 0%Q 0%Q 0).
Proof.
  intros Hup Hfrom Hto Hnone.
  rewrite getSiteSummary_result, Hfrom, Hto by done.
  rewrite match_stage_none; [done|].
  intros d Hd. apply not_true_is_false. intros H. apply (Hnone d Hd).
  unfold matches in H.
  apply andb_true_iff in H as [H1 H2].
  apply bool_decide_eq_true in H1.
  apply andb_true_iff in H2 as [H2 H3]. apply Z.leb_le in H2, H3. done.
Qed.


Lemma addToSet_from (l acc : list string) :
  NoDup acc ->
  let step (s : list string) (x : string) :=
    if bool_decide (x ∈ s) then s else s ++ [x] in
  NoDup (fold_left step l acc) /\
  forall x, x ∈ fold_left step l acc <-> x ∈ acc \/ x ∈ l.
Proof.
  clear JSON_stringify JSON_parse Date_parse Mongo_avg Mongo_round event_loop.
  intros Hnd step. revert acc Hnd.
  induction l as [|y l IH]; intros acc Hnd; cbn.
  - split; [done|]. intros x. rewrite elem_of_nil. tauto.
  - unfold step at 2 4. case_bool_decide as Hy.
    + destruct (IH acc Hnd) as [H1 H2]. split; [done|].
      intros x. rewrite H2, elem_of_cons. split; [tauto|].
      intros [?|[->|?]]; auto.
    + assert (Hnd' : NoDup (acc ++ [y])).
      { apply NoDup_app. split; [done|]. split; [|apply NoDup_singleton].
        intros x Hx ->%list_elem_of_singleton. done. }
      destruct (IH _ Hnd') as [H1 H2]. split; [done|].
      intros x. rewrite H2, elem_of_app, list_elem_of_singleton, elem_of_cons.
      tauto.
Qed.



(* ===================================================================== *)
(** ** Latest reading *)
(* ===================================================================== *)

Lemma sort_ts_desc_from (l : list TelemetryDocument) (b : TelemetryDocument) :
  exists d,
    fold_left (fun best d =>
                 match best with
                 | None => Some d
                 | Some b => if doc_ts b <? doc_ts d then Some d else Some b
                 end) l (Some b) = Some d /\
    d ∈ b :: l /\ forall d', d' ∈ b :: l -> doc_ts d' <= doc_ts d.
Proof.
  revert b. induction l as [|x l IH]; intros b; cbn.
  - exists b. split; [done|]. split; [by left|].
    intros d' ->%list_elem_of_singleton. lia.
  - destruct (Z.ltb_spec (doc_ts b) (doc_ts x)) as [Hlt|Hge].
    + destruct (IH x) as (d & -> & Hin & Hub). exists d.
      split; [done|]. split; [by right|].
      intros d' [->|Hd']%elem_of_cons; [|by apply Hub].
      specialize (Hub x (list_elem_of_here _ _)). lia.
    + destruct (IH b) as (d & -> & Hin & Hub). exists d.
      split; [done|]. split.
      * apply elem_of_cons in Hin as [->|Hin]; [by left|]. right. by right.
      * intros d' [->|[->|Hd']%elem_of_cons]%elem_of_cons.
        -- apply Hub. by left.
        -- specialize (Hub b (list_elem_of_here _ _)). lia.
        -- apply Hub. by right.
Qed.

(** The document [sort({ ts: -1 })] puts first: one of the list, with no
    later timestamp in the list; none only when the list is empty. *)
Lemma sort_ts_desc_first_spec (l : list TelemetryDocument) :
  match sort_ts_desc_first l with
  | Some d => d ∈ l /\ forall d', d' ∈ l -> doc_ts d' <= doc_ts d
  | None => l = []
  end.
Proof.
  unfold sort_ts_desc_first. destruct l as [|b l]; [done|]. cbn.
  by destruct (sort_ts_desc_from l b) as (d & -> & H).
Qed.

Lemma RedisService_getLatest_value (dev : string) (w : World) :
  result (RedisService_getLatest dev) w = Ok (cache_value dev w).
Proof.
  unfold result, cache_value. rewrite RedisService_getLatest_run.
  by destruct (isConnected (redis w)), (faulty w).
Qed.

Lemma RedisService_getLatest_frame (dev : string) (w : World) :
  let w1 := after (RedisService_getLatest dev) w in
  clock w1 = clock w /\ mongo w1 = mongo w /\
  isConnected (redis w1) = isConnected (redis w) /\
  keyspace w1 = keyspace w /\
  (redis_faults (client (redis w)) = [] ->
   redis_faults (client (redis w1)) = []).
Proof.
  unfold after. rewrite RedisService_getLatest_run.
  destruct (isConnected (redis w)) eqn:Hc; cbn; [|by rewrite Hc].
  repeat split; try done. by intros ->.
Qed.

(** [getLatest], with the two fire-and-forget handlers resolved. *)
Lemma getLatest_run (dev : string) (w : World) :
  getLatest dev w =
  let w1 := after (RedisService_getLatest dev) w in
  if truthy (cache_value dev w) then (Ok (FromCache (cache_value dev w)), w1)
  else
    let w2 := set_mongo (mkMongo (collection (mongo w))
                                 (tail (mongo_faults (mongo w)))
                                 (S (mongo_calls (mongo w)))) w1 in
    match hd Answers (mongo_faults (mongo w)) with
    | Rejects _ => (Throw MongoError, w2)
    | Answers =>
        match sort_ts_desc_first
                (filter (fun d => doc_deviceId d = dev)
                        (collection (mongo w))) with
        | Some latest =>
            (Ok (FromMongo latest),
             after (cacheLatest dev (LeanDoc latest) DEFAULT_TTL) w2)
        | None =>
            (Throw (NotFoundException
                      ("No telemetry data found for device: " +:+ dev)), w2)
        end
    end.
Proof.
  cbv zeta. unfold getLatest. unfold bind at 1.
  pose proof (RedisService_getLatest_value dev w) as Hv.
  destruct (RedisService_getLatest_frame dev w) as (_ & Hm & _).
  unfold result, after in *.
  destruct (RedisService_getLatest dev w) as [[v|e] w1]; [|done].
  cbn [fst snd] in Hv, Hm |- *. injection Hv as ->.
  destruct (truthy (cache_value dev w)); [done|].
  unfold bind at 1. unfold findOne_sort_ts_desc, mongo_query, mongo_operation.
  rewrite Hm.
  destruct (hd Answers (mongo_faults (mongo w))); [|done]. cbv beta iota.
  destruct (sort_ts_desc_first _) as [latest|]; [|done].
  unfold bind at 1. unfold fire_and_forget, try_catch.
  rewrite !cacheLatest_run. reflexivity.
Qed.

(** C9.  [getLatest] first asks the cache adapter.  A truthy answer is
    returned as it is and MongoDB is not consulted.  Otherwise, the store
    answering: if it holds a reading of the device, the one returned is a
    reading of that device with the greatest timestamp, and a connected
    adapter whose commands succeed stores it again under latest:<deviceId>
    for 24 hours; and the call fails with NotFound exactly when the cache
    missed and the store holds no reading of the device. *)
Theorem latest_lookup (dev : string) (w : World) :
  exists cached : Json,
    result (RedisService_getLatest dev) w = Ok cached /\
    (truthy cached = true ->
     result (getLatest dev) w = Ok (FromCache cached) /\
     mongo (after (getLatest dev) w) = mongo w) /\
    (truthy cached = false -> store_answers w ->
     forall d, d ∈ collection (mongo w) -> doc_deviceId d = dev ->
     exists latest,
       result (getLatest dev) w = Ok (FromMongo latest) /\
       latest ∈ collection (mongo w) /\ doc_deviceId latest = dev /\
       (forall d', d' ∈ collection (mongo w) -> doc_deviceId d' = dev ->
                   doc_ts d' <= doc_ts latest) /\
       (isConnected (redis w) = true ->
        redis_faults (client (redis w)) = [] ->
        forall json, JSON_stringify (LeanDoc latest) = Some json ->
        keyspace (after (getLatest dev) w) !! ("latest:" +:+ dev) =
        Some (json, clock w + 1000 * 86400))) /\
    (store_answers w ->
     ((exists msg, result (getLatest dev) w = Throw (NotFoundException msg))
      <->
      truthy cached = false /\
      forall d, d ∈ collection (mongo w) -> doc_deviceId d <> dev)).
Proof.
  exists (cache_value dev w).
  split; [apply RedisService_getLatest_value|].
  pose proof (sort_ts_desc_first_spec
                (filter (fun d => doc_deviceId d = dev)
                        (collection (mongo w)))) as Hsort.
  destruct (RedisService_getLatest_frame dev w)
    as (Hclock & Hmongo & Hconn & Hkv & Hfaults).
  unfold result, after, store_answers in *. rewrite getLatest_run.
  cbv zeta. split; [|split].
  - intros ->. by cbn.
  - intros -> -> d Hd Hdev.
    destruct (sort_ts_desc_first _) as [latest|].
    + destruct Hsort as [Hin Hub].
      apply list_elem_of_filter in Hin as [Hldev Hlin].
      exists latest. split; [done|]. split; [done|]. split; [done|].
      split.
      * intros d' Hd' Hdev'. apply Hub. by apply list_elem_of_filter.
      * intros Hc Hf json Hjson. cbn [snd]. unfold after.
        rewrite cacheLatest_run. cbn [snd]. cbn [redis set_mongo].
        rewrite Hconn, Hc, Hjson. rewrite issue_keyspace.
        unfold setex_keyspace, faulty. cbn [redis set_mongo clock].
        rewrite (Hfaults Hf). cbn [hd orb].
        unfold DEFAULT_TTL. cbn [Z.leb Z.compare].
        unfold keyspace at 1. cbn [redis set_mongo].
        rewrite lookup_insert_eq. by rewrite Hclock.
    + exfalso. assert (Hin : d ∈ filter (fun d => doc_deviceId d = dev)
                                   (collection (mongo w)))
        by (by apply list_elem_of_filter).
      rewrite Hsort in Hin. by apply elem_of_nil in Hin.
  - intros ->.
    destruct (truthy (cache_value dev w)).
    { split; [by intros [msg [=]]|by intros [[=] _]]. }
    destruct (sort_ts_desc_first _) as [latest|].
    + destruct Hsort as [Hin _].
      apply list_elem_of_filter in Hin as [Hldev Hlin].
      split; [by intros [msg [=]]|].
      intros [_ Hnone]. by destruct (Hnone latest).
    + split; [|by eexists].
      intros _. split; [done|]. intros d Hd Hdev.
      assert (Hin : d ∈ filter (fun d => doc_deviceId d = dev)
                        (collection (mongo w)))
        by (by apply list_elem_of_filter).
      rewrite Hsort in Hin. by apply elem_of_nil in Hin.
Qed.

(** C10.  A value stored under latest:<deviceId> that [JSON.parse] rejects
    makes the cache adapter answer [null], not raise; [getLatest] then gives
    exactly what it gives when nothing is stored under that key (the reading
    of the durable store, or NotFound), and in no state of the world does it
    fail with the parse error. *)
Theorem corrupt_cache_is_a_miss (dev s : string) (expires : Z) (w : World) :
  keyspace w !! ("latest:" +:+ dev) = Some (s, expires) ->
  JSON_parse s = None ->
  result (RedisService_getLatest dev) w = Ok JNull /\
  result (getLatest dev) w =
    result (getLatest dev) (forget ("latest:" +:+ dev) w) /\
  (forall w0, result (getLatest dev) w0 <> Throw SyntaxError).
Proof.
  intros Hkv Hparse.
  assert (Hcorrupt : cache_value dev w = JNull).
  { unfold cache_value, redis_lookup.
    destruct (isConnected (redis w) && negb (faulty w)); [|done].
    unfold keyspace in Hkv. rewrite Hkv.
    destruct (clock w <? expires); [|done].
    unfold decode. rewrite Hparse. by destruct (String.eqb s ""). }
  assert (Hmiss : cache_value dev (forget ("latest:" +:+ dev) w) = JNull).
  { unfold cache_value, redis_lookup, forget, faulty.
    cbn [redis client set_client set_redis isConnected redis_faults kv clock].
    destruct (isConnected (redis w) && negb _); [|done].
    by rewrite lookup_delete_eq. }
  split; [by rewrite RedisService_getLatest_value, Hcorrupt|].
  split.
  - unfold result. rewrite !getLatest_run. cbv zeta.
    rewrite Hcorrupt, Hmiss. cbn [truthy].
    change (mongo (forget ("latest:" +:+ dev) w)) with (mongo w).
    destruct (hd Answers (mongo_faults (mongo w))); [|done].
    by destruct (sort_ts_desc_first _).
  - intros w0. unfold result. rewrite getLatest_run. cbv zeta.
    destruct (truthy (cache_value dev w0)); [done|].
    destruct (hd Answers (mongo_faults (mongo w0))); [|done].
    by destruct (sort_ts_desc_first _).
Qed.

(* ===================================================================== *)
(** ** The authentication guard *)
(* ===================================================================== *)

Lemma same_codes_eq (a b : string) :
  String.length a = String.length b ->
  (forall i, (i < String.length a)%nat -> charCodeAt a i = charCodeAt b i) ->
  a = b.
Proof.
  revert b. induction a as [|c a IH]; intros [|c' b] Hlen Hcodes;
    try discriminate; [done|].
  cbn in Hlen. injection Hlen as Hlen.
  assert (Hc : c = c').
  { specialize (Hcodes 0%nat ltac:(cbn; lia)). unfold charCodeAt in Hcodes.
    cbn in Hcodes. apply Nat2Z.inj in Hcodes.
    by rewrite <- (ascii_nat_embedding c), Hcodes, ascii_nat_embedding. }
  subst c'. f_equal. apply IH; [done|].
  intros i Hi. apply (Hcodes (S i)). cbn. lia.
Qed.

Lemma lor_fold_zero (f : nat -> Z) (l : list nat) (acc : Z) :
  fold_left (fun result i => Z.lor result (f i)) l acc = 0 <->
  acc = 0 /\ forall i, i ∈ l -> f i = 0.
Proof.
  clear JSON_stringify JSON_parse Date_parse Mongo_avg Mongo_round event_loop.
  revert acc. induction l as [|x l IH]; intros acc; cbn.
  - split; [|tauto]. intros ->. split; [done|].
    intros i Hi. by apply elem_of_nil in Hi.
  - rewrite IH, Z.lor_eq_0_iff. split.
    + intros [[-> Hx] Hl]. split; [done|].
      intros i [->|Hi]%elem_of_cons; auto.
    + intros [-> Hall]. split; [split; [done|]|].
      * apply Hall. by left.
      * intros i Hi. apply Hall. by right.
Qed.

(** The accumulated difference of two strings of the same length. *)
Lemma constantTimeCompare_same_length (a b : string) :
  String.length a = String.length b ->
  (constantTimeCompare a b = true <->
   forall i, (i < String.length a)%nat -> charCodeAt a i = charCodeAt b i).
Proof.
  intros Hlen. unfold constantTimeCompare.
  destruct (Nat.eqb_spec (String.length a) (String.length b)); [|done].
  cbn [negb]. rewrite Z.eqb_eq, lor_fold_zero. split.
  - intros [_ Hall] i Hi. apply Z.lxor_eq_0_iff, Hall, elem_of_seq. lia.
  - intros Hall. split; [done|]. intros i Hi%elem_of_seq.
    apply Z.lxor_eq_0_iff, Hall. lia.
Qed.

Lemma constantTimeCompare_refl (a : string) : constantTimeCompare a a = true.
Proof. by apply constantTimeCompare_same_length. Qed.

Lemma constantTimeCompare_length (a b : string) :
  constantTimeCompare a b = true -> String.length a = String.length b.
Proof.
  unfold constantTimeCompare.
  by destruct (Nat.eqb_spec (String.length a) (String.length b)).
Qed.

Lemma split_space_cons (s : string) :
  exists first others, split_space s = first :: others.
Proof.
  induction s as [|c s (first & others & IH)]; cbn; [by eexists _, _|].
  destruct (Ascii.eqb c " "); [by eexists _, _|].
  rewrite IH. by eexists _, _.
Qed.

(** Joining the pieces with spaces gives the string back. *)
Lemma concat_split_space (s : string) :
  String.concat " " (split_space s) = s.
Proof.
  induction s as [|c s IH]; [done|]. cbn [split_space].
  destruct (split_space_cons s) as (first & others & Hs).
  rewrite Hs in IH |- *.
  destruct (Ascii.eqb_spec c " ") as [->|_].
  - change (String.concat " " ("" :: first :: others))
      with (" " +:+ String.concat " " (first :: others)).
    by rewrite IH.
  - rewrite <- IH. by destruct others.
Qed.

Lemma contains_space_String (c : ascii) (s : string) :
  contains_space (String c s) = Ascii.eqb " " c || contains_space s.
Proof. reflexivity. Qed.

(** No piece contains a space. *)
Lemma split_space_pieces (s x : string) :
  x ∈ split_space s -> contains_space x = false.
Proof.
  revert x. induction s as [|c s IH]; intros x; cbn [split_space].
  - by intros ->%list_elem_of_singleton.
  - destruct (Ascii.eqb_spec c " ") as [->|Hc].
    + intros [->|Hx]%elem_of_cons; [done|by apply IH].
    + destruct (split_space_cons s) as (first & others & Hs).
      rewrite Hs in IH |- *.
      intros [->|Hx]%elem_of_cons.
      * rewrite contains_space_String.
        destruct (Ascii.eqb_spec " " c) as [<-|_]; [done|].
        apply (IH first). by left.
      * apply IH. by right.
Qed.

Lemma append_String (c : ascii) (a b : string) :
  String c a +:+ b = String c (a +:+ b).
Proof. reflexivity. Qed.

(** A piece without a space, then a space: the first piece is that one. *)
Lemma split_space_app (a b : string) :
  contains_space a = false ->
  split_space (a +:+ String " " b) = a :: split_space b.
Proof.
  induction a as [|c a IH]; [done|].
  rewrite contains_space_String.
  destruct (Ascii.eqb_spec " " c) as [<-|Hc]; [done|].
  intros Ha. rewrite append_String. cbn [split_space].
  destruct (Ascii.eqb_spec c " ") as [->|_]; [done|].
  by rewrite (IH Ha).
Qed.

Lemma split_space_whole (a : string) :
  contains_space a = false -> split_space a = [a].
Proof.
  induction a as [|c a IH]; [done|].
  rewrite contains_space_String.
  destruct (Ascii.eqb_spec " " c) as [<-|Hc]; [done|].
  intros Ha. cbn [split_space].
  destruct (Ascii.eqb_spec c " ") as [->|_]; [done|].
  by rewrite (IH Ha).
Qed.

(** [canActivate] with a token configured, read off the pieces of the
    header. *)
Lemma canActivate_pieces (tok : string) (h : option string) :
  tok <> "" ->
  canActivate (mkAuthGuard (Some tok)) h = Returns true <->
  exists header rest,
    h = Some header /\ split_space header = "Bearer" :: tok :: rest.
Proof.
  intros Htok. unfold canActivate. cbn [ingestToken absent_or_empty].
  destruct (String.eqb_spec tok "") as [|_]; [done|].
  destruct h as [header|]; cbn [absent_or_empty default].
  2: { split; [done|]. by intros (? & ? & [=] & _). }
  destruct (String.eqb_spec header "") as [->|_].
  { split; [done|]. by intros (? & ? & [= <-] & [=]). }
  cbv zeta. cbn [from_option]. unfold id.
  destruct (split_space header) as [|scheme pieces] eqn:Hs.
  { destruct (split_space_cons header) as (? & ? & H). congruence. }
  change ((scheme :: pieces) !! 0%nat) with (Some scheme).
  change ((scheme :: pieces) !! 1%nat) with (pieces !! 0%nat).
  case_bool_decide as Hscheme; cbn [negb].
  2: { split; [done|]. intros (? & ? & [= <-] & H). rewrite Hs in H.
       injection H as -> _. by destruct Hscheme. }
  injection Hscheme as ->.
  destruct pieces as [|token rest]; cbn [lookup list_lookup absent_or_empty].
  { split; [done|]. intros (? & ? & [= <-] & H). by rewrite Hs in H. }
  change ((token :: rest) !! 0%nat) with (Some token).
  cbn [absent_or_empty default].
  destruct (String.eqb_spec token "") as [->|_].
  { split; [done|]. intros (? & ? & [= <-] & H). rewrite Hs in H.
    injection H as <- _. done. }
  cbn [from_option]. unfold id.
  destruct (constantTimeCompare token tok) eqn:Hcmp; cbn [negb].
  - assert (token = tok) as ->.
    { pose proof (constantTimeCompare_length _ _ Hcmp) as Hlen.
      apply same_codes_eq; [done|].
      by apply constantTimeCompare_same_length. }
    split; [|done]. intros _. by exists header, rest.
  - split; [done|]. intros (? & ? & [= <-] & H). rewrite Hs in H.
    injection H as -> _.
    pose proof (constantTimeCompare_refl tok). congruence.
Qed.

(** X1.  [constantTimeCompare] answers [true] exactly on equal strings. *)
Theorem constantTimeCompare_spec (a b : string) :
  constantTimeCompare a b = true <-> a = b.
Proof.
  split.
  - intros Hcmp. pose proof (constantTimeCompare_length a b Hcmp) as Hlen.
    apply same_codes_eq; [done|]. by apply constantTimeCompare_same_length.
  - intros ->. apply constantTimeCompare_refl.
Qed.

(** X2.  With a non-empty token without a space configured, the guard lets
    a request pass exactly when its Authorization header is "Bearer ", the
    token, and then either nothing or a space followed by anything. *)
Theorem auth_accepts_exactly (tok : string) (h : option string) :
  tok <> "" ->
  contains_space tok = false ->
  canActivate (mkAuthGuard (Some tok)) h = Returns true <->
  h = Some ("Bearer " +:+ tok) \/
  exists junk, h = Some ("Bearer " +:+ tok +:+ " " +:+ junk).
Proof.
  intros Htok Hspace. rewrite (canActivate_pieces tok h Htok). split.
  - intros (header & rest & -> & Hs).
    rewrite <- (concat_split_space header), Hs.
    destruct rest as [|r rs]; [by left|].
    right. by exists (String.concat " " (r :: rs)).
  - intros [->|[junk ->]].
    + exists ("Bearer " +:+ tok), []. split; [done|].
      change ("Bearer " +:+ tok) with ("Bearer" +:+ String " " tok).
      rewrite split_space_app by done. by rewrite split_space_whole.
    + exists ("Bearer " +:+ tok +:+ " " +:+ junk), (split_space junk).
      split; [done|].
      change ("Bearer " +:+ tok +:+ " " +:+ junk)
        with ("Bearer" +:+ String " " (tok +:+ String " " junk)).
      rewrite split_space_app by done. by rewrite split_space_app.
Qed.

(** X3.  Without a configured token ([undefined] or the empty string) the
    guard lets every request pass, whatever its header; and whatever the
    configuration, the guard never answers [false]: it answers [true] or
    throws. *)
Theorem auth_optional_never_false (this : AuthGuard) (h : option string) :
  (ingestToken this = None \/ ingestToken this = Some "" ->
   canActivate this h = Returns true) /\
  canActivate this h <> Returns false.
Proof.
  unfold canActivate. split.
  - by intros [->| ->].
  - destruct (absent_or_empty (ingestToken this)); [done|].
    destruct (absent_or_empty h); [done|]. cbv zeta.
    destruct (negb (bool_decide _)); [done|].
    destruct (absent_or_empty _); [done|].
    by destruct (negb (constantTimeCompare _ _)).
Qed.

(** X4.  A configured token that contains a space can never be presented:
    the guard rejects every request. *)
Theorem auth_token_with_space_locks_out (tok : string) (h : option string) :
  contains_space tok = true ->
  canActivate (mkAuthGuard (Some tok)) h <> Returns true.
Proof.
  intros Hspace Hok.
  assert (Htok : tok <> "") by (by intros ->).
  apply (canActivate_pieces tok h Htok) in Hok as (header & rest & _ & Hs).
  assert (Hin : tok ∈ split_space header)
    by (rewrite Hs; right; left).
  apply split_space_pieces in Hin. congruence.
Qed.

(* ===================================================================== *)
(** ** The health check *)
(* ===================================================================== *)

Lemma isHealthy_run (w : World) :
  isHealthy w =
  if isConnected (redis w)
  then (Ok (negb (faulty w)),
        set_client (mkRedisClient (keyspace w)
                      (tail (redis_faults (client (redis w))))
                      (commands (client (redis w)))) w)
  else (Ok false, w).
Proof.
  unfold isHealthy, bind, this_isConnected, try_catch, client_ping, faulty,
    keyspace, ret.
  destruct (isConnected (redis w)); cbn; [|done].
  by destruct (hd false _).
Qed.

Lemma checkHealth_run (readyState : Z) (w : World) :
  checkHealth readyState w =
  let redisHealthy := isConnected (redis w) && negb (faulty w) in
  (Ok (mkHealthResponse
         (if (readyState =? 1) && redisHealthy
          then "healthy" else "unhealthy")
         (clock w)
         (if readyState =? 1 then "up" else "down")
         readyState
         (if redisHealthy then "up" else "down")),
   snd (isHealthy w)).
Proof.
  unfold checkHealth. unfold bind at 1. rewrite isHealthy_run.
  by destruct (isConnected (redis w)).
Qed.

(** X5.  The health check never fails.  It reports "healthy" exactly when
    the MongoDB connection is in state 1 and the cache adapter is connected
    and answers the ping, and "unhealthy" otherwise; MongoDB is "up" exactly
    in state 1, Redis is "up" exactly when connected and answering.  The
    check changes neither the stored documents nor the keyspace nor the
    webhook. *)
Theorem health_report (readyState : Z) (w : World) :
  exists r,
    result (checkHealth readyState) w = Ok r /\
    (health_status r = "healthy" <->
     readyState = 1 /\ isConnected (redis w) = true /\ faulty w = false) /\
    (health_status r <> "healthy" -> health_status r = "unhealthy") /\
    (mongodb_status r = "up" <-> readyState = 1) /\
    (redis_status r = "up" <->
     isConnected (redis w) = true /\ faulty w = false) /\
    mongodb_readyState r = readyState /\
    health_timestamp r = clock w /\
    mongo (after (checkHealth readyState) w) = mongo w /\
    keyspace (after (checkHealth readyState) w) = keyspace w /\
    http (after (checkHealth readyState) w) = http w.
Proof.
  unfold result, after. rewrite checkHealth_run, isHealthy_run.
  cbv zeta. eexists. split; [reflexivity|]. cbn -[Z.eqb].
  destruct (Z.eqb_spec readyState 1) as [->|Hne],
           (isConnected (redis w)), (faulty w);
    cbn; repeat split; try done; try (by intros (? & ? & ?));
    try (by intros (? & ?)).
Qed.

(* ===================================================================== *)
(** ** Cache entries and dedup keys *)
(* ===================================================================== *)

Lemma cache_value_advance (dev : string) (dt : Z) (w : World) :
  cache_value dev (advance dt w) =
  if isConnected (redis w) && negb (faulty w)
  then decode (redis_lookup (clock w + dt) (client (redis w))
                            ("latest:" +:+ dev))
  else JNull.
Proof. reflexivity. Qed.

(** X6.  With the adapter connected and answering, what [cacheLatest]
    stored for a device is what [getLatest] of the adapter reads back,
    parsed, until the time to live has passed; from then on the adapter
    answers [null].  Entries of other devices read as before. *)
Theorem cache_round_trip (dev : string) (data : CachePayload) (ttl : Z)
    (json : string) (w : World) :
  isConnected (redis w) = true ->
  redis_faults (client (redis w)) = [] ->
  JSON_stringify data = Some json ->
  json <> "" ->
  0 < ttl ->
  let w1 := after (cacheLatest dev data ttl) w in
  (forall dt, 0 <= dt < 1000 * ttl ->
     result (RedisService_getLatest dev) (advance dt w1) =
     Ok (default JNull (JSON_parse json))) /\
  (forall dt, 1000 * ttl <= dt ->
     result (RedisService_getLatest dev) (advance dt w1) = Ok JNull) /\
  (forall dev' dt, dev' <> dev ->
     result (RedisService_getLatest dev') (advance dt w1) =
     result (RedisService_getLatest dev') (advance dt w)).
Proof.
  intros Hc Hf Hjson Hne Httl w1.
  assert (Hw1 : w1 = issue (SETEX ("latest:" +:+ dev) ttl json)
                       (<["latest:" +:+ dev := (json, clock w + 1000 * ttl)]>
                          (keyspace w)) w).
  { unfold w1, after. rewrite cacheLatest_run, Hc, Hjson. cbn [snd].
    unfold setex_keyspace, faulty. rewrite Hf. cbn [hd orb].
    by destruct (Z.leb_spec ttl 0); [lia|]. }
  assert (Hup : forall w0 dt, w0 = w1 \/ w0 = w ->
            isConnected (redis (advance dt w0)) &&
            negb (faulty (advance dt w0)) = true).
  { intros w0 dt [->| ->]; [rewrite Hw1|]; unfold faulty; cbn;
      by rewrite Hc, Hf. }
  assert (Hread : forall dt,
    redis_lookup (clock w + dt) (client (redis w1)) ("latest:" +:+ dev) =
    if clock w + dt <? clock w + 1000 * ttl then Some json else None).
  { intros dt. rewrite Hw1. unfold redis_lookup. cbn.
    by rewrite lookup_insert_eq. }
  split; [|split].
  - intros dt Hdt. rewrite RedisService_getLatest_value.
    rewrite cache_value_advance.
    assert (Hok := Hup w1 0 (or_introl eq_refl)). cbn in Hok.
    unfold faulty in *. cbn in Hok |- *. rewrite Hok.
    replace (clock w1) with (clock w) by (by rewrite Hw1).
    rewrite Hread.
    destruct (Z.ltb_spec (clock w + dt) (clock w + 1000 * ttl)); [|lia].
    unfold decode. destruct (String.eqb_spec json ""); [done|].
    by destruct (JSON_parse json).
  - intros dt Hdt. rewrite RedisService_getLatest_value.
    rewrite cache_value_advance.
    assert (Hok := Hup w1 0 (or_introl eq_refl)). cbn in Hok.
    unfold faulty in *. cbn in Hok |- *. rewrite Hok.
    replace (clock w1) with (clock w) by (by rewrite Hw1).
    rewrite Hread.
    by destruct (Z.ltb_spec (clock w + dt) (clock w + 1000 * ttl)); [lia|].
  - intros dev' dt Hdev. rewrite !RedisService_getLatest_value.
    rewrite !cache_value_advance. rewrite Hw1. unfold faulty. cbn.
    rewrite Hc, Hf. cbn. f_equal. unfold redis_lookup. cbn.
    rewrite lookup_insert_ne; [done|].
    intros H. by apply append_cancel_l in H.
Qed.

Lemma list_ascii_append (a b : string) :
  list_ascii_of_string (a +:+ b) =
  list_ascii_of_string a ++ list_ascii_of_string b.
Proof.
  induction a as [|c a IH]; [done|].
  rewrite append_String. cbn. by rewrite IH.
Qed.

Lemma list_ascii_inj (a b : string) :
  list_ascii_of_string a = list_ascii_of_string b -> a = b.
Proof.
  intros H.
  by rewrite <- (string_of_list_ascii_of_string a), H,
    string_of_list_ascii_of_string.
Qed.

(** X7.  No two pairs of device and reason share a dedup key, and no dedup
    key is the key of a cached reading, whatever characters the device ids
    contain; two devices never share the key of their cached reading. *)
Theorem cache_keys_distinct (d d' : string) (r r' : AlertReason) :
  (alert_key d r = alert_key d' r' -> d = d' /\ r = r') /\
  "latest:" +:+ d <> alert_key d' r' /\
  ("latest:" +:+ d = "latest:" +:+ d' -> d = d').
Proof.
  split; [|split].
  - unfold alert_key. intros H. apply append_cancel_l in H.
    apply (f_equal list_ascii_of_string) in H.
    rewrite !list_ascii_append in H.
    destruct r, r'; cbn in H.
    + apply app_inv_tail in H. by apply list_ascii_inj in H.
    + apply (f_equal (@rev ascii)) in H. rewrite !rev_app_distr in H.
      cbn in H. discriminate H.
    + apply (f_equal (@rev ascii)) in H. rewrite !rev_app_distr in H.
      cbn in H. discriminate H.
    + apply app_inv_tail in H. by apply list_ascii_inj in H.
  - unfold alert_key. intros H. discriminate H.
  - apply append_cancel_l.
Qed.

(* ===================================================================== *)
(** ** More on the alert dispatcher *)
(* ===================================================================== *)

Lemma gate_disconnected (this : AlertService) (c : bool) (a : AlertDto)
    (w : World) :
  isConnected (redis w) = false ->
  gate this c a w = (if c then [a] else [], w).
Proof. unfold gate. intros ->. by destruct c. Qed.

(** X8.  While the cache adapter is disconnected there is no dedup: every
    reading above a threshold has its alert sent, whatever markers Redis
    holds, no command goes to Redis, and the adapter is left as it was, so
    that the next such reading alerts again. *)
Theorem fail_open_without_cache (this : AlertService) (d s t : string)
    (temp hum : number) (w : World) :
  isConnected (redis w) = false ->
  let w' := after (checkAndAlert this d s t temp hum) w in
  sent this d s t temp hum w =
    (if Qgtb temp 50%Q then [mkAlert d s t HIGH_TEMPERATURE temp] else []) ++
    (if Qgtb hum 90%Q then [mkAlert d s t HIGH_HUMIDITY hum] else []) /\
  ((50 < temp)%Q -> mkAlert d s t HIGH_TEMPERATURE temp
                      ∈ sent this d s t temp hum w) /\
  ((90 < hum)%Q -> mkAlert d s t HIGH_HUMIDITY hum
                     ∈ sent this d s t temp hum w) /\
  redis w' = redis w.
Proof.
  intros Hc w'.
  assert (Hsent : sent this d s t temp hum w =
    (if Qgtb temp 50%Q then [mkAlert d s t HIGH_TEMPERATURE temp] else []) ++
    (if Qgtb hum 90%Q then [mkAlert d s t HIGH_HUMIDITY hum] else [])).
  { rewrite sent_gates, Hc. rewrite (gate_disconnected this _ _ w Hc).
    cbn [snd fst]. rewrite (gate_disconnected this _ _ w Hc).
    cbn [fst negb orb]. by rewrite andb_true_r. }
  split; [exact Hsent|]. rewrite Hsent. split; [|split].
  - intros ->%Qgtb_lt. apply elem_of_app. left. by left.
  - intros ->%Qgtb_lt. apply elem_of_app. right. by left.
  - unfold w'. rewrite checkAndAlert_redis.
    rewrite (gate_disconnected this _ _ w Hc). cbn [snd].
    by rewrite (gate_disconnected this _ _ w Hc).
Qed.

(** X9.  When the window has passed, the marker has expired.  With the
    adapter connected and answering and a positive window, let
    [checkAndAlert] process a reading above the threshold of a reason while
    the device has no live marker for that reason.  When the call of
    [checkAndAlert] that comes next, with nothing but time passing in
    between, is for that device with a reading above the same threshold and
    comes [dedupWindow] seconds later, or later still, it sends an alert of
    that reason.  The statement is about the call that comes next only: it
    says nothing of a call that follows other calls. *)
Theorem realert_after_window (this : AlertService) (d s t : string)
    (temp hum : number) (r : AlertReason) (w : World) :
  isConnected (redis w) = true ->
  redis_faults (client (redis w)) = [] ->
  0 < dedupWindow this ->
  exceeds_threshold r temp hum ->
  marker_live (alert_key d r) w = false ->
  forall (dt : Z) (s2 t2 : string) (temp2 hum2 : number),
    1000 * dedupWindow this <= dt ->
    exceeds_threshold r temp2 hum2 ->
    let later := advance dt (after (checkAndAlert this d s t temp hum) w) in
    exists a, a ∈ sent this d s2 t2 temp2 hum2 later /\
              alert_reason a = r /\ alert_deviceId a = d.
Proof.
  intros Hc Hf Hwin Hex Hfree dt s2 t2 temp2 hum2 Hdt Hex2 later.
  destruct (healthy_marker_rule this d s t temp hum r w Hc Hf Hwin)
    as (Hiff & Hset & _ & _).
  apply exceedsb_spec in Hex.
  pose proof (Hset (proj2 Hiff (conj Hex Hfree))) as Hkv.
  assert (Hexpired : marker_live (alert_key d r) later = false).
  { unfold marker_live, redis_lookup, later. cbn [advance clock redis].
    unfold keyspace in Hkv. rewrite Hkv, checkAndAlert_clock.
    by destruct (Z.ltb_spec (clock w + dt)
                   (clock w + 1000 * dedupWindow this)); [lia|]. }
  destruct (sent_cases this d s2 t2 temp2 hum2 later)
    as (oT & oH & HoT & HoH & _ & ->).
  apply exceedsb_spec in Hex2.
  destruct r; cbn [exceedsb] in Hex2; rewrite Hex2.
  - rewrite (HoT Hexpired).
    exists (mkAlert d s2 t2 HIGH_TEMPERATURE temp2). split; [|done].
    apply elem_of_app. left. by left.
  - rewrite (HoH Hexpired).
    exists (mkAlert d s2 t2 HIGH_HUMIDITY hum2). split; [|done].
    apply elem_of_app. right. by left.
Qed.

(** X10.  [checkAndAlert] makes at most two requests, all to the configured
    webhook URL; each carries the device, site and timestamp it was given,
    and either the reason HIGH_TEMPERATURE with the temperature as value or
    the reason HIGH_HUMIDITY with the humidity as value; no reason is
    alerted twice. *)
Theorem alert_payloads (this : AlertService) (d s t : string)
    (temp hum : number) (w : World) :
  let reqs := new_requests w (after (checkAndAlert this d s t temp hum) w) in
  (length reqs <= 2)%nat /\
  NoDup (map (fun q => alert_reason (snd q)) reqs) /\
  forall url a, (url, a) ∈ reqs ->
    url = webhookUrl this /\
    (a = mkAlert d s t HIGH_TEMPERATURE temp \/
     a = mkAlert d s t HIGH_HUMIDITY hum).
Proof.
  cbv zeta. rewrite checkAndAlert_requests. rewrite !gate_alerts.
  cbn [alert_deviceId alert_reason].
  destruct (_ && _), (_ && _); cbn; (split; [lia|]);
    (split;
     [repeat (apply NoDup_cons; split;
              [intros Hx;
               repeat (apply elem_of_cons in Hx as [Hx|Hx];
                       [discriminate Hx|]);
               by apply elem_of_nil in Hx|]);
      apply NoDup_nil_2|]);
    intros url a Hin;
    repeat (apply elem_of_cons in Hin as [Heq|Hin];
            [injection Heq as -> ->; auto|]);
    by apply elem_of_nil in Hin.
Qed.

(* ===================================================================== *)
(** ** More on ingestion *)
(* ===================================================================== *)

Lemma insertMany_run (docs : list TelemetryInput) (w : World) :
  insertMany docs w =
  if forallb (fun x => bool_decide (is_Some (in_ts x))) docs
  then
    match docs with
    | [] => (Ok [], w)
    | _ :: _ =>
        let m := mongo w in
        let stored := imap (store (clock w) (length (collection m))) docs in
        match hd Answers (mongo_faults m) with
        | Rejects written =>
            (Throw MongoError,
             set_mongo (mkMongo (collection m ++ take written stored)
                                (tail (mongo_faults m))
                                (S (mongo_calls m))) w)
        | Answers =>
            (Ok stored,
             set_mongo (mkMongo (collection m ++ stored)
                                (tail (mongo_faults m))
                                (S (mongo_calls m))) w)
        end
    end
  else (Throw ValidationError, w).
Proof.
  unfold insertMany, mongo_operation, throw.
  destruct (forallb _ docs); [|done]. destruct docs as [|x docs]; [done|].
  by destruct (hd Answers _).
Qed.

(** *** Calls and their suspension points *)

Lemma atomic_and_then {A B} (m : Async A) (f : A -> Async B) (w : World) :
  atomic (and_then m f) w =
  match atomic m w with
  | (Ok a, w') => atomic (f a) w'
  | (Throw e, w') => (Throw e, w')
  end.
Proof.
  revert w. induction m as [a|e|C op k IH]; intros w; cbn; [done|done|].
  destruct (op w) as [r w']. apply IH.
Qed.

Lemma atomic_suspend {B} (op : M B) (w : World) :
  atomic (suspend op) w = op w.
Proof. cbn. by destruct (op w) as [[b|e] w']. Qed.

Lemma atomic_for_each {A} (l : list A) (body : A -> M unit) (w : World) :
  atomic (for_each l body) w = for_of l body w.
Proof.
  revert w. induction l as [|x l IH]; intros w; [done|].
  cbn [for_each for_of]. rewrite atomic_and_then, atomic_suspend.
  unfold bind. destruct (body x w) as [[[]|e] w']; [apply IH|done].
Qed.

Lemma atomic_bind {A B} (m : Async A) (f : A -> Async B)
    (m' : M A) (f' : A -> M B) :
  (forall w, atomic m w = m' w) ->
  (forall a w, atomic (f a) w = f' a w) ->
  forall w, atomic (and_then m f) w = bind m' f' w.
Proof.
  intros Hm Hf w. rewrite atomic_and_then, Hm. unfold bind.
  destruct (m' w) as [[a|e] w']; [apply Hf|done].
Qed.

(** [checkAndAlert] is [checkAndAlert_steps] run with nothing in between. *)
Lemma checkAndAlert_atomic (this : AlertService) (d s t : string)
    (temp hum : number) (w : World) :
  atomic (checkAndAlert_steps this d s t temp hum) w =
  checkAndAlert this d s t temp hum w.
Proof.
  unfold checkAndAlert_steps, checkAndAlert.
  assert (Hblock : forall (r : AlertReason) (x : number) (c : bool)
                     (pre : list AlertDto) (w0 : World),
    atomic (if c
            then and_then (suspend (shouldSendAlert d r)) (fun shouldSend =>
                   if shouldSend
                   then and_then (suspend (markAlertSent d r
                                             (dedupWindow this)))
                          (fun _ => Return (pre ++ [mkAlert d s t r x]))
                   else Return pre)
            else Return pre) w0 =
    (if c
     then bind (shouldSendAlert d r) (fun shouldSend =>
            if shouldSend
            then bind (markAlertSent d r (dedupWindow this))
                      (fun _ => ret (pre ++ [mkAlert d s t r x]))
            else ret pre)
     else ret pre) w0).
  { intros r x c pre w0. destruct c; [|done].
    apply atomic_bind; [apply atomic_suspend|].
    intros [|] w1; [|done].
    apply atomic_bind; [apply atomic_suspend|done]. }
  apply atomic_bind; [apply Hblock|].
  intros alerts w1. apply atomic_bind; [apply Hblock|].
  intros alerts' w2. apply atomic_for_each.
Qed.

(** [cacheLatestReading] is [cacheLatestReading_steps] run with nothing in
    between. *)
Lemma cacheLatestReading_atomic (reading : TelemetryDto)
    (doc : option TelemetryDocument) (w : World) :
  atomic (cacheLatestReading_steps reading doc) w =
  cacheLatestReading reading doc w.
Proof.
  unfold cacheLatestReading_steps, cacheLatestReading.
  destruct doc as [d|]; [|done].
  rewrite atomic_and_then, atomic_suspend.
  by destruct (cacheLatest _ _ _ w) as [[[]|e] w'].
Qed.

(** *** What suspended calls can do *)

Lemma bounded_mono (c : Async unit) :
  forall n q n' q',
    bounded n q c -> (n <= n')%nat -> (q <= q')%nat -> bounded n' q' c.
Proof.
  clear JSON_stringify JSON_parse Date_parse Mongo_avg Mongo_round event_loop.
  induction c as [a|e|B op k IH]; intros n q n' q' H Hn Hq;
    (destruct n as [|n]; [done|]); (destruct n' as [|n']; [lia|]);
    [done|done|].
  cbn in H |- *. destruct H as (j & q0 & Hj & Hop & Hk).
  exists j, q0. split; [lia|]. split; [done|].
  intros r. apply (IH r n q0); [apply Hk | lia | lia].
Qed.

Lemma no_requests (w : World) (q : nat) :
  exists extra, requests (http w) = requests (http w) ++ extra /\
                (length extra <= q)%nat.
Proof. exists []. rewrite app_nil_r. split; [done|cbn; lia]. Qed.

Lemma bounded_turn (c : Async unit) (n q : nat) :
  bounded n q c -> (1 <= n)%nat.
Proof. destruct n; [done|lia]. Qed.

(** One turn: the store and the clock are kept, the requests made are
    within the bound, and what is left of the call is bounded by what
    remains. *)
Lemma resume_bounded (c : Async unit) (n q : nat) (w : World) :
  bounded n q c ->
  mongo (snd (resume c w)) = mongo w /\
  clock (snd (resume c w)) = clock w /\
  exists extra,
    requests (http (snd (resume c w))) = requests (http w) ++ extra /\
    (length extra <= q)%nat /\
    match fst (resume c w) with
    | Some c' => exists n', (S n' <= n)%nat /\
                            bounded n' (q - length extra) c'
    | None => True
    end.
Proof.
  intros H. destruct n as [|n]; [done|].
  destruct c as [a|e|B op k]; cbn in H |- *.
  1,2: split; [done|]; split; [done|]; exists []; rewrite app_nil_r;
       split; [done|]; split; [cbn; lia | done].
  destruct H as (j & q0 & Hj & Hop & Hk).
  destruct (Hop w) as (Hm & Hc & extra & He & Hlen).
  destruct (op w) as [r w']. cbn [fst snd] in *.
  split; [done|]. split; [done|]. exists extra.
  split; [done|]. split; [lia|]. exists n. split; [lia|].
  apply (bounded_mono _ n q0); [apply Hk | lia | lia].
Qed.

Lemma pool_bounded_mono (pool : list (Async unit)) (n q n' q' : nat) :
  pool_bounded n q pool -> (n <= n')%nat -> (q <= q')%nat ->
  pool_bounded n' q' pool.
Proof.
  destruct pool as [|c pool]; [done|]. cbn.
  intros (n1 & q1 & n2 & q2 & Hn & Hq & Hc & Hp) Hn' Hq'.
  exists n1, q1, n2, q2. repeat split; try done; lia.
Qed.

Lemma pool_bounded_length (pool : list (Async unit)) :
  forall n q, pool_bounded n q pool -> (length pool <= n)%nat.
Proof.
  induction pool as [|c pool IH]; intros n q H; cbn in *; [lia|].
  destruct H as (n1 & q1 & n2 & q2 & Hn & Hq & Hc & Hp).
  apply bounded_turn in Hc. apply IH in Hp. lia.
Qed.

Lemma pool_bounded_app (p1 p2 : list (Async unit)) :
  forall n1 q1 n2 q2,
    pool_bounded n1 q1 p1 -> pool_bounded n2 q2 p2 ->
    pool_bounded (n1 + n2) (q1 + q2) (p1 ++ p2).
Proof.
  induction p1 as [|c p1 IH]; intros n1 q1 n2 q2 H1 H2.
  - apply (pool_bounded_mono _ n2 q2); [done|lia|lia].
  - cbn in H1 |- *. destruct H1 as (a1 & b1 & a2 & b2 & Hn & Hq & Hc & Hp).
    exists a1, b1, (a2 + n2)%nat, (b2 + q2)%nat.
    split; [lia|]. split; [lia|]. split; [done|]. by apply IH.
Qed.

(** The call at position [i] of a bounded pool, and the pool without it or
    with another call in its place. *)
Lemma pool_bounded_lookup (pool : list (Async unit)) :
  forall n q i c,
    pool_bounded n q pool -> pool !! i = Some c ->
    exists n1 q1 n2 q2,
      (n1 + n2 <= n)%nat /\ (q1 + q2 <= q)%nat /\
      bounded n1 q1 c /\
      pool_bounded n2 q2 (delete i pool) /\
      forall c' n1' q1',
        bounded n1' q1' c' ->
        pool_bounded (n1' + n2) (q1' + q2) (<[i := c']> pool).
Proof.
  induction pool as [|c0 pool IH]; intros n q i c H Hi; [done|].
  cbn in H. destruct H as (a1 & b1 & a2 & b2 & Hn & Hq & Hc & Hp).
  destruct i as [|i].
  - injection Hi as <-. exists a1, b1, a2, b2.
    split; [done|]. split; [done|]. split; [done|]. split; [done|].
    intros c' n1' q1' Hc'. cbn.
    exists n1', q1', a2, b2. repeat split; try done; lia.
  - cbn in Hi.
    destruct (IH a2 b2 i c Hp Hi) as (m1 & p1 & m2 & p2 & Hm & Hp' & Hb
                                      & Hdel & Hins).
    exists m1, p1, (a1 + m2)%nat, (b1 + p2)%nat.
    split; [lia|]. split; [lia|]. split; [done|]. split.
    + cbn. exists a1, b1, m2, p2. repeat split; try done; lia.
    + intros c' n1' q1' Hc'. cbn.
      exists a1, b1, (n1' + m2)%nat, (q1' + p2)%nat.
      split; [lia|]. split; [lia|]. split; [done|]. by apply Hins.
Qed.

(** Given enough turns the event loop leaves no call suspended, in whatever
    order it resumes them; the store and the clock are kept and the requests
    made are within the bound of the pool. *)
Lemma run_event_loop_bounded (turns : nat) :
  forall turn pool n q w,
    pool_bounded n q pool -> (n <= turns)%nat ->
    fst (run_event_loop turns turn pool w) = [] /\
    mongo (snd (run_event_loop turns turn pool w)) = mongo w /\
    clock (snd (run_event_loop turns turn pool w)) = clock w /\
    exists extra,
      requests (http (snd (run_event_loop turns turn pool w))) =
        requests (http w) ++ extra /\
      (length extra <= q)%nat.
Proof.
  induction turns as [|turns IH]; intros turn pool n q w Hpool Hn.
  - apply pool_bounded_length in Hpool.
    destruct pool; [|cbn in Hpool; lia].
    cbn. split; [done|]. split; [done|]. split; [done|]. apply no_requests.
  - cbn [run_event_loop].
    destruct pool as [|c0 pool0] eqn:Hp.
    { cbn. split; [done|]. split; [done|]. split; [done|].
      apply no_requests. }
    rewrite <- Hp in *.
    assert (Hlt : (event_loop turn `mod` length pool < length pool)%nat).
    { apply Nat.mod_upper_bound. rewrite Hp. done. }
    set (i := (event_loop turn `mod` length pool)%nat) in *.
    destruct (lookup_lt_is_Some_2 pool _ Hlt) as [c Hc].
    rewrite Hc.
    destruct (pool_bounded_lookup pool n q _ c Hpool Hc)
      as (n1 & q1 & n2 & q2 & Hn12 & Hq12 & Hb & Hdel & Hins).
    destruct (resume_bounded c n1 q1 w Hb)
      as (Hm & Hclock & extra & He & Hlen & Hrest).
    destruct (resume c w) as [c' w']. cbn [fst snd] in *.
    assert (Hnext : exists n', (n' <= turns)%nat /\
              pool_bounded n' (q - length extra)
                (match c' with
                 | Some c' => <[i := c']> pool
                 | None => delete i pool
                 end)).
    { destruct c' as [c'|].
      - destruct Hrest as (n' & Hn' & Hb').
        exists (n' + n2)%nat. split; [lia|].
        apply (pool_bounded_mono _ (n' + n2) (q1 - length extra + q2));
          [by apply Hins | lia | lia].
      - apply bounded_turn in Hb. exists n2. split; [lia|].
        apply (pool_bounded_mono _ n2 q2); [done | lia | lia]. }
    destruct Hnext as (n' & Hn' & Hpool').
    destruct (IH (S turn) _ n' (q - length extra)%nat w' Hpool' Hn')
      as (Hnil & Hm' & Hclock' & extra' & He' & Hlen').
    split; [done|]. split; [congruence|]. split; [congruence|].
    exists (extra ++ extra'). rewrite He', He, <- app_assoc.
    split; [done|]. rewrite length_app. lia.
Qed.

(** The calls made: each has run up to its first [await]. *)
Lemma start_all_bounded (calls : list (Async unit)) :
  forall n q w,
    pool_bounded n q calls ->
    mongo (snd (start_all calls w)) = mongo w /\
    clock (snd (start_all calls w)) = clock w /\
    exists extra n',
      requests (http (snd (start_all calls w))) =
        requests (http w) ++ extra /\
      (length extra <= q)%nat /\
      (n' + length calls <= n)%nat /\
      pool_bounded n' (q - length extra) (fst (start_all calls w)).
Proof.
  induction calls as [|c calls IH]; intros n q w H.
  - cbn. split; [done|]. split; [done|]. exists [], 0%nat.
    rewrite app_nil_r. cbn. split; [done|]. split; [lia|]. split; [lia|done].
  - cbn in H. destruct H as (n1 & q1 & n2 & q2 & Hn & Hq & Hc & Hp).
    cbn [start_all].
    destruct (resume_bounded c n1 q1 w Hc)
      as (Hm & Hclock & extra & He & Hlen & Hrest).
    destruct (resume c w) as [c' w1]. cbn [fst snd] in *.
    destruct (IH n2 q2 w1 Hp)
      as (Hm' & Hclock' & extra' & n' & He' & Hlen' & Hn' & Hpool).
    destruct (start_all calls w1) as [pool w2]. cbn [fst snd] in *.
    split; [congruence|]. split; [congruence|].
    assert (Hfirst : exists m, (S m <= n1)%nat /\
              pool_bounded m (q1 - length extra) (option_list c')).
    { destruct c' as [c'|]; cbn.
      - destruct Hrest as (m & Hm1 & Hb). exists m. split; [done|].
        exists m, (q1 - length extra)%nat, 0%nat, 0%nat.
        repeat split; try done; lia.
      - apply bounded_turn in Hc. exists 0%nat. split; [lia|done]. }
    destruct Hfirst as (m & Hm1 & Hfirst).
    exists (extra ++ extra'), (m + n')%nat.
    rewrite He', He, <- app_assoc, length_app.
    split; [done|]. split; [lia|]. split; [cbn [length]; lia|].
    apply (pool_bounded_mono _ (m + n')
             (q1 - length extra + (q2 - length extra')));
      [by apply pool_bounded_app | lia | lia].
Qed.

(** *** The calls [ingestTelemetry] leaves behind *)

Lemma cacheLatest_quiet (d : string) (data : CachePayload) (ttl : Z) :
  makes_requests (cacheLatest d data ttl) 0.
Proof.
  intros w. rewrite cacheLatest_run. cbn [snd].
  assert (H : forall w' : World,
            mongo w' = mongo w -> clock w' = clock w -> http w' = http w ->
            mongo w' = mongo w /\ clock w' = clock w /\
            exists extra, requests (http w') = requests (http w) ++ extra /\
                          (length extra <= 0)%nat).
  { intros w' -> -> ->. repeat split. exists []. by rewrite app_nil_r. }
  destruct (isConnected (redis w)); [|by apply H].
  destruct (JSON_stringify data); by apply H.
Qed.

Lemma shouldSendAlert_quiet (d : string) (r : AlertReason) :
  makes_requests (shouldSendAlert d r) 0.
Proof.
  intros w. rewrite shouldSendAlert_run.
  destruct (isConnected (redis w)); cbn [snd];
    repeat split; exists []; by rewrite app_nil_r.
Qed.

Lemma markAlertSent_quiet (d : string) (r : AlertReason) (n : Z) :
  makes_requests (markAlertSent d r n) 0.
Proof.
  intros w. rewrite markAlertSent_run. cbn [snd].
  destruct (isConnected (redis w));
    repeat split; exists []; by rewrite app_nil_r.
Qed.

Lemma sendAlert_one_request (this : AlertService) (a : AlertDto) :
  makes_requests (sendAlert this a) 1.
Proof.
  intros w. rewrite sendAlert_run. cbn [snd].
  repeat split. by exists [(webhookUrl this, a)].
Qed.

Lemma for_each_sendAlert_bounded (this : AlertService)
    (alerts : list AlertDto) :
  bounded (S (length alerts)) (length alerts)
          (for_each alerts (sendAlert this)).
Proof.
  induction alerts as [|a alerts IH]; [done|].
  cbn [for_each length and_then suspend bounded].
  exists 1%nat, (length alerts). split; [lia|].
  split; [apply sendAlert_one_request|].
  intros [[]|e]; cbn [and_then]; [exact IH|done].
Qed.

(** A call of [cacheLatestReading] is made and resumed once. *)
Lemma cacheLatestReading_steps_bounded (reading : TelemetryDto)
    (doc : option TelemetryDocument) :
  bounded 2 0 (cacheLatestReading_steps reading doc).
Proof.
  unfold cacheLatestReading_steps. destruct doc as [d|]; [|done].
  cbn. exists 0%nat, 0%nat. split; [lia|].
  split; [apply cacheLatest_quiet|]. by intros [[]|e].
Qed.

(** A call of [checkAndAlert] is made and resumed at most six times, and
    makes at most two requests. *)
Lemma checkAndAlert_steps_bounded (this : AlertService) (d s t : string)
    (temp hum : number) :
  bounded 7 2 (checkAndAlert_steps this d s t temp hum).
Proof.
  unfold checkAndAlert_steps.
  assert (Hsend : forall alerts n,
            (length alerts <= 2)%nat -> (3 <= n)%nat ->
            bounded n 2 (for_each alerts (sendAlert this))).
  { intros alerts n Hl Hn.
    apply (bounded_mono _ (S (length alerts)) (length alerts));
      [apply for_each_sendAlert_bounded | lia | lia]. }
  assert (Hhum : forall alerts n,
    (length alerts <= 1)%nat -> (5 <= n)%nat ->
    bounded n 2
      (and_then
         (if Qgtb hum HUMIDITY_THRESHOLD
          then and_then (suspend (shouldSendAlert d HIGH_HUMIDITY))
                 (fun shouldSend =>
                    if shouldSend
                    then and_then
                           (suspend (markAlertSent d HIGH_HUMIDITY
                                       (dedupWindow this)))
                           (fun _ => Return
                              (alerts ++ [mkAlert d s t HIGH_HUMIDITY hum]))
                    else Return alerts)
          else Return alerts)
         (fun alerts => for_each alerts (sendAlert this)))).
  { intros alerts n Hl Hn.
    destruct (Qgtb hum HUMIDITY_THRESHOLD).
    2: { cbn [and_then]. apply Hsend; lia. }
    destruct n as [|n]; [lia|].
    unfold suspend at 1. cbn [and_then bounded].
    exists 0%nat, 2%nat. split; [lia|].
    split; [apply shouldSendAlert_quiet|].
    intros [[|]|e]; cbn [and_then];
      [|apply Hsend; lia|destruct n; [lia|done]].
    destruct n as [|n]; [lia|].
    unfold suspend at 1. cbn [and_then bounded].
    exists 0%nat, 2%nat. split; [lia|].
    split; [apply markAlertSent_quiet|].
    intros [[]|e]; cbn [and_then]; [|destruct n; [lia|done]].
    apply Hsend; [rewrite length_app; cbn; lia | lia]. }
  cbn [app].
  destruct (Qgtb temp TEMPERATURE_THRESHOLD).
  2: { cbn [and_then]. apply (Hhum [] 7%nat); cbn; lia. }
  unfold suspend at 1. cbn [and_then bounded].
  exists 0%nat, 2%nat. split; [lia|].
  split; [apply shouldSendAlert_quiet|].
  intros [[|]|e]; cbn [and_then]; [|apply (Hhum [] 6%nat); cbn; lia|done].
  unfold suspend at 1. cbn [and_then bounded].
  exists 0%nat, 2%nat. split; [lia|].
  split; [apply markAlertSent_quiet|].
  intros [[]|e]; cbn [and_then]; [|done].
  apply (Hhum [mkAlert d s t HIGH_TEMPERATURE temp] 5%nat); cbn; lia.
Qed.

Lemma background_calls_bounded (alertService : AlertService)
    (documents : list TelemetryDocument) (readings : list TelemetryDto) :
  forall first : nat,
    pool_bounded (9 * length readings) (2 * length readings)
      (concat (imap (fun i => background_calls alertService documents
                                               (first + i))
                    readings)).
Proof.
  induction readings as [|reading readings IH]; intros first; [done|].
  cbn [imap concat length].
  apply (pool_bounded_mono _ (9 + 9 * length readings)
           (2 + 2 * length readings)); [|lia|lia].
  apply pool_bounded_app.
  - unfold background_calls. cbn.
    exists 2%nat, 0%nat, 7%nat, 2%nat. split; [lia|]. split; [lia|].
    split; [apply cacheLatestReading_steps_bounded|].
    exists 7%nat, 2%nat, 0%nat, 0%nat. split; [lia|]. split; [lia|].
    split; [apply checkAndAlert_steps_bounded|done].
  - specialize (IH (S first)).
    erewrite imap_ext; [exact IH|].
    intros i x _. cbn. f_equal. lia.
Qed.

Lemma background_calls_length (alertService : AlertService)
    (documents : list TelemetryDocument) (readings : list TelemetryDto) :
  forall first : nat,
    length (concat (imap (fun i => background_calls alertService documents
                                                    (first + i))
                         readings)) = (2 * length readings)%nat.
Proof.
  induction readings as [|reading readings IH]; intros first; [done|].
  cbn [imap concat length background_calls app].
  specialize (IH (S first)).
  erewrite imap_ext; [rewrite IH; lia|].
  intros i x _. cbn. f_equal. lia.
Qed.


(** [ingestTelemetry]: what it returns and the world it leaves, once the
    calls it made have settled. *)
Lemma ingestTelemetry_run (alertService : AlertService)
    (readings : list TelemetryDto) (w : World) :
  let inputs :=
    map (fun reading =>
           mkInput (deviceId reading) (siteId reading)
                   (Date_parse (ts reading)) (metrics reading)) readings in
  exists w',
    ingestTelemetry alertService readings w =
      (fst (insertMany inputs w), w') /\
    match fst (insertMany inputs w) with
    | Ok _ =>
        mongo w' = mongo (snd (insertMany inputs w)) /\
        exists extra,
          requests (http w') =
            requests (http (snd (insertMany inputs w))) ++ extra /\
          (length extra <= 2 * length readings)%nat
    | Throw _ => w' = snd (insertMany inputs w)
    end.
Proof.
  intros inputs. unfold ingestTelemetry. fold inputs. unfold bind at 1.
  destruct (insertMany inputs w) as [[documents|e] w1]; cbn [fst snd].
  2: { by eexists. }
  unfold bind, not_awaited.
  set (calls := concat (imap (background_calls alertService documents)
                             readings)).
  assert (Hcalls : pool_bounded (9 * length readings) (2 * length readings)
                                calls)
    by apply (background_calls_bounded alertService documents readings 0).
  assert (Hlen : length calls = (2 * length readings)%nat)
    by apply (background_calls_length alertService documents readings 0).
  destruct (start_all_bounded calls _ _ w1 Hcalls)
    as (Hm & _ & extra & n' & He & Hle & Hn' & Hpool).
  destruct (start_all calls w1) as [pool w2]. cbn [fst snd] in *.
  assert (Hturns : (n' <= TURNS_PER_READING * length readings)%nat)
    by (unfold TURNS_PER_READING; lia).
  destruct (run_event_loop_bounded _ 0 pool n' _ w2 Hpool Hturns)
    as (_ & Hm' & _ & extra' & He' & Hle').
  eexists. split; [reflexivity|]. cbn [snd].
  split; [congruence|]. exists (extra ++ extra').
  rewrite He', He, <- app_assoc, length_app. split; [done|]. lia.
Qed.

(** *** Requests that are bound to be made *)












(** X11.  When [ingestTelemetry] fails it has started no background work:
    the cache adapter with its keyspace, the webhook and the clock are
    exactly as they were.  The store holds what it held, followed by the
    documents a rejected insert had written by then: the first ones of the
    batch, possibly none, possibly all; when a document fails validation
    nothing is written. *)
Theorem failed_ingest_starts_nothing (alertService : AlertService)
    (readings : list TelemetryDto) (e : Exn) (w : World) :
  result (ingestTelemetry alertService readings) w = Throw e ->
  let w' := after (ingestTelemetry alertService readings) w in
  let documents :=
    imap (store (clock w) (length (collection (mongo w))))
         (map (fun reading =>
                 mkInput (deviceId reading) (siteId reading)
                         (Date_parse (ts reading)) (metrics reading))
              readings) in
  redis w' = redis w /\ http w' = http w /\ clock w' = clock w /\
  (exists written,
     collection (mongo w') = collection (mongo w) ++ take written documents) /\
  (e = ValidationError -> collection (mongo w') = collection (mongo w)).
Proof.
  intros Hfail w' documents. subst w' documents. unfold result, after in *.
  destruct (ingestTelemetry_run alertService readings w) as (w' & Hrun & Hw').
  cbv zeta in Hrun, Hw'. rewrite Hrun in Hfail |- *. cbn [fst snd] in *.
  rewrite Hfail in Hw'. subst w'.
  rewrite insertMany_run in Hfail |- *.
  destruct (forallb _ _).
  2: { repeat split; try done. exists 0%nat. cbn. by rewrite app_nil_r. }
  destruct (map _ readings) as [|x inputs]; [done|].
  cbv zeta in Hfail |- *.
  destruct (hd Answers _) as [|written]; [done|].
  cbn [fst snd] in Hfail |- *. injection Hfail as <-.
  repeat split; try done. by exists written.
Qed.

(** What a successful call has stored. *)
Lemma ingestTelemetry_ok (alertService : AlertService)
    (readings : list TelemetryDto) (docs : list TelemetryDocument)
    (w : World) :
  result (ingestTelemetry alertService readings) w = Ok docs ->
  let inputs := map (fun reading =>
                       mkInput (deviceId reading) (siteId reading)
                               (Date_parse (ts reading)) (metrics reading))
                    readings in
  forallb (fun x => bool_decide (is_Some (in_ts x))) inputs = true /\
  docs = imap (store (clock w) (length (collection (mongo w)))) inputs /\
  collection (mongo (after (ingestTelemetry alertService readings) w)) =
  collection (mongo w) ++ docs.
Proof.
  intros Hok. cbv zeta. unfold result, after in *.
  destruct (ingestTelemetry_run alertService readings w) as (w' & Hrun & Hw').
  cbv zeta in Hrun, Hw'. rewrite Hrun in Hok |- *. cbn [fst snd] in *.
  rewrite Hok in Hw'. destruct Hw' as (Hm & _). rewrite Hm.
  rewrite insertMany_run in Hok |- *.
  destruct (forallb _ _) eqn:Hvalid; [|done].
  destruct (map _ readings) as [|x inputs].
  { cbn [fst snd] in Hok |- *. injection Hok as <-.
    by rewrite app_nil_r. }
  cbv zeta in Hok |- *.
  destruct (hd Answers _); [|done]. cbn [fst snd] in Hok |- *.
  by injection Hok as <-.
Qed.

(** The document stored for the reading at position [i] of a batch that
    passed validation. *)
Lemma stored_reading (now : Z) (first_id i : nat)
    (readings : list TelemetryDto) (reading : TelemetryDto) :
  let inputs := map (fun reading =>
                       mkInput (deviceId reading) (siteId reading)
                               (Date_parse (ts reading)) (metrics reading))
                    readings in
  forallb (fun x => bool_decide (is_Some (in_ts x))) inputs = true ->
  readings !! i = Some reading ->
  exists doc,
    imap (store now first_id) inputs !! i = Some doc /\
    doc_deviceId doc = deviceId reading /\
    doc_siteId doc = siteId reading /\
    doc_metrics doc = metrics reading /\
    Date_parse (ts reading) = Some (doc_ts doc) /\
    createdAt doc = now.
Proof.
  cbv zeta. intros Hvalid Hi.
  rewrite list_lookup_imap, list_lookup_fmap, Hi. cbn.
  eexists. split; [reflexivity|]. cbn. repeat split.
  rewrite forallb_forall in Hvalid.
  specialize (Hvalid (mkInput (deviceId reading) (siteId reading)
                        (Date_parse (ts reading)) (metrics reading))).
  destruct (Date_parse (ts reading)) as [z|] eqn:Hts; [done|].
  exfalso. assert (Hfalse : bool_decide (is_Some (@None Z)) = true).
  { apply Hvalid. apply in_map_iff. exists reading. rewrite Hts.
    split; [done|]. apply list_elem_of_In. by eapply list_elem_of_lookup_2. }
  apply bool_decide_eq_true in Hfalse. by destruct Hfalse.
Qed.

(** X12.  When [ingestTelemetry] succeeds, the store holds what it held,
    followed by one new document for each reading of the batch, in the order
    of the batch; each carries the device, the site and the metrics of its
    reading, the instant its timestamp parses to, and the time of the
    insert. *)
Theorem ingest_appends (alertService : AlertService)
    (readings : list TelemetryDto) (docs : list TelemetryDocument)
    (w : World) :
  result (ingestTelemetry alertService readings) w = Ok docs ->
  let w' := after (ingestTelemetry alertService readings) w in
  collection (mongo w') = collection (mongo w) ++ docs /\
  length docs = length readings /\
  forall i reading, readings !! i = Some reading ->
    exists doc,
      docs !! i = Some doc /\
      doc_deviceId doc = deviceId reading /\
      doc_siteId doc = siteId reading /\
      doc_metrics doc = metrics reading /\
      Date_parse (ts reading) = Some (doc_ts doc) /\
      createdAt doc = clock w.
Proof.
  intros Hok w'. subst w'.
  destruct (ingestTelemetry_ok alertService readings docs w Hok)
    as (Hvalid & Hdocs & Hcoll).
  split; [exact Hcoll|]. subst docs.
  split; [by rewrite length_imap, length_map|].
  intros i reading Hi. by apply stored_reading.
Qed.

(** X13.  One call of [ingestTelemetry] sends at most two webhook requests
    for each reading of the batch, whether or not the insert succeeds,
    whatever the state of Redis and of the webhook, and in whatever order
    the event loop resumes the background calls, all of which are made
    before any of them is resumed. *)
Theorem ingest_request_bound (alertService : AlertService)
    (readings : list TelemetryDto) (w : World) :
  (length (new_requests w (after (ingestTelemetry alertService readings) w))
   <= 2 * length readings)%nat.
Proof.
  unfold new_requests, after.
  destruct (ingestTelemetry_run alertService readings w) as (w' & Hrun & Hw').
  cbv zeta in Hrun, Hw'. rewrite Hrun. cbn [snd].
  rewrite insertMany_run in Hw'.
  destruct (forallb _ _).
  - destruct (map _ readings) as [|x inputs].
    + cbn [fst snd] in Hw'. destruct Hw' as (_ & extra & -> & Hlen).
      by rewrite drop_app_length.
    + cbv zeta in Hw'. destruct (hd Answers _); cbn [fst snd] in Hw'.
      * destruct Hw' as (_ & extra & -> & Hlen). cbn.
        by rewrite drop_app_length.
      * subst w'. cbn. rewrite drop_all. cbn. lia.
  - cbn [fst snd] in Hw'. subst w'. rewrite drop_all. cbn. lia.
Qed.

(** X14.  Once a batch has been ingested, the latest reading of any device
    of the batch is found, in every world that still holds the stored
    documents and whose store answers, whatever the cache adapter does: the
    lookup does not fail.  When the answer comes from the store it is a
    reading of that device, taken no earlier than the ingested one. *)
Theorem latest_found_after_ingest (alertService : AlertService)
    (readings : list TelemetryDto) (docs : list TelemetryDocument)
    (reading : TelemetryDto) (w w2 : World) :
  result (ingestTelemetry alertService readings) w = Ok docs ->
  reading ∈ readings ->
  (forall doc,
     doc ∈ collection (mongo (after (ingestTelemetry alertService readings)
                                    w)) ->
     doc ∈ collection (mongo w2)) ->
  store_answers w2 ->
  exists v,
    result (getLatest (deviceId reading)) w2 = Ok v /\
    forall latest, v = FromMongo latest ->
      doc_deviceId latest = deviceId reading /\
      forall z, Date_parse (ts reading) = Some z -> z <= doc_ts latest.
Proof.
  intros Hok Hin Hkept Hup.
  destruct (ingestTelemetry_ok alertService readings docs w Hok)
    as (Hvalid & Hdocs & Hcoll).
  apply list_elem_of_lookup in Hin as [i Hi].
  destruct (stored_reading (clock w) (length (collection (mongo w))) i
              readings reading Hvalid Hi)
    as (doc & Hdoc & Hdev & _ & _ & Hts & _).
  rewrite <- Hdocs in Hdoc.
  assert (Hthere : doc ∈ filter (fun d => doc_deviceId d = deviceId reading)
                          (collection (mongo w2))).
  { apply list_elem_of_filter. split; [done|]. apply Hkept.
    rewrite Hcoll. apply elem_of_app. right.
    by eapply list_elem_of_lookup_2. }
  pose proof (sort_ts_desc_first_spec
                (filter (fun d => doc_deviceId d = deviceId reading)
                        (collection (mongo w2)))) as Hsort.
  unfold result, store_answers in *. rewrite getLatest_run. cbv zeta.
  destruct (truthy (cache_value _ w2)).
  { eexists. split; [reflexivity|]. by intros latest [=]. }
  rewrite Hup. destruct (sort_ts_desc_first _) as [latest|].
  - eexists. split; [reflexivity|]. intros ? [= <-].
    destruct Hsort as [Hl Hub]. apply list_elem_of_filter in Hl as [Hl _].
    split; [done|]. intros z Hz. specialize (Hub doc Hthere).
    rewrite Hts in Hz. injection Hz as <-. done.
  - rewrite Hsort in Hthere. by apply elem_of_nil in Hthere.
Qed.

(** X15.  A lookup answered by the store refills the cache: with the
    adapter connected and answering, and a document that serializes to text
    which parses back to a truthy value, every lookup of that device during
    the next 24 hours is answered from the cache, with that value, and does
    not consult the store. *)
Theorem second_lookup_hits_cache (dev json : string)
    (latest : TelemetryDocument) (v : Json) (w : World) :
  isConnected (redis w) = true ->
  redis_faults (client (redis w)) = [] ->
  result (getLatest dev) w = Ok (FromMongo latest) ->
  JSON_stringify (LeanDoc latest) = Some json ->
  json <> "" ->
  JSON_parse json = Some v ->
  truthy v = true ->
  forall dt, 0 <= dt < 1000 * 86400 ->
    let w1 := advance dt (after (getLatest dev) w) in
    result (getLatest dev) w1 = Ok (FromCache v) /\
    mongo (after (getLatest dev) w1) = mongo w1.
Proof.
  intros Hc Hf Hfirst Hjson Hne Hparse Htruthy dt Hdt w1.
  destruct (RedisService_getLatest_frame dev w)
    as (Hclock & _ & Hconn & Hkv & Hfaults).
  assert (Hw1 : isConnected (redis w1) = true /\
                redis_faults (client (redis w1)) = [] /\
                clock w1 = clock w + dt /\
                keyspace w1 !! ("latest:" +:+ dev) =
                  Some (json, clock w + 1000 * 86400)).
  { unfold w1, after in *. unfold result in Hfirst.
    rewrite getLatest_run in Hfirst |- *. cbv zeta in Hfirst |- *.
    destruct (truthy (cache_value dev w)); [done|].
    destruct (hd Answers (mongo_faults (mongo w))); [|done].
    destruct (sort_ts_desc_first _) as [found|]; [|done].
    cbn [fst] in Hfirst. injection Hfirst as ->. cbn [snd].
    unfold after. rewrite cacheLatest_run. cbn [snd redis set_mongo].
    rewrite Hconn, Hc, Hjson.
    unfold setex_keyspace, faulty, keyspace.
    cbn [advance issue set_client set_redis set_mongo redis client clock
         isConnected redis_faults kv].
    rewrite (Hfaults Hf). cbn [hd tail orb].
    unfold DEFAULT_TTL. cbn [Z.leb Z.compare].
    rewrite lookup_insert_eq, Hconn, Hc, Hclock. done. }
  destruct Hw1 as (Hc1 & Hf1 & Hclock1 & Hkv1).
  assert (Hhit : cache_value dev w1 = v).
  { unfold cache_value, faulty, redis_lookup. rewrite Hc1, Hf1.
    cbn [hd andb negb].
    unfold keyspace in Hkv1. rewrite Hkv1, Hclock1.
    destruct (Z.ltb_spec (clock w + dt) (clock w + 1000 * 86400)); [|lia].
    unfold decode. destruct (String.eqb_spec json ""); [done|].
    by rewrite Hparse. }
  unfold result, after. rewrite getLatest_run. cbv zeta.
  rewrite Hhit, Htruthy. cbn [fst snd]. split; [done|].
  by destruct (RedisService_getLatest_frame dev w1) as (_ & Hm & _).
Qed.

(* ===================================================================== *)
(** ** More on the site summary *)
(* ===================================================================== *)

Lemma addToSet_length (l : list string) :
  (length (acc_addToSet l) <= length l)%nat /\
  (l <> [] -> (1 <= length (acc_addToSet l))%nat).
Proof.
  unfold acc_addToSet.
  destruct (addToSet_from l [] (NoDup_nil_2 (A := string))) as [Hnd Hin].
  cbv zeta in Hnd, Hin. split.
  - apply submseteq_length, NoDup_submseteq; [done|].
    intros x Hx. apply Hin in Hx as [Hx|Hx]; [|done].
    by apply elem_of_nil in Hx.
  - intros Hne. destruct l as [|x l]; [done|].
    assert (Hx : x ∈ fold_left
               (fun s x => if bool_decide (x ∈ s) then s else s ++ [x])
               (x :: l) []) by (apply Hin; right; by left).
    destruct (fold_left _ _ _); [by apply elem_of_nil in Hx|cbn; lia].
Qed.

(** X16.  In every summary of a non-empty match the number of devices is at
    least 1 and at most the number of readings counted, which is at most
    the number of stored documents. *)
Theorem summary_counts (site from to : string) (fromDate toDate : Z)
    (w : World) :
  store_answers w ->
  Date_parse from = Some fromDate ->
  Date_parse to = Some toDate ->
  match_stage site (Some fromDate) (Some toDate) (collection (mongo w))
    <> [] ->
  exists r,
    result (getSiteSummary site from to) w = Ok r /\
    (1 <= uniqueDevices r <= count r)%nat /\
    (count r <= length (collection (mongo w)))%nat.
Proof.
  intros Hup Hfrom Hto Hne.
  rewrite getSiteSummary_result, Hfrom, Hto by done.
  set (matched := match_stage _ _ _ _) in *.
  assert (Hlen : (length matched <= length (collection (mongo w)))%nat)
    by apply List.filter_length_le.
  destruct (addToSet_length (map doc_deviceId matched)) as [Hle Hge].
  rewrite length_map in Hle.
  destruct matched as [|d rest] eqn:Hm; [done|].
  cbn [group_stage]. eexists. split; [reflexivity|].
  cbn [project_stage uniqueDevices count g_count g_uniqueDevices].
  split; [|done]. split; [|done]. by apply Hge.
Qed.

(** X18.  An interval whose end is before its start matches nothing: the
    summary is the record of zeros, whatever the store holds. *)
Theorem summary_of_reversed_interval (site from to : string)
    (fromDate toDate : Z) (w : World) :
  store_answers w ->
  Date_parse from = Some fromDate ->
  Date_parse to = Some toDate ->
  toDate < fromDate ->
  result (getSiteSummary site from to) w =
  Ok (mkSummary 0 0%Q 0%Q 0%Q 0%Q 0).
Proof.
  intros Hup Hfrom Hto Hrev.
  rewrite getSiteSummary_result, Hfrom, Hto by done.
  rewrite match_stage_none; [done|].
  intros d _. unfold matches, bson_date. cbn [default from_option]. unfold id.
  apply andb_false_intro2, andb_false_iff.
  destruct (Z.leb_spec fromDate (doc_ts d)); [right | by left].
  apply Z.leb_gt. lia.
Qed.

(** X19.  Readings of other sites and readings outside the interval do not
    count: when both dates are valid, appending such documents to the store
    leaves the summary as it was. *)
Theorem summary_ignores_other_readings (site from to : string)
    (fromDate toDate : Z) (others : list TelemetryDocument) (w w2 : World) :
  store_answers w -> store_answers w2 ->
  Date_parse from = Some fromDate ->
  Date_parse to = Some toDate ->
  collection (mongo w2) = collection (mongo w) ++ others ->
  (forall d, d ∈ others ->
     doc_siteId d <> site \/ doc_ts d < fromDate \/ toDate < doc_ts d) ->
  result (getSiteSummary site from to) w2 =
  result (getSiteSummary site from to) w.
Proof.
  intros Hup Hup2 Hfrom Hto Hcoll Hothers.
  rewrite !getSiteSummary_result by done. rewrite Hcoll, Hfrom, Hto.
  unfold match_stage at 1. rewrite List.filter_app.
  fold (match_stage site (Some fromDate) (Some toDate)
          (collection (mongo w))).
  fold (match_stage site (Some fromDate) (Some toDate) others).
  rewrite (match_stage_none site _ _ others); [by rewrite app_nil_r|].
  intros d Hd. unfold matches, bson_date. cbn [default from_option]. unfold id.
  destruct (Hothers d Hd) as [Hs|[Hlo|Hhi]].
  - by rewrite bool_decide_eq_false_2.
  - apply andb_false_intro2, andb_false_intro1, Z.leb_gt. lia.
  - apply andb_false_intro2, andb_false_intro2, Z.leb_gt. lia.
Qed.

(* ===================================================================== *)
(** ** The read paths *)
(* ===================================================================== *)

Lemma cacheLatest_frame (dev : string) (data : CachePayload) (ttl : Z)
    (w : World) :
  let w' := after (cacheLatest dev data ttl) w in
  mongo w' = mongo w /\ http w' = http w /\
  forall key, key <> "latest:" +:+ dev ->
              keyspace w' !! key = keyspace w !! key.
Proof.
  unfold after. rewrite cacheLatest_run. cbn [snd].
  destruct (isConnected (redis w)); [|done].
  destruct (JSON_stringify data) as [json|]; [|done].
  repeat split; try done. intros key Hkey.
  unfold issue, keyspace at 1. cbn. unfold setex_keyspace.
  destruct (faulty w || (ttl <=? 0)); [done|].
  by rewrite lookup_insert_ne.
Qed.

(** X20.  The two read paths write nothing but the cache entry of the
    device looked up, whatever the outcome and whatever the state of the
    services: a site summary leaves the stored readings, the cache adapter
    and the webhook as they were; a latest-reading lookup leaves the stored
    readings, the webhook and every cache key other than
    [latest:<deviceId>] (the dedup markers among them) as they were. *)
Theorem reads_do_not_write (site from to dev : string) (w : World) :
  let ws := after (getSiteSummary site from to) w in
  let wl := after (getLatest dev) w in
  (collection (mongo ws) = collection (mongo w) /\
   redis ws = redis w /\ http ws = http w) /\
  (collection (mongo wl) = collection (mongo w) /\
   http wl = http w /\
   forall key, key <> "latest:" +:+ dev ->
               keyspace wl !! key = keyspace w !! key).
Proof.
  cbv zeta. split.
  - unfold after, getSiteSummary, bind, aggregate, mongo_query,
      mongo_operation, ret.
    destruct (hd Answers (mongo_faults (mongo w))); cbn; [|done].
    by destruct (map project_stage _).
  - unfold after at 1 2 3. rewrite getLatest_run. cbv zeta.
    destruct (RedisService_getLatest_frame dev w) as (_ & Hm & _ & Hk & _).
    assert (Hh : http (after (RedisService_getLatest dev) w) = http w).
    { unfold after. rewrite RedisService_getLatest_run.
      by destruct (isConnected (redis w)). }
    set (w1 := after (RedisService_getLatest dev) w) in *.
    destruct (truthy (cache_value dev w)); cbn [snd].
    { rewrite Hm, Hh, Hk. done. }
    set (w2 := set_mongo _ w1).
    assert (H2 : collection (mongo w2) = collection (mongo w) /\
                 http w2 = http w /\ keyspace w2 = keyspace w)
      by (by subst w2).
    destruct H2 as (H2m & H2h & H2k).
    destruct (hd Answers (mongo_faults (mongo w))); cbn [snd].
    2: { rewrite H2m, H2h, H2k. done. }
    destruct (sort_ts_desc_first _) as [latest|]; cbn [snd].
    + destruct (cacheLatest_frame dev (LeanDoc latest) DEFAULT_TTL w2)
        as (Hcm & Hch & Hck).
      rewrite Hcm, Hch, H2m, H2h. repeat split; try done.
      intros key Hkey. by rewrite (Hck key Hkey), H2k.
    + rewrite H2m, H2h, H2k. done.
Qed.


End Services.

(* ===================================================================== *)
(** ** The scenarios, checked *)
(* ===================================================================== *)

(** C1 at work: Redis is down and the webhook times out; two readings are
    accepted all the same. *)
Lemma ingest_outcome_witness :
  result (TelemetryController_ingestTelemetry scenario_stringify
            scenario_date oldest_first alerting
            (PArray [reading "device-001" 65%Q 95%Q;
                     reading "device-002" 30%Q 70%Q]))
         (world [] false [] [TimedOut; NetworkError]) =
  Ok (mkIngestResponse true 2).
Proof.
  refine (proj2 (proj1 (ingest_outcome scenario_stringify scenario_date
                          oldest_first
                          alerting _ _)
                   [stored 0 "device-001" 1759312800000 65%Q 95%Q;
                    stored 1 "device-002" 1759312800000 30%Q 70%Q] _)).
  vm_compute. reflexivity.
Defined.

(** C2 at work: temperature exactly 50 and humidity 90.0001. *)
Lemma thresholds_strict_witness :
  let alerts := sent alerting "device-001" "site-A"
                  "2025-10-01T10:00:00.000Z" 50%Q (900001 # 10000)%Q
                  (world [] true [] []) in
  mkAlert "device-001" "site-A" "2025-10-01T10:00:00.000Z"
          HIGH_HUMIDITY (900001 # 10000)%Q ∈ alerts /\
  forall a, a ∈ alerts -> alert_reason a <> HIGH_TEMPERATURE.
Proof.
  destruct (thresholds_strict alerting "device-001" "site-A"
              "2025-10-01T10:00:00.000Z" 50%Q (900001 # 10000)%Q
              (world [] true [] []))
    as (_ & _ & _ & Hhum & Htemp & _).
  split.
  - apply Hhum; [vm_compute; reflexivity | reflexivity].
  - apply Htemp. reflexivity.
Defined.

(** C3 as stated fails: the adapter is disconnected, the temperature is 55
    and no marker exists, yet nothing is stored under the dedup key. *)
Lemma marker_unwritten_when_disconnected :
  let w := world [] false [] [] in
  let w' := after (checkAndAlert alerting "device-001" "site-A"
                     "2025-10-01T10:00:00.000Z" 55%Q 60%Q) w in
  let key := alert_key "device-001" HIGH_TEMPERATURE in
  ~ (SETEX key (dedupWindow alerting) "1" ∈ new_commands w w' \/
     is_Some (keyspace w' !! key) <->
     exceeds_threshold HIGH_TEMPERATURE 55%Q 60%Q /\
     marker_live key w = false).
Proof.
  cbv zeta. intros [_ H].
  assert (Hnone : keyspace
            (after (checkAndAlert alerting "device-001" "site-A"
                      "2025-10-01T10:00:00.000Z" 55%Q 60%Q)
                   (world [] false [] []))
            !! alert_key "device-001" HIGH_TEMPERATURE = None)
    by (vm_compute; reflexivity).
  assert (Hquiet : new_commands (world [] false [] [])
            (after (checkAndAlert alerting "device-001" "site-A"
                      "2025-10-01T10:00:00.000Z" 55%Q 60%Q)
                   (world [] false [] [])) = [])
    by (vm_compute; reflexivity).
  rewrite Hnone, Hquiet in H.
  destruct H as [Hin|[x Hx]].
  - split; [reflexivity | vm_compute; reflexivity].
  - by apply elem_of_nil in Hin.
  - discriminate Hx.
Qed.

(** C3 at work, the adapter connected and answering: 55 degrees and no
    marker, the marker is written and expires 60 seconds later. *)
Lemma dedup_marker_rule_witness :
  let w := world [] true [] [] in
  let w' := after (checkAndAlert alerting "device-001" "site-A"
                     "2025-10-01T10:00:00.000Z" 55%Q 60%Q) w in
  (isConnected (redis w) = true /\
   redis_faults (client (redis w)) = [] /\
   0 < dedupWindow alerting) /\
  SETEX "alert:device-001:HIGH_TEMPERATURE" 60 "1" ∈ new_commands w w' /\
  keyspace w' !! "alert:device-001:HIGH_TEMPERATURE" =
    Some ("1", 1759312860000).
Proof.
  cbv zeta.
  assert (Hpre : isConnected (redis (world [] true [] [])) = true /\
                 redis_faults (client (redis (world [] true [] []))) = [] /\
                 0 < dedupWindow alerting)
    by (repeat split; reflexivity).
  split; [exact Hpre|].
  destruct Hpre as (Hc & Hf & Hwin).
  destruct (dedup_marker_rule alerting "device-001" "site-A"
              "2025-10-01T10:00:00.000Z" 55%Q 60%Q HIGH_TEMPERATURE
              (world [] true [] [])) as [_ Hrule].
  destruct (Hrule Hc Hf Hwin) as (Hiff & Hset & _).
  assert (Hw : SETEX (alert_key "device-001" HIGH_TEMPERATURE)
                 (dedupWindow alerting) "1"
               ∈ new_commands (world [] true [] [])
                   (after (checkAndAlert alerting "device-001" "site-A"
                             "2025-10-01T10:00:00.000Z" 55%Q 60%Q)
                          (world [] true [] []))).
  { apply Hiff. split; [reflexivity | vm_compute; reflexivity]. }
  split; [exact Hw | exact (Hset Hw)].
Defined.

(** C4 at work. *)
Lemma dual_alert_witness :
  let w := world [] true [] [] in
  (marker_live (alert_key "device-001" HIGH_TEMPERATURE) w = false /\
   marker_live (alert_key "device-001" HIGH_HUMIDITY) w = false) /\
  sent alerting "device-001" "site-A" "2025-10-01T10:00:00.000Z"
       65%Q 95%Q w =
  [mkAlert "device-001" "site-A" "2025-10-01T10:00:00.000Z"
           HIGH_TEMPERATURE 65%Q;
   mkAlert "device-001" "site-A" "2025-10-01T10:00:00.000Z"
           HIGH_HUMIDITY 95%Q].
Proof.
  cbv zeta.
  assert (Hpre :
    marker_live (alert_key "device-001" HIGH_TEMPERATURE)
                (world [] true [] []) = false /\
    marker_live (alert_key "device-001" HIGH_HUMIDITY)
                (world [] true [] []) = false)
    by (split; vm_compute; reflexivity).
  split; [exact Hpre|].
  destruct Hpre as [HT HH].
  exact (proj1 (dual_alert alerting "device-001" "site-A"
                  "2025-10-01T10:00:00.000Z" (world [] true [] []) HT HH)).
Defined.

(** C5 at work: the webhook times out; the call resolves, and 59.999
    seconds later the marker still stands. *)
Lemma delivery_failure_contained_witness :
  let w := world [] true [] [TimedOut] in
  let w' := after (checkAndAlert alerting "device-001" "site-A"
                     "2025-10-01T10:00:00.000Z" 55%Q 60%Q) w in
  result (checkAndAlert alerting "device-001" "site-A"
            "2025-10-01T10:00:00.000Z" 55%Q 60%Q) w = Ok tt /\
  marker_live (alert_key "device-001" HIGH_TEMPERATURE)
              (advance 59999 w') = true.
Proof.
  cbv zeta.
  destruct (delivery_failure_contained alerting "device-001" "site-A"
              "2025-10-01T10:00:00.000Z" 55%Q 60%Q
              (world [] true [] [TimedOut])) as (_ & Hok & Hwindow).
  split; [exact Hok|].
  refine (proj1 (Hwindow _ _ _ HIGH_TEMPERATURE _ _ 59999 _)).
  - reflexivity.
  - reflexivity.
  - reflexivity.
  - reflexivity.
  - vm_compute. reflexivity.
  - split; [discriminate | reflexivity].
Defined.

(** C6 at work. *)
Lemma cache_failures_absorbed_witness :
  cache_down unreachable_cache /\
  result (wasAlertRecentlySent "device-001" HIGH_TEMPERATURE)
         unreachable_cache = Ok false /\
  result (RedisService_getLatest scenario_parse "device-001")
         unreachable_cache = Ok JNull.
Proof.
  assert (Hdown : cache_down unreachable_cache) by (left; reflexivity).
  split; [exact Hdown|].
  destruct (cache_failures_absorbed scenario_stringify scenario_parse
              "device-001" HIGH_TEMPERATURE
              (LeanDoc (stored 0 "device-001" 0 25%Q 60%Q)) 86400 60
              unreachable_cache)
    as (_ & H & _).
  destruct (H Hdown) as (H1 & H2 & _).
  split; [exact H1 | exact H2].
Defined.

(** C7 at work. *)
Lemma summary_of_nothing_witness :
  (store_answers other_readings /\
   scenario_date "2025-10-01T00:00:00.000Z" = Some 1759276800000 /\
   scenario_date "2025-10-02T00:00:00.000Z" = Some 1759363200000) /\
  result (getSiteSummary scenario_date double_avg double_round "site-A"
            "2025-10-01T00:00:00.000Z" "2025-10-02T00:00:00.000Z")
         other_readings =
  Ok (mkSummary 0 0%Q 0%Q 0%Q 0%Q 0).
Proof.
  assert (Hpre :
    store_answers other_readings /\
    scenario_date "2025-10-01T00:00:00.000Z" = Some 1759276800000 /\
    scenario_date "2025-10-02T00:00:00.000Z" = Some 1759363200000)
    by (repeat split; reflexivity).
  split; [exact Hpre|].
  destruct Hpre as (Hup & Hfrom & Hto).
  apply (summary_of_nothing scenario_date double_avg double_round "site-A"
           "2025-10-01T00:00:00.000Z" "2025-10-02T00:00:00.000Z"
           1759276800000 1759363200000 other_readings Hup Hfrom Hto).
  intros d Hd [Hsite Hts].
  apply elem_of_cons in Hd as [->|Hd]; [discriminate Hsite|].
  apply list_elem_of_singleton in Hd as ->.
  cbn in Hts. lia.
Defined.



(** C9 at work: the later reading of device-001 comes back from the store
    and is cached again. *)
Lemma latest_lookup_witness :
  store_answers cold_cache /\
  result (getLatest scenario_stringify scenario_parse "device-001")
         cold_cache =
    Ok (FromMongo (stored 0 "device-001" 1759312830000 26%Q 61%Q)) /\
  exists cached latest,
    result (RedisService_getLatest scenario_parse "device-001") cold_cache
      = Ok cached /\
    truthy cached = false /\
    result (getLatest scenario_stringify scenario_parse "device-001")
           cold_cache = Ok (FromMongo latest) /\
    forall d', d' ∈ collection (mongo cold_cache) ->
               doc_deviceId d' = "device-001" -> doc_ts d' <= doc_ts latest.
Proof.
  assert (Hup : store_answers cold_cache) by reflexivity.
  split; [exact Hup|]. split; [vm_compute; reflexivity|].
  destruct (latest_lookup scenario_stringify scenario_parse "device-001"
              cold_cache) as (cached & Hcached & _ & Hmiss & _).
  assert (Hfalsy : truthy cached = false).
  { vm_compute in Hcached. by injection Hcached as <-. }
  destruct (Hmiss Hfalsy Hup
              (stored 1 "device-001" 1759312800000 25%Q 60%Q))
    as (latest & Hlatest & _ & _ & Hnewest & _).
  - right. left.
  - reflexivity.
  - exists cached, latest. auto.
Defined.

(** C10 at work: the adapter is connected, the entry has not expired, and
    the reading still comes from the store. *)
Lemma corrupt_cache_is_a_miss_witness :
  (keyspace corrupt_cache !! "latest:device-001" =
     Some ("deviceId=device-001", 1759399200000) /\
   scenario_parse "deviceId=device-001" = None) /\
  result (RedisService_getLatest scenario_parse "device-001") corrupt_cache
    = Ok JNull /\
  result (getLatest scenario_stringify scenario_parse "device-001")
         corrupt_cache =
    Ok (FromMongo (stored 0 "device-001" 1759312800000 25%Q 60%Q)).
Proof.
  assert (Hpre :
    keyspace corrupt_cache !! "latest:device-001" =
      Some ("deviceId=device-001", 1759399200000) /\
    scenario_parse "deviceId=device-001" = None)
    by (split; vm_compute; reflexivity).
  split; [exact Hpre|].
  destruct Hpre as (Hkv & Hparse).
  destruct (corrupt_cache_is_a_miss scenario_stringify scenario_parse
              "device-001" "deviceId=device-001" 1759399200000
              corrupt_cache Hkv Hparse) as (H1 & H2 & _).
  split; [exact H1|].
  rewrite H2. vm_compute. reflexivity.
Defined.

(* ===================================================================== *)
(** ** Further scenarios, checked *)
(* ===================================================================== *)

(** X1 at work: a token compared with itself. *)
Lemma constantTimeCompare_spec_witness :
  constantTimeCompare "test-secret-token" "test-secret-token" = true.
Proof.
  apply (proj2 (constantTimeCompare_spec "test-secret-token"
                  "test-secret-token")).
  reflexivity.
Defined.

(** X2 at work: the configured token behind the Bearer scheme. *)
Lemma auth_accepts_exactly_witness :
  ("test-secret-token" <> "" /\
   contains_space "test-secret-token" = false) /\
  canActivate (mkAuthGuard (Some "test-secret-token"))
              (Some "Bearer test-secret-token") = Returns true.
Proof.
  assert (Hpre : "test-secret-token" <> "" /\
                 contains_space "test-secret-token" = false)
    by (split; [discriminate | reflexivity]).
  split; [exact Hpre|]. destruct Hpre as [Hne Hsp].
  apply (proj2 (auth_accepts_exactly "test-secret-token"
                  (Some "Bearer test-secret-token") Hne Hsp)).
  left. reflexivity.
Defined.

(** X3 at work: no token configured, no header sent. *)
Lemma auth_optional_never_false_witness :
  canActivate (mkAuthGuard None) None = Returns true.
Proof.
  apply (proj1 (auth_optional_never_false (mkAuthGuard None) None)).
  left. reflexivity.
Defined.

(** X4 at work: a configured token of two words, presented as it is. *)
Lemma auth_token_with_space_locks_out_witness :
  contains_space "my token" = true /\
  canActivate (mkAuthGuard (Some "my token")) (Some "Bearer my token")
    <> Returns true.
Proof.
  assert (Hsp : contains_space "my token" = true) by reflexivity.
  split; [exact Hsp|].
  exact (auth_token_with_space_locks_out "my token"
           (Some "Bearer my token") Hsp).
Defined.

(** X5 at work: MongoDB connected, the cache adapter disconnected. *)
Lemma health_report_witness :
  exists r, result (checkHealth 1) unreachable_cache = Ok r /\
            health_status r = "unhealthy" /\ mongodb_status r = "up".
Proof.
  destruct (health_report 1 unreachable_cache)
    as (r & Hr & Hiff & Hun & Hmongo & _).
  exists r. split; [exact Hr|]. split.
  - apply Hun. intros Hh. apply Hiff in Hh as (_ & Hc & _).
    vm_compute in Hc. discriminate Hc.
  - apply Hmongo. reflexivity.
Defined.

(** X6 at work: an entry cached for a day is read back one second later
    and is gone after the day. *)
Lemma cache_round_trip_witness :
  let w := world [] true [] [] in
  let data := LeanDoc (stored 0 "device-001" 1759312800000 25%Q 60%Q) in
  let w1 := after (cacheLatest scenario_stringify "device-001" data 86400)
                  w in
  (isConnected (redis w) = true /\
   redis_faults (client (redis w)) = [] /\
   scenario_stringify data = Some "{deviceId:device-001}" /\
   "{deviceId:device-001}" <> "" /\
   0 < 86400) /\
  result (RedisService_getLatest scenario_parse "device-001")
         (advance 1000 w1) =
    Ok (JObj [("text", JStr "{deviceId:device-001}")]) /\
  result (RedisService_getLatest scenario_parse "device-001")
         (advance 86400000 w1) = Ok JNull.
Proof.
  cbv zeta.
  assert (Hpre :
    isConnected (redis (world [] true [] [])) = true /\
    redis_faults (client (redis (world [] true [] []))) = [] /\
    scenario_stringify
      (LeanDoc (stored 0 "device-001" 1759312800000 25%Q 60%Q)) =
      Some "{deviceId:device-001}" /\
    "{deviceId:device-001}" <> "" /\
    0 < 86400)
    by (split; [reflexivity|]; split; [reflexivity|];
        split; [reflexivity|]; split; [discriminate | reflexivity]).
  split; [exact Hpre|].
  destruct Hpre as (Hc & Hf & Hs & Hne & Httl).
  destruct (cache_round_trip scenario_stringify scenario_parse "device-001"
              (LeanDoc (stored 0 "device-001" 1759312800000 25%Q 60%Q))
              86400 "{deviceId:device-001}" (world [] true [] [])
              Hc Hf Hs Hne Httl) as (Hin & Hout & _).
  split.
  - apply (Hin 1000). lia.
  - apply (Hout 86400000). lia.
Defined.

(** X7 at work: a cached reading and a dedup marker of the same device. *)
Lemma cache_keys_distinct_witness :
  "latest:" +:+ "device-001" <> alert_key "device-001" HIGH_TEMPERATURE.
Proof.
  exact (proj1 (proj2 (cache_keys_distinct "device-001" "device-001"
                         HIGH_TEMPERATURE HIGH_TEMPERATURE))).
Defined.

(** X8 at work: Redis holds the marker, but the adapter is disconnected;
    the alert goes out again. *)
Lemma fail_open_without_cache_witness :
  isConnected (redis unreachable_cache) = false /\
  mkAlert "device-001" "site-A" "2025-10-01T10:00:00.000Z"
          HIGH_TEMPERATURE 55%Q
  ∈ sent alerting "device-001" "site-A" "2025-10-01T10:00:00.000Z"
         55%Q 60%Q unreachable_cache.
Proof.
  assert (Hc : isConnected (redis unreachable_cache) = false)
    by reflexivity.
  split; [exact Hc|].
  destruct (fail_open_without_cache alerting "device-001" "site-A"
              "2025-10-01T10:00:00.000Z" 55%Q 60%Q unreachable_cache Hc)
    as (_ & Htemp & _).
  apply Htemp. reflexivity.
Defined.

(** X9 at work: 55 degrees at 10:00:00, 56 degrees sixty seconds later. *)
Lemma realert_after_window_witness :
  let w := world [] true [] [] in
  let later := advance 60000
                 (after (checkAndAlert alerting "device-001" "site-A"
                           "2025-10-01T10:00:00.000Z" 55%Q 60%Q) w) in
  (isConnected (redis w) = true /\
   redis_faults (client (redis w)) = [] /\
   0 < dedupWindow alerting /\
   exceeds_threshold HIGH_TEMPERATURE 55%Q 60%Q /\
   marker_live (alert_key "device-001" HIGH_TEMPERATURE) w = false /\
   1000 * dedupWindow alerting <= 60000 /\
   exceeds_threshold HIGH_TEMPERATURE 56%Q 60%Q) /\
  exists a,
    a ∈ sent alerting "device-001" "site-A" "2025-10-01T10:01:00.000Z"
             56%Q 60%Q later /\
    alert_reason a = HIGH_TEMPERATURE /\ alert_deviceId a = "device-001".
Proof.
  cbv zeta.
  assert (Hpre :
    isConnected (redis (world [] true [] [])) = true /\
    redis_faults (client (redis (world [] true [] []))) = [] /\
    0 < dedupWindow alerting /\
    exceeds_threshold HIGH_TEMPERATURE 55%Q 60%Q /\
    marker_live (alert_key "device-001" HIGH_TEMPERATURE)
                (world [] true [] []) = false /\
    1000 * dedupWindow alerting <= 60000 /\
    exceeds_threshold HIGH_TEMPERATURE 56%Q 60%Q).
  { split; [reflexivity|]. split; [reflexivity|]. split; [reflexivity|].
    split; [reflexivity|]. split; [vm_compute; reflexivity|].
    split; [vm_compute; discriminate | reflexivity]. }
  split; [exact Hpre|].
  destruct Hpre as (Hc & Hf & Hwin & Hex & Hm & Hdt & Hex2).
  exact (realert_after_window alerting "device-001" "site-A"
           "2025-10-01T10:00:00.000Z" 55%Q 60%Q HIGH_TEMPERATURE
           (world [] true [] []) Hc Hf Hwin Hex Hm
           60000 "site-A" "2025-10-01T10:01:00.000Z" 56%Q 60%Q Hdt Hex2).
Defined.

(** X10 at work: both thresholds exceeded; every request goes to the
    configured URL. *)
Lemma alert_payloads_witness :
  let w := world [] true [] [] in
  let reqs := new_requests w
                (after (checkAndAlert alerting "device-001" "site-A"
                          "2025-10-01T10:00:00.000Z" 65%Q 95%Q) w) in
  length reqs = 2%nat /\
  forall url a, (url, a) ∈ reqs -> url = "https://webhook.site/test-uuid".
Proof.
  cbv zeta. split; [vm_compute; reflexivity|].
  intros url a Hin.
  destruct (alert_payloads alerting "device-001" "site-A"
              "2025-10-01T10:00:00.000Z" 65%Q 95%Q (world [] true [] []))
    as (_ & _ & Hall).
  exact (proj1 (Hall url a Hin)).
Defined.

(** X11 at work: MongoDB rejects the insert of two readings after it has
    written the first; no alert is sent and nothing is cached, and the first
    document stays in the store. *)
Lemma failed_ingest_starts_nothing_witness :
  let run := ingestTelemetry scenario_stringify scenario_date
               oldest_first alerting
               [reading "device-001" 65%Q 95%Q;
                reading "device-002" 30%Q 70%Q] in
  result run rejecting_store = Throw MongoError /\
  redis (after run rejecting_store) = redis rejecting_store /\
  http (after run rejecting_store) = http rejecting_store /\
  collection (mongo (after run rejecting_store)) =
    [stored 0 "device-001" 1759312800000 65%Q 95%Q].
Proof.
  cbv zeta.
  assert (Hthrow :
    result (ingestTelemetry scenario_stringify scenario_date
              oldest_first alerting
              [reading "device-001" 65%Q 95%Q;
               reading "device-002" 30%Q 70%Q]) rejecting_store =
    Throw MongoError) by (vm_compute; reflexivity).
  split; [exact Hthrow|].
  destruct (failed_ingest_starts_nothing scenario_stringify scenario_date
              oldest_first
              alerting [reading "device-001" 65%Q 95%Q;
                        reading "device-002" 30%Q 70%Q] MongoError
              rejecting_store Hthrow) as (Hr & Hh & _).
  split; [exact Hr|]. split; [exact Hh|]. vm_compute. reflexivity.
Defined.

(** X12 at work: one reading ingested into an empty store. *)
Lemma ingest_appends_witness :
  let w := world [] true [] [] in
  let run := ingestTelemetry scenario_stringify scenario_date
               oldest_first alerting
               [reading "device-001" 25%Q 60%Q] in
  let docs := [stored 0 "device-001" 1759312800000 25%Q 60%Q] in
  result run w = Ok docs /\
  collection (mongo (after run w)) = collection (mongo w) ++ docs.
Proof.
  cbv zeta.
  assert (Hok :
    result (ingestTelemetry scenario_stringify scenario_date
              oldest_first alerting
              [reading "device-001" 25%Q 60%Q]) (world [] true [] []) =
    Ok [stored 0 "device-001" 1759312800000 25%Q 60%Q])
    by (vm_compute; reflexivity).
  split; [exact Hok|].
  exact (proj1 (ingest_appends scenario_stringify scenario_date
                  oldest_first alerting
                  [reading "device-001" 25%Q 60%Q]
                  [stored 0 "device-001" 1759312800000 25%Q 60%Q]
                  (world [] true [] []) Hok)).
Defined.

(** X13 at work: a batch of two readings makes at most four requests. *)
Lemma ingest_request_bound_witness :
  (length
     (new_requests (world [] true [] [])
        (after (ingestTelemetry scenario_stringify scenario_date
                  oldest_first alerting
                  [reading "device-001" 65%Q 95%Q;
                   reading "device-002" 30%Q 70%Q])
               (world [] true [] []))) <= 4)%nat.
Proof.
  exact (ingest_request_bound scenario_stringify scenario_date
           oldest_first alerting
           [reading "device-001" 65%Q 95%Q; reading "device-002" 30%Q 70%Q]
           (world [] true [] [])).
Defined.

(** X14 at work: right after its ingestion, the reading of device-001 is
    found. *)
Lemma latest_found_after_ingest_witness :
  let w := world [] true [] [] in
  let run := ingestTelemetry scenario_stringify scenario_date
               oldest_first alerting
               [reading "device-001" 25%Q 60%Q] in
  (result run w = Ok [stored 0 "device-001" 1759312800000 25%Q 60%Q] /\
   reading "device-001" 25%Q 60%Q ∈ [reading "device-001" 25%Q 60%Q] /\
   store_answers (after run w)) /\
  exists v,
    result (getLatest scenario_stringify scenario_parse "device-001")
           (after run w) = Ok v.
Proof.
  cbv zeta.
  assert (Hpre :
    result (ingestTelemetry scenario_stringify scenario_date
              oldest_first alerting
              [reading "device-001" 25%Q 60%Q]) (world [] true [] []) =
      Ok [stored 0 "device-001" 1759312800000 25%Q 60%Q] /\
    reading "device-001" 25%Q 60%Q ∈ [reading "device-001" 25%Q 60%Q] /\
    store_answers
      (after (ingestTelemetry scenario_stringify scenario_date
                oldest_first alerting
                [reading "device-001" 25%Q 60%Q]) (world [] true [] []))).
  { split; [vm_compute; reflexivity|].
    split; [apply list_elem_of_here | vm_compute; reflexivity]. }
  split; [exact Hpre|].
  destruct Hpre as (Hok & Hin & Hup).
  destruct (latest_found_after_ingest scenario_stringify scenario_parse
              scenario_date
                  oldest_first alerting [reading "device-001" 25%Q 60%Q]
              [stored 0 "device-001" 1759312800000 25%Q 60%Q]
              (reading "device-001" 25%Q 60%Q) (world [] true [] [])
              (after (ingestTelemetry scenario_stringify scenario_date
                        oldest_first
                        alerting [reading "device-001" 25%Q 60%Q])
                     (world [] true [] []))
              Hok Hin (fun doc H => H) Hup) as (v & Hv & _).
  exists v. exact Hv.
Defined.

(** X15 at work: the first lookup is served by MongoDB, the second, one
    second later, by the cache. *)
Lemma second_lookup_hits_cache_witness :
  let lookup := getLatest scenario_stringify scenario_parse "device-001" in
  let latest := stored 0 "device-001" 1759312830000 26%Q 61%Q in
  let v := JObj [("text", JStr "{deviceId:device-001}")] in
  (isConnected (redis cold_cache) = true /\
   redis_faults (client (redis cold_cache)) = [] /\
   result lookup cold_cache = Ok (FromMongo latest) /\
   scenario_stringify (LeanDoc latest) = Some "{deviceId:device-001}" /\
   "{deviceId:device-001}" <> "" /\
   scenario_parse "{deviceId:device-001}" = Some v /\
   truthy v = true) /\
  result lookup (advance 1000 (after lookup cold_cache)) = Ok (FromCache v).
Proof.
  cbv zeta.
  assert (Hpre :
    isConnected (redis cold_cache) = true /\
    redis_faults (client (redis cold_cache)) = [] /\
    result (getLatest scenario_stringify scenario_parse "device-001")
           cold_cache =
      Ok (FromMongo (stored 0 "device-001" 1759312830000 26%Q 61%Q)) /\
    scenario_stringify
      (LeanDoc (stored 0 "device-001" 1759312830000 26%Q 61%Q)) =
      Some "{deviceId:device-001}" /\
    "{deviceId:device-001}" <> "" /\
    scenario_parse "{deviceId:device-001}" =
      Some (JObj [("text", JStr "{deviceId:device-001}")]) /\
    truthy (JObj [("text", JStr "{deviceId:device-001}")]) = true).
  { split; [reflexivity|]. split; [reflexivity|].
    split; [vm_compute; reflexivity|]. split; [reflexivity|].
    split; [discriminate|]. split; reflexivity. }
  split; [exact Hpre|].
  destruct Hpre as (Hc & Hf & Hfirst & Hs & Hne & Hp & Ht).
  refine (proj1 (second_lookup_hits_cache scenario_stringify scenario_parse
                   "device-001" "{deviceId:device-001}"
                   (stored 0 "device-001" 1759312830000 26%Q 61%Q)
                   (JObj [("text", JStr "{deviceId:device-001}")])
                   cold_cache Hc Hf Hfirst Hs Hne Hp Ht 1000 _)).
  lia.
Defined.

(** X16 at work, on the two readings of site-A. *)
Lemma summary_counts_witness :
  (store_answers two_readings /\
   scenario_date "2025-10-01T00:00:00.000Z" = Some 1759276800000 /\
   scenario_date "2025-10-02T00:00:00.000Z" = Some 1759363200000 /\
   match_stage "site-A" (Some 1759276800000) (Some 1759363200000)
     (collection (mongo two_readings)) <> []) /\
  exists r,
    result (getSiteSummary scenario_date double_avg double_round "site-A"
              "2025-10-01T00:00:00.000Z" "2025-10-02T00:00:00.000Z")
           two_readings = Ok r /\
    (1 <= uniqueDevices r <= count r)%nat /\
    (count r <= length (collection (mongo two_readings)))%nat.
Proof.
  assert (Hpre :
    store_answers two_readings /\
    scenario_date "2025-10-01T00:00:00.000Z" = Some 1759276800000 /\
    scenario_date "2025-10-02T00:00:00.000Z" = Some 1759363200000 /\
    match_stage "site-A" (Some 1759276800000) (Some 1759363200000)
      (collection (mongo two_readings)) <> [])
    by (split; [reflexivity|]; split; [reflexivity|];
        split; [reflexivity | vm_compute; discriminate]).
  split; [exact Hpre|].
  destruct Hpre as (Hup & Hfrom & Hto & Hne).
  exact (summary_counts scenario_date double_avg double_round "site-A"
           "2025-10-01T00:00:00.000Z" "2025-10-02T00:00:00.000Z"
           1759276800000 1759363200000 two_readings Hup Hfrom Hto Hne).
Defined.

(** X18 at work: the interval of C8, its ends exchanged. *)
Lemma summary_of_reversed_interval_witness :
  (store_answers two_readings /\
   scenario_date "2025-10-02T00:00:00.000Z" = Some 1759363200000 /\
   scenario_date "2025-10-01T00:00:00.000Z" = Some 1759276800000 /\
   1759276800000 < 1759363200000) /\
  result (getSiteSummary scenario_date double_avg double_round "site-A"
            "2025-10-02T00:00:00.000Z" "2025-10-01T00:00:00.000Z")
         two_readings =
  Ok (mkSummary 0 0%Q 0%Q 0%Q 0%Q 0).
Proof.
  assert (Hpre :
    store_answers two_readings /\
    scenario_date "2025-10-02T00:00:00.000Z" = Some 1759363200000 /\
    scenario_date "2025-10-01T00:00:00.000Z" = Some 1759276800000 /\
    1759276800000 < 1759363200000)
    by (repeat split; reflexivity).
  split; [exact Hpre|].
  destruct Hpre as (Hup & Hfrom & Hto & Hlt).
  exact (summary_of_reversed_interval scenario_date
           double_avg double_round "site-A"
           "2025-10-02T00:00:00.000Z" "2025-10-01T00:00:00.000Z"
           1759363200000 1759276800000 two_readings Hup Hfrom Hto Hlt).
Defined.

(** X19 at work: a reading of site-B and a reading taken too late are
    added to the store; the summary of site-A is what it was. *)
Lemma summary_ignores_other_readings_witness :
  (store_answers two_readings /\ store_answers two_readings_and_more /\
   scenario_date "2025-10-01T00:00:00.000Z" = Some 1759276800000 /\
   scenario_date "2025-10-02T00:00:00.000Z" = Some 1759363200000 /\
   collection (mongo two_readings_and_more) =
     collection (mongo two_readings) ++ later_readings) /\
  result (getSiteSummary scenario_date double_avg double_round "site-A"
            "2025-10-01T00:00:00.000Z" "2025-10-02T00:00:00.000Z")
         two_readings_and_more =
  result (getSiteSummary scenario_date double_avg double_round "site-A"
            "2025-10-01T00:00:00.000Z" "2025-10-02T00:00:00.000Z")
         two_readings.
Proof.
  assert (Hpre :
    store_answers two_readings /\ store_answers two_readings_and_more /\
    scenario_date "2025-10-01T00:00:00.000Z" = Some 1759276800000 /\
    scenario_date "2025-10-02T00:00:00.000Z" = Some 1759363200000 /\
    collection (mongo two_readings_and_more) =
      collection (mongo two_readings) ++ later_readings)
    by (repeat split; reflexivity).
  split; [exact Hpre|].
  destruct Hpre as (Hup & Hup2 & Hfrom & Hto & Hcoll).
  apply (summary_ignores_other_readings scenario_date double_avg
           double_round "site-A"
           "2025-10-01T00:00:00.000Z" "2025-10-02T00:00:00.000Z"
           1759276800000 1759363200000
           later_readings two_readings two_readings_and_more
           Hup Hup2 Hfrom Hto Hcoll).
  intros d Hd. unfold later_readings in Hd.
  apply elem_of_cons in Hd as [->|Hd].
  - left. discriminate.
  - apply list_elem_of_singleton in Hd as ->. right. right. reflexivity.
Defined.

(** X20 at work: a lookup that re-caches the reading of device-001 leaves
    the device's dedup marker in place. *)
Lemma reads_do_not_write_witness :
  let wl := after (getLatest scenario_stringify scenario_parse "device-001")
                  marked_cold_cache in
  keyspace wl !! "alert:device-001:HIGH_TEMPERATURE" =
    Some ("1", 1759312860000) /\
  collection (mongo wl) = collection (mongo marked_cold_cache).
Proof.
  cbv zeta.
  destruct (reads_do_not_write scenario_stringify scenario_parse
              scenario_date
                  double_avg double_round "site-A" "2025-10-01T00:00:00.000Z"
              "2025-10-02T00:00:00.000Z" "device-001" marked_cold_cache)
    as (_ & Hm & _ & Hk).
  split; [|exact Hm].
  rewrite (Hk "alert:device-001:HIGH_TEMPERATURE") by discriminate.
  vm_compute. reflexivity.
Defined.

